(** * NanoStat module of MultiQC: a shallow embedding and its properties

    The development follows [multiqc/modules/nanostat/nanostat.py]:
    - [Py]: the Python builtins the module relies on (string methods,
      [int()], [float()], numeric subtraction, insertion-ordered dicts) and
      [jinja2.escape];
    - [NanoStat]: the module itself ([parse_nanostat_log],
      [nanostat_general_stats_table], [nanostat_alignment_plot], [__init__]);
    - the properties of the specification, one theorem per claim;
    - further properties of the module, read off its code (X1 to X17).

    Modelling conventions.
    - A Python [str] is a [string] whose characters are read as the code
      points U+0000 to U+00FF.
    - A Python [float] is an IEEE 754 binary64 value, represented by the
      standard library's [spec_float] with precision 53 and [emax] 1024; a
      Python [int] is a [Z].
    - A raised exception is the [Raise] constructor of [result]; [assert]
      statements are active (the interpreter is not run with -O).
    - A Python [dict] with string keys is an insertion-ordered association
      list ([Py.dict]); the set of keys built for the table is the list of
      its elements, used for membership only. *)

From Stdlib Require Import ZArith String Ascii List Lia Bool DecimalString DecimalNat.
From Stdlib Require Import Floats.SpecFloat.
From stdpp Require Import list strings.

Local Open Scope Z_scope.
Local Open Scope string_scope.

(** ** Exceptions and the error monad *)

Inductive exn : Type :=
| ValueError
| IndexError
| KeyError (key : string)
| TypeError
| OverflowError
| AssertionError (msg : string)
| UserWarning.

Inductive result (A : Type) : Type :=
| Ok (a : A)
| Raise (e : exn).

Arguments Ok {A} a.
Arguments Raise {A} e.

(** [x ← r; k] runs [k] on the value of [r] and propagates an exception. *)
#[export] Instance result_ret : MRet result := @Ok.
#[export] Instance result_bind : MBind result := fun A B k r =>
  match r with
  | Ok a => k a
  | Raise e => Raise e
  end.

Definition of_option {A : Type} (e : exn) (o : option A) : result A :=
  match o with
  | Some a => Ok a
  | None => Raise e
  end.

(** ** Python builtins *)

Module Py.

(** *** Characters and strings *)

Definition code (c : ascii) : N := N_of_ascii c.

(** [str.isspace] on a single code point below 256. *)
Definition is_space (c : ascii) : bool :=
  let n := code c in
  ((9 <=? n) && (n <=? 13) || (28 <=? n) && (n <=? 32) || (n =? 133) || (n =? 160))%N.

Definition is_digit (c : ascii) : bool :=
  let n := code c in ((48 <=? n) && (n <=? 57))%N.

Definition digit_val (c : ascii) : Z := Z.of_N (code c) - 48.

Definition lower (c : ascii) : ascii :=
  let n := code c in
  if ((65 <=? n) && (n <=? 90))%N then ascii_of_N (n + 32) else c.

Fixpoint lower_str (s : string) : string :=
  match s with
  | EmptyString => EmptyString
  | String c s' => String (lower c) (lower_str s')
  end.

Fixpoint rev_onto (s acc : string) : string :=
  match s with
  | EmptyString => acc
  | String c s' => rev_onto s' (String c acc)
  end.

Definition rev (s : string) : string := rev_onto s EmptyString.

Fixpoint lstrip (s : string) : string :=
  match s with
  | EmptyString => EmptyString
  | String c s' => if is_space c then lstrip s' else s
  end.

Definition rstrip (s : string) : string := rev (lstrip (rev s)).

(** [s.strip()] *)
Definition strip (s : string) : string := rstrip (lstrip s).

(** [s.split(c)] for a one-character separator: never the empty list. *)
Fixpoint split (c : ascii) (s : string) : list string :=
  match s with
  | EmptyString => [EmptyString]
  | String a s' =>
      if Ascii.eqb a c then EmptyString :: split c s'
      else match split c s' with
           | w :: ws => String a w :: ws
           | [] => [String a EmptyString]
           end
  end.

(** [s.split()]: the maximal runs of non-blank characters. [acc] is the
    current run, reversed. *)
Fixpoint split_ws_from (acc : string) (s : string) : list string :=
  match s with
  | EmptyString =>
      match acc with EmptyString => [] | _ => [rev acc] end
  | String a s' =>
      if is_space a then
        match acc with
        | EmptyString => split_ws_from EmptyString s'
        | _ => rev acc :: split_ws_from EmptyString s'
        end
      else split_ws_from (String a acc) s'
  end.

Definition split_ws (s : string) : list string := split_ws_from EmptyString s.

(** [s.replace(c, "")] for a one-character pattern. *)
Fixpoint remove_char (c : ascii) (s : string) : string :=
  match s with
  | EmptyString => EmptyString
  | String a s' =>
      if Ascii.eqb a c then remove_char c s' else String a (remove_char c s')
  end.

(** [s.startswith(p)] *)
Fixpoint startswith (p s : string) : bool :=
  match p, s with
  | EmptyString, _ => true
  | String a p', String b s' => Ascii.eqb a b && startswith p' s'
  | String _ _, EmptyString => false
  end.

(** ["{} ({})".format(a, b)] on two strings. *)
Definition format2 (a b : string) : string := a ++ " (" ++ b ++ ")".

(** [l[i]] on a list: [IndexError] out of range. *)
Definition index {A : Type} (l : list A) (i : nat) : result A :=
  of_option IndexError (nth_error l i).

(** [jinja2.escape]: the five HTML-significant characters are replaced. *)
Definition escape_char (c : ascii) : string :=
  if Ascii.eqb c "&" then "&amp;"
  else if Ascii.eqb c "<" then "&lt;"
  else if Ascii.eqb c ">" then "&gt;"
  else if Ascii.eqb c "'" then "&#39;"
  else if Ascii.eqb c "034" then "&#34;"
  else String c EmptyString.

Fixpoint escape (s : string) : string :=
  match s with
  | EmptyString => EmptyString
  | String c s' => escape_char c ++ escape s'
  end.

(** *** Numeric literals *)

(** Underscores in a numeric literal are accepted only between two digits
    and are dropped; [prev] is the previous character of the literal. *)
Fixpoint drop_underscores (prev : option ascii) (s : string) : option string :=
  match s with
  | EmptyString =>
      match prev with
      | Some "_"%char => None
      | _ => Some EmptyString
      end
  | String c s' =>
      if Ascii.eqb c "_" then
        match prev with
        | Some p => if is_digit p then drop_underscores (Some c) s' else None
        | None => None
        end
      else
        match prev with
        | Some "_"%char =>
            if is_digit c then String c <$> drop_underscores (Some c) s' else None
        | _ => String c <$> drop_underscores (Some c) s'
        end
  end.

(** The longest prefix of digits, as its value and length, and the rest. *)
Fixpoint digits_from (acc : Z) (n : Z) (s : string) : Z * Z * string :=
  match s with
  | String c s' =>
      if is_digit c then digits_from (10 * acc + digit_val c) (n + 1) s'
      else (acc, n, s)
  | EmptyString => (acc, n, s)
  end.

Definition digits (s : string) : Z * Z * string := digits_from 0 0 s.

(** An optional sign: [true] for a minus. *)
Definition sign (s : string) : bool * string :=
  match s with
  | String "-" s' => (true, s')
  | String "+" s' => (false, s')
  | _ => (false, s)
  end.

(** [int(s)] in base 10; [None] is [ValueError]. The bound that recent
    interpreters put on the number of digits is not modelled. *)
Definition int_of_string (s : string) : option Z :=
  match drop_underscores None (strip s) with
  | None => None
  | Some t =>
      let (neg, t1) := sign t in
      match digits t1 with
      | (v, n, EmptyString) =>
          if (0 <? n)%Z then Some (if neg then (- v)%Z else v) else None
      | _ => None
      end
  end.

(** *** Floating-point numbers: IEEE 754 binary64 *)

Definition float : Type := spec_float.
Definition prec : Z := 53.
Definition emax : Z := 1024.

(** The binary64 value nearest to an integer (ties to even); an infinity
    when the integer is out of range. *)
Definition float_of_Z (n : Z) : float := binary_normalize prec emax n 0 false.

(** The implicit conversion of an [int] operand in mixed arithmetic. *)
Definition float_of_int (n : Z) : result float :=
  match float_of_Z n with
  | S754_infinity _ => Raise OverflowError
  | x => Ok x
  end.

Definition float_sub : float -> float -> float := SFsub prec emax.
Definition float_add : float -> float -> float := SFadd prec emax.

(** The binary64 value nearest to [(-1)^neg * m * 10^e10], for [0 <= m]. *)
Definition float_of_decimal (neg : bool) (m e10 : Z) : float :=
  if (m =? 0)%Z then S754_zero neg
  else if (0 <=? e10)%Z then
    binary_normalize prec emax (cond_Zopp neg (m * 10 ^ e10)) 0 false
  else
    SFdiv prec emax (S754_finite neg (Z.to_pos m) 0)
                    (S754_finite false (Z.to_pos (10 ^ (- e10))) 0).

(** The exponent part of a decimal literal: empty, or [e] or [E] followed
    by an optional sign and at least one digit. *)
Definition exponent (s : string) : option Z :=
  match s with
  | EmptyString => Some 0%Z
  | String c s' =>
      if Ascii.eqb (lower c) "e" then
        let (neg, s1) := sign s' in
        match digits s1 with
        | (v, n, EmptyString) =>
            if (0 <? n)%Z then Some (if neg then (- v)%Z else v) else None
        | _ => None
        end
      else None
  end.

(** [float(s)]; [None] is [ValueError]. *)
Definition float_of_string (s : string) : option float :=
  match drop_underscores None (strip s) with
  | None => None
  | Some t =>
      let (neg, t1) := sign t in
      let w := lower_str t1 in
      if bool_decide (w = "inf" \/ w = "infinity") then Some (S754_infinity neg)
      else if bool_decide (w = "nan") then Some S754_nan
      else
        let '(i, ni, r1) := digits t1 in
        let '(m, nf, r2) :=
          match r1 with
          | String "." r => digits_from i 0 r
          | _ => (i, 0%Z, r1)
          end in
        if (0 <? ni + nf)%Z then
          match exponent r2 with
          | Some e => Some (float_of_decimal neg m (e - nf))
          | None => None
          end
        else None
  end.

(** The integer a float is equal to, if it is one. *)
Definition float_to_Z (x : float) : option Z :=
  match x with
  | S754_zero _ => Some 0%Z
  | S754_finite s m e =>
      if (0 <=? e)%Z then Some (cond_Zopp s (Zpos m * 2 ^ e))
      else if (Zpos m mod 2 ^ (- e) =? 0)%Z
           then Some (cond_Zopp s (Zpos m / 2 ^ (- e)))
           else None
  | _ => None
  end.

(** [p * 2^k], the number of bits of [p], and the binary64 representation
    of a positive integer of at most 53 bits. *)
Definition shl (p : positive) (k : nat) : positive := Nat.iter k xO p.

Definition ndigits (p : positive) : Z := Zpos (digits2_pos p).

Definition canon (s : bool) (q : positive) : float :=
  S754_finite s (shl q (Z.to_nat (53 - ndigits q))) (ndigits q - 53).

(** *** Numbers as stored by the module *)

Inductive value : Type :=
| VInt (z : Z)
| VFloat (x : float).

(** [a - b] *)
Definition sub (a b : value) : result value :=
  match a, b with
  | VInt x, VInt y => Ok (VInt (x - y))
  | VFloat x, VInt y => fy ← float_of_int y; Ok (VFloat (float_sub x fy))
  | VInt x, VFloat y => fx ← float_of_int x; Ok (VFloat (float_sub fx y))
  | VFloat x, VFloat y => Ok (VFloat (float_sub x y))
  end.

(** The integer a stored number is equal to, if it is one. *)
Definition int_value (v : value) : option Z :=
  match v with
  | VInt z => Some z
  | VFloat x => float_to_Z x
  end.

(** [v >= 0] *)
Definition ge0 (v : value) : bool :=
  match v with
  | VInt z => (0 <=? z)%Z
  | VFloat x => SFleb (S754_zero false) x
  end.

(** *** Insertion-ordered dictionaries with string keys *)

Abbreviation dict V := (list (string * V)).

Fixpoint od_get {V : Type} (k : string) (d : dict V) : option V :=
  match d with
  | [] => None
  | (k', v) :: d' => if String.eqb k k' then Some v else od_get k d'
  end.

(** [d[k] = v]: an existing key keeps its position, a new key goes last. *)
Fixpoint od_set {V : Type} (k : string) (v : V) (d : dict V) : dict V :=
  match d with
  | [] => [(k, v)]
  | (k', v') :: d' =>
      if String.eqb k k' then (k', v) :: d' else (k', v') :: od_set k v d'
  end.

(** [k in d] *)
Definition od_mem {V : Type} (k : string) (d : dict V) : bool :=
  match od_get k d with Some _ => true | None => false end.

(** [d.keys()] *)
Definition keys {V : Type} (d : dict V) : list string := d.*1.

(** [d.update(e)] *)
Definition update {V : Type} (d e : dict V) : dict V :=
  fold_left (fun acc '(k, v) => od_set k v acc) e d.

(** [set(a).isdisjoint(b)] on two collections of keys. *)
Definition isdisjoint (a b : list string) : bool :=
  forallb (fun k => bool_decide (k ∉ b)) a.

(** [str(n)] for a natural number. *)
Definition str_of_nat (n : nat) : string :=
  NilEmpty.string_of_uint (Nat.to_uint n).

End Py.

(** ** The NanoStat module *)

Module NanoStat.
Import Py.

Definition _KEYS_NUM : list string :=
  [ "Active channels";
    "Number of reads";
    "Total bases";
    "Total bases aligned";
    "Read length N50";
    "Mean read length";
    "Median read length";
    "Median read quality";
    "Mean read quality";
    "Average percent identity";
    "Median percent identity" ].

Definition _KEYS_READ_Q : list string :=
  [ "&gt;Q5"; "&gt;Q7"; "&gt;Q10"; "&gt;Q12"; "&gt;Q15" ].

Definition _stat_types : list string := [ "aligned"; "seq summary"; "unrecognized" ].

Definition _key_fmt (k stat_type : string) : string := format2 k stat_type.

(** One report found by [find_log_files]: [f["fn"]], [f["s_name"]] and the
    lines of the file handle [f["f"]]. *)
Record logfile : Type := {
  fn : string;
  s_name : string;
  f_lines : list string;
}.

Inductive log_event : Type :=
| Debug (msg : string)
| Info (msg : string).

(** The state of the module object: the aggregate store
    [self.nanostat_data], the messages sent to the logger and the reports
    registered with [add_data_source]. *)
Record state : Type := {
  nanostat_data : dict (dict value);
  log : list log_event;
  data_sources : list (string * string);
}.

Definition empty_state : state :=
  {| nanostat_data := []; log := []; data_sources := [] |}.

(** *** parse_nanostat_log *)

(** The body of the loop over the lines of a report. *)
Definition parse_line (nano_stats : dict value) (line : string)
  : result (dict value) :=
  let line := escape line in
  let parts := split ":" (strip line) in
  match parts with
  | [] => Ok nano_stats
  | key :: _ =>
      if bool_decide (key ∈ _KEYS_NUM) then
        p1 ← index parts 1;
        val ← of_option ValueError (float_of_string (remove_char "," p1));
        Ok (od_set key (VFloat val) nano_stats)
      else if bool_decide (key ∈ _KEYS_READ_Q) then
        p1 ← index parts 1;
        tok ← index (split_ws (strip p1)) 0;
        val ← of_option ValueError (int_of_string tok);
        Ok (od_set key (VInt val) nano_stats)
      else Ok nano_stats
  end.

Fixpoint parse_lines (nano_stats : dict value) (lines : list string)
  : result (dict value) :=
  match lines with
  | [] => Ok nano_stats
  | line :: rest => ns ← parse_line nano_stats line; parse_lines ns rest
  end.

(** The variant of a report, [None] when it is not recognised. *)
Definition stat_type_of (nano_stats : dict value) : option string :=
  if od_mem "Total bases aligned" nano_stats then Some "aligned"
  else if od_mem "Active channels" nano_stats then Some "seq summary"
  else None.

(** The composite-keyed record [out_d]. *)
Definition namespaced (stat_type : string) (nano_stats : dict value)
  : dict value :=
  fold_left (fun out_d '(k, v) => od_set (_key_fmt k stat_type) v out_d)
            nano_stats [].

(** The end of [parse_nanostat_log]: the duplicate warning, the update of
    the sample's entry and the registration of the source. *)
Definition merge (st : state) (f : logfile) (out_d : dict value) : state :=
  let log' :=
    match od_get (s_name f) (nanostat_data st) with
    | Some old =>
        if isdisjoint (keys old) (keys out_d) then log st
        else (log st ++
                [Debug ("Duplicate sample data found! Overwriting: " ++ s_name f)])%list
    | None => log st
    end in
  let old := default [] (od_get (s_name f) (nanostat_data st)) in
  {| nanostat_data := od_set (s_name f) (update old out_d) (nanostat_data st);
     log := log';
     data_sources := (data_sources st ++ [(s_name f, fn f)])%list |}.

Definition parse_nanostat_log (st : state) (f : logfile) : result state :=
  nano_stats ← parse_lines [] (f_lines f);
  match stat_type_of nano_stats with
  | None =>
      Ok {| nanostat_data := nanostat_data st;
            log := (log st ++
              [Debug ("Did not recognise NanoStat file '" ++ fn f ++ "' - skipping")])%list;
            data_sources := data_sources st |}
  | Some stat_type => Ok (merge st f (namespaced stat_type nano_stats))
  end.

(** The loop of [__init__] over the reports. *)
Fixpoint load (st : state) (files : list logfile) : result state :=
  match files with
  | [] => Ok st
  | f :: rest => st' ← parse_nanostat_log st f; load st' rest
  end.

(** *** nanostat_general_stats_table *)

(** The values of [multiqc.config] read by the table. *)
Record config : Type := {
  base_count_prefix : string;
  base_count_desc : string;
  long_read_count_prefix : string;
  long_read_count_desc : string;
}.

(** The two [modify] lambdas of the templates. *)
Inductive modify_fn : Type :=
| times_base_count_multiplier
| times_long_read_count_multiplier.

(** A column description: a dict in which every key is optional. *)
Record header : Type := {
  title : option string;
  description : option string;
  hmin : option Z;
  hmax : option Z;
  suffix : option string;
  scale : option string;
  format : option string;
  modify : option modify_fn;
  shared_key : option string;
  hidden : option bool;
  placement : option float;
}.

Definition empty_header : header :=
  {| title := None; description := None; hmin := None; hmax := None;
     suffix := None; scale := None; format := None; modify := None;
     shared_key := None; hidden := None; placement := None |}.

Definition set_title (t : string) (h : header) : header :=
  {| title := Some t; description := description h; hmin := hmin h;
     hmax := hmax h; suffix := suffix h; scale := scale h; format := format h;
     modify := modify h; shared_key := shared_key h; hidden := hidden h;
     placement := placement h |}.

Definition set_hidden (b : bool) (h : header) : header :=
  {| title := title h; description := description h; hmin := hmin h;
     hmax := hmax h; suffix := suffix h; scale := scale h; format := format h;
     modify := modify h; shared_key := shared_key h; hidden := Some b;
     placement := placement h |}.

Definition set_placement (p : float) (h : header) : header :=
  {| title := title h; description := description h; hmin := hmin h;
     hmax := hmax h; suffix := suffix h; scale := scale h; format := format h;
     modify := modify h; shared_key := shared_key h; hidden := hidden h;
     placement := Some p |}.

(** A template with a title, a description and the YlGn scale, the fields
    every entry of [headers_base] has. *)
Definition template (t d : string) : header :=
  {| title := Some t; description := Some d; hmin := None; hmax := None;
     suffix := None; scale := Some "YlGn"; format := None; modify := None;
     shared_key := None; hidden := None; placement := None |}.

Definition with_suffix (s : string) (h : header) : header :=
  {| title := title h; description := description h; hmin := hmin h;
     hmax := hmax h; suffix := Some s; scale := scale h; format := format h;
     modify := modify h; shared_key := shared_key h; hidden := hidden h;
     placement := placement h |}.

Definition with_bounds (lo hi : option Z) (h : header) : header :=
  {| title := title h; description := description h; hmin := lo;
     hmax := hi; suffix := suffix h; scale := scale h; format := format h;
     modify := modify h; shared_key := shared_key h; hidden := hidden h;
     placement := placement h |}.

Definition with_format (s : string) (h : header) : header :=
  {| title := title h; description := description h; hmin := hmin h;
     hmax := hmax h; suffix := suffix h; scale := scale h; format := Some s;
     modify := modify h; shared_key := shared_key h; hidden := hidden h;
     placement := placement h |}.

Definition with_modify (m : modify_fn) (h : header) : header :=
  {| title := title h; description := description h; hmin := hmin h;
     hmax := hmax h; suffix := suffix h; scale := scale h; format := format h;
     modify := Some m; shared_key := shared_key h; hidden := hidden h;
     placement := placement h |}.

Definition with_shared_key (s : string) (h : header) : header :=
  {| title := title h; description := description h; hmin := hmin h;
     hmax := hmax h; suffix := suffix h; scale := scale h; format := format h;
     modify := modify h; shared_key := Some s; hidden := hidden h;
     placement := placement h |}.

Definition headers_base (cfg : config) : dict header :=
  [ ("Average percent identity",
      set_hidden true (with_suffix "%" (with_bounds None (Some 100%Z)
        (template "Mean Identity" "Average percent identity"))));
    ("Active channels",
      template "Active channels" "Active channels");
    ("Mean read length",
      set_hidden true (with_shared_key "base_count"
        (with_modify times_base_count_multiplier (with_suffix "bp"
          (template ("Mean length (" ++ base_count_prefix cfg ++ ")")
                    ("Mean read length (" ++ base_count_desc cfg ++ ")"))))));
    ("Mean read quality",
      set_hidden true (with_shared_key "phred_score"
        (template "Mean Qual" "Mean read quality (Phred scale)")));
    ("Median percent identity",
      with_suffix "%" (with_bounds (Some 0%Z) (Some 100%Z)
        (template "Median Identity" "Median percent identity")));
    ("Median read length",
      set_hidden true (with_shared_key "base_count"
        (with_modify times_base_count_multiplier (with_suffix "bp"
          (template ("Median length (" ++ base_count_prefix cfg ++ ")")
                    ("Median read length (" ++ base_count_desc cfg ++ ")"))))));
    ("Median read quality",
      with_shared_key "phred_score"
        (template "Median Qual" "Median read quality (Phred scale)"));
    ("Number of reads",
      with_shared_key "long_read_count"
        (with_modify times_long_read_count_multiplier
          (template ("# Reads (" ++ long_read_count_prefix cfg ++ ")")
                    ("Number of reads (" ++ long_read_count_desc cfg ++ ")"))));
    ("Read length N50",
      with_suffix "bp" (with_format "{:,g}"
        (template "Read N50" "Read length N50")));
    ("Total bases",
      with_shared_key "base_count" (with_modify times_base_count_multiplier
        (template ("Total Bases (" ++ base_count_prefix cfg ++ ")")
                  ("Total bases (" ++ base_count_desc cfg ++ ")"))));
    ("Total bases aligned",
      with_shared_key "base_count" (with_modify times_base_count_multiplier
        (template ("Aligned Bases (" ++ base_count_prefix cfg ++ ")")
                  ("Total bases aligned (" ++ base_count_desc cfg ++ ")")))) ].

(** All the keys of all the samples. *)
Fixpoint header_keys (data : dict (dict value)) : list string :=
  match data with
  | [] => []
  | (_, d) :: rest => (keys d ++ header_keys rest)%list
  end.

(** [self._stat_types[0]] *)
Definition default_stat_source : string := nth 0 _stat_types "".

(** The body of the inner loop, for the statistic [k] at position
    [placement_idx] and the variant [stat_type] at position
    [stat_type_idx]. *)
Definition add_column (cfg : config) (hk : list string)
    (placement_idx : nat) (k : string)
    (headers : dict header) (stat_type_idx : nat) (stat_type : string)
  : dict header :=
  let first_type_key := _key_fmt k default_stat_source in
  let key := _key_fmt k stat_type in
  if bool_decide (key ∈ hk) then
    let h := default empty_header (od_get k (headers_base cfg)) in
    let headers := od_set key h headers in
    let h := set_placement
               (float_add (float_of_Z 1000) (float_of_Z (Z.of_nat placement_idx))) h in
    let h := match title h with
             | Some t => set_title (t ++ " (" ++ stat_type ++ ")") h
             | None => h
             end in
    let visible := Nat.eqb stat_type_idx 0 || negb (od_mem first_type_key headers) in
    let visible := visible && negb (startswith "&gt;" key) in
    let h := set_hidden (default false (hidden h) || negb visible) h in
    od_set key h headers
  else headers.

(** [for i, x in enumerate(l)], threading an accumulator. *)
Fixpoint enumerate_from {A B : Type} (i : nat) (body : B -> nat -> A -> B)
    (acc : B) (l : list A) : B :=
  match l with
  | [] => acc
  | x :: l' => enumerate_from (S i) body (body acc i x) l'
  end.

(** The headers handed to [general_stats_addcols]. *)
Definition nanostat_general_stats_table (cfg : config)
    (data : dict (dict value)) : dict header :=
  let hk := header_keys data in
  enumerate_from 0
    (fun headers placement_idx k =>
       enumerate_from 0 (add_column cfg hk placement_idx k) headers _stat_types)
    [] (_KEYS_NUM ++ _KEYS_READ_Q)%list.

(** *** nanostat_alignment_plot *)

(** [(None, None)] when no variant has a number of reads. *)
Fixpoint _get_total_reads_in (stat_types : list string)
    (data_dict : dict value) : option value * option string :=
  match stat_types with
  | [] => (None, None)
  | stat_type :: rest =>
      match od_get (_key_fmt "Number of reads" stat_type) data_dict with
      | Some v => (Some v, Some stat_type)
      | None => _get_total_reads_in rest data_dict
      end
  end.

Definition _get_total_reads (data_dict : dict value)
  : option value * option string :=
  _get_total_reads_in _stat_types data_dict.

Definition _range_names : list (string * string) :=
  [ ("&gt;Q5", "&lt;Q5");
    ("&gt;Q7", "Q5-7");
    ("&gt;Q10", "Q7-10");
    ("&gt;Q12", "Q10-12");
    ("&gt;Q15", "Q12-15");
    ("rest", "&gt;Q15") ].

(** [str(x)] for the variant returned by [_get_total_reads]. *)
Definition str_of_stat_type (stat_type : option string) : string :=
  default "None" stat_type.

(** [data_dict[data_key]] *)
Definition getitem (data_dict : dict value) (data_key : string)
  : result value :=
  of_option (KeyError data_key) (od_get data_key data_dict).

(** The loop over [_range_names] for one sample: [row] is
    [bar_data[s_name]] and [prev_reads] is [None] for the Python [None]. *)
Fixpoint fill_row (sample : string) (data_dict : dict value)
    (stat_type : option string) (ranges : list (string * string))
    (prev_reads : option value) (row : dict value) : result (dict value) :=
  match ranges with
  | [] => Ok row
  | (k, range_name) :: rest =>
      if bool_decide (k ≠ "rest") then
        let data_key := _key_fmt k (str_of_stat_type stat_type) in
        reads_gt ← getitem data_dict data_key;
        prev ← of_option TypeError prev_reads;
        bucket ← sub prev reads_gt;
        if ge0 bucket then
          fill_row sample data_dict stat_type rest (Some reads_gt)
                   (od_set range_name bucket row)
        else
          Raise (AssertionError ("Error on " ++ sample ++ " " ++ range_name ++ " "
                                 ++ data_key ++ " . Negative number of reads"))
      else
        let data_key := _key_fmt "&gt;Q15" (str_of_stat_type stat_type) in
        v ← getitem data_dict data_key;
        fill_row sample data_dict stat_type rest prev_reads
                 (od_set range_name v row)
  end.

(** The body of the loop over the samples. *)
Definition sample_row (sample : string) (data_dict : dict value)
  : result (dict value * option string) :=
  let '(reads_total, stat_type) := _get_total_reads data_dict in
  row ← fill_row sample data_dict stat_type _range_names reads_total [];
  Ok (row, stat_type).

(** The loop over the samples: [bar_data] and the last value of the
    variable [stat_type]. *)
Fixpoint fill_bar_data (data : dict (dict value))
    (bar_data : dict (dict value)) (stat_type : option string)
  : result (dict (dict value) * option string) :=
  match data with
  | [] => Ok (bar_data, stat_type)
  | (sample, data_dict) :: rest =>
      '(row, stat_type') ← sample_row sample data_dict;
      fill_bar_data rest (od_set sample row bar_data) stat_type'
  end.

(** The arguments of [bargraph.plot]. *)
Record plot : Type := {
  bar_data : dict (dict value);
  plot_keys : dict string;
  plot_title : string;
}.

Definition nanostat_alignment_plot (data : dict (dict value)) : result plot :=
  '(bars, stat_type) ← fill_bar_data data [] (Some "unrecognized");
  Ok {| bar_data := bars;
        plot_keys := fold_left (fun ks '(_, r) => od_set r ("Reads " ++ r) ks) _range_names [];
        plot_title := "NanoStat: Reads by quality (" ++ str_of_stat_type stat_type ++ ")" |}.

(** *** __init__ *)

(** Modelled from the spec: [BaseMultiqcModule.ignore_samples] is not part
    of the module; the finalize step removes the sample identities present
    on a caller-supplied ignore-list. *)
Definition ignore_samples (ignore : list string)
    (data : dict (dict value)) : dict (dict value) :=
  filter (fun '(sample, _) => sample ∉ ignore) data.

(** What the module hands over: its final state, the columns given to
    [general_stats_addcols] and the plot of the section it adds. *)
Record report : Type := {
  final : state;
  general_stats : dict header;
  section_plot : plot;
}.

(** [write_data_file] only writes the store out and is left out. *)
Definition __init__ (cfg : config) (ignore : list string) (files : list logfile)
  : result report :=
  st ← load empty_state files;
  let data := ignore_samples ignore (nanostat_data st) in
  if Nat.eqb (length data) 0 then Raise UserWarning
  else
    let st' :=
      {| nanostat_data := data;
         log := (log st ++
                 [Info ("Found " ++ str_of_nat (length data) ++ " reports")])%list;
         data_sources := data_sources st |} in
    let headers := nanostat_general_stats_table cfg data in
    p ← nanostat_alignment_plot data;
    Ok {| final := st'; general_stats := headers; section_plot := p |}.

End NanoStat.

(** ** Vocabulary of the properties and example inputs *)

Section Vocabulary.
Import Py NanoStat.

(** The entry of a sample in the store, empty when the sample is new. *)
Definition entry (st : state) (sample : string) : dict value :=
  default [] (od_get sample (nanostat_data st)).

Definition unrecognised_msg (f : logfile) : log_event :=
  Debug ("Did not recognise NanoStat file '" ++ fn f ++ "' - skipping").

Definition duplicate_msg (f : logfile) : log_event :=
  Debug ("Duplicate sample data found! Overwriting: " ++ s_name f).

(** The names of the two fixed vocabularies. *)
Definition vocabulary : list string := (_KEYS_NUM ++ _KEYS_READ_Q)%list.

(** A key of the form [name (variant)] for a name of the vocabularies and
    one of the two variants a report can be classified as. *)
Definition composite_key (key : string) : Prop :=
  ∃ name variant,
    name ∈ vocabulary ∧ variant ∈ ["aligned"; "seq summary"]
    ∧ key = _key_fmt name variant.

(** The fields of a report have distinct names, all of the vocabularies. *)
Definition fields_ok (ns : dict value) : Prop :=
  NoDup (keys ns) ∧ ∀ k, k ∈ keys ns -> k ∈ vocabulary.

Definition store_keys_composite (data : dict (dict value)) : Prop :=
  ∀ sample d key, (sample, d) ∈ data -> key ∈ keys d -> composite_key key.

(** A seq-summary report, a second report of the same sample that shares
    one field with it, a report of neither variant, and a report with a
    malformed number. *)
Definition seq_report : logfile :=
  {| fn := "run1/NanoStats.txt"; s_name := "S1";
     f_lines := [ "Number of reads: 1,000"; ">Q5: 900"; ">Q7: 700"; ">Q10: 400";
                  ">Q12: 200"; ">Q15: 50"; "Active channels: 512" ] |}.

Definition seq_report_again : logfile :=
  {| fn := "run2/NanoStats.txt"; s_name := "S1";
     f_lines := [ "Active channels: 400"; "Mean read quality: 9.5" ] |}.

Definition other_report : logfile :=
  {| fn := "notes.txt"; s_name := "S0";
     f_lines := [ "Mean read length: 12.5"; "Comment: none" ] |}.

Definition other_fields : dict value :=
  [ ("Mean read length", VFloat (S754_finite false 7036874417766400 (-49))) ].

Definition bad_report : logfile :=
  {| fn := "bad/NanoStats.txt"; s_name := "B";
     f_lines := [ "Active channels: 512"; "Number of reads: n/a" ] |}.

(** The state after the seq-summary report, the fields of the second
    report of the sample, and the entry of the sample it meets. *)
Definition seq_state : state :=
  Eval vm_compute in
    match load empty_state [seq_report] with
    | Ok st => st
    | Raise _ => empty_state
    end.

Definition again_fields : dict value :=
  Eval vm_compute in
    match parse_lines [] (f_lines seq_report_again) with
    | Ok ns => ns
    | Raise _ => []
    end.

Definition seq_entry : dict value := Eval vm_compute in entry seq_state "S1".

(** Two reports of one sample that both carry the mean and the median
    read quality, one of each variant; the store after both and the store
    after the seq-summary one alone. *)
Definition quality_aligned_report : logfile :=
  {| fn := "aln/NanoStats.txt"; s_name := "S1";
     f_lines := [ "Total bases aligned: 5,000"; "Mean read quality: 10.5";
                  "Median read quality: 11.0" ] |}.

Definition quality_seq_report : logfile :=
  {| fn := "seq/NanoStats.txt"; s_name := "S1";
     f_lines := [ "Active channels: 512"; "Mean read quality: 9.5";
                  "Median read quality: 10.0" ] |}.

Definition both_state : state :=
  Eval vm_compute in
    match load empty_state [quality_aligned_report; quality_seq_report] with
    | Ok st => st
    | Raise _ => empty_state
    end.

Definition seq_only_state : state :=
  Eval vm_compute in
    match load empty_state [quality_seq_report] with
    | Ok st => st
    | Raise _ => empty_state
    end.

(** The header [add_column] stores for a key that is present. *)
Definition new_column (cfg : config) (idx : nat) (k : string)
    (headers : dict header) (i : nat) (stat_type : string) : header :=
  let h0 := default empty_header (od_get k (headers_base cfg)) in
  let h1 := set_placement (float_add (float_of_Z 1000) (float_of_Z (Z.of_nat idx))) h0 in
  let h2 := match title h1 with
            | Some t => set_title (t ++ " (" ++ stat_type ++ ")") h1
            | None => h1
            end in
  set_hidden
    (default false (hidden h2)
     || negb ((Nat.eqb i 0
               || negb (od_mem (_key_fmt k default_stat_source)
                          (od_set (_key_fmt k stat_type) h0 headers)))
              && negb (startswith "&gt;" (_key_fmt k stat_type)))) h2.

(** A stored number that holds the count [n]. *)
Definition count_value (n : Z) (v : value) : Prop :=
  v = VInt n ∨ v = VFloat (float_of_Z n).

(** The sum of the buckets of a row, when they are all integers. *)
Fixpoint row_sum (row : dict value) : option Z :=
  match row with
  | [] => Some 0
  | (_, v) :: rest => b ← int_value v; s ← row_sum rest; Some (b + s)
  end.

(** The six bucket names, in the order of the plot. *)
Definition bucket_names : list string :=
  [ "&lt;Q5"; "Q5-7"; "Q7-10"; "Q10-12"; "Q12-15"; "&gt;Q15" ].

(** A row of six buckets, each a non-negative integer, that sum to [n]. *)
Definition good_row (row : dict value) (n : Z) : Prop :=
  keys row = bucket_names
  ∧ Forall (fun '(_, v) => ge0 v = true ∧ ∃ b, int_value v = Some b ∧ 0 <= b) row
  ∧ row_sum row = Some n.

(** The variant used for a sample has a total of [n] reads and the five
    cumulative counts, as integers, and they decrease from the total. *)
Definition monotonic_counts (d : dict value) (total : value) (n : Z) : Prop :=
  ∃ stat_type q5 q7 q10 q12 q15,
    _get_total_reads d = (Some total, Some stat_type)
    ∧ int_value total = Some n
    ∧ od_get (_key_fmt "&gt;Q5" stat_type) d = Some (VInt q5)
    ∧ od_get (_key_fmt "&gt;Q7" stat_type) d = Some (VInt q7)
    ∧ od_get (_key_fmt "&gt;Q10" stat_type) d = Some (VInt q10)
    ∧ od_get (_key_fmt "&gt;Q12" stat_type) d = Some (VInt q12)
    ∧ od_get (_key_fmt "&gt;Q15" stat_type) d = Some (VInt q15)
    ∧ q5 <= n ∧ q7 <= q5 ∧ q10 <= q7 ∧ q12 <= q10 ∧ q15 <= q12 ∧ 0 <= q15.

(** The total is held exactly: an [int], or the float of an integer below
    2^53, as [float] returns for such a count. *)
Definition exact_total (total : value) (n : Z) : Prop :=
  total = VInt n ∨ (total = VFloat (float_of_Z n) ∧ n < 2 ^ 53).

(** Reports for the histogram: the lines of the end-to-end example as the
    specification writes them, a total beyond 2^53, a first count above
    the total, and a report with no number of reads. *)
Definition escaped_report : logfile :=
  {| fn := "esc/NanoStats.txt"; s_name := "S1";
     f_lines := [ "Number of reads: 1,000"; "&gt;Q5: 900"; "&gt;Q7: 700";
                  "&gt;Q10: 400"; "&gt;Q12: 200"; "&gt;Q15: 50";
                  "Active channels: 512" ] |}.

Definition huge_report : logfile :=
  {| fn := "huge/NanoStats.txt"; s_name := "H";
     f_lines := [ "Number of reads: 9,007,199,254,740,994"; ">Q5: 1"; ">Q7: 1";
                  ">Q10: 1"; ">Q12: 1"; ">Q15: 1"; "Active channels: 512" ] |}.

Definition inconsistent_report : logfile :=
  {| fn := "neg/NanoStats.txt"; s_name := "N";
     f_lines := [ "Number of reads: 100"; ">Q5: 120"; ">Q7: 90"; ">Q10: 80";
                  ">Q12: 70"; ">Q15: 60"; "Active channels: 512" ] |}.

Definition no_reads_report : logfile :=
  {| fn := "aln2/NanoStats.txt"; s_name := "A";
     f_lines := [ "Total bases aligned: 5,000"; "Mean read quality: 10.5" ] |}.

Definition huge_state : state :=
  Eval vm_compute in
    match load empty_state [huge_report] with
    | Ok st => st
    | Raise _ => empty_state
    end.

Definition inconsistent_state : state :=
  Eval vm_compute in
    match load empty_state [inconsistent_report] with
    | Ok st => st
    | Raise _ => empty_state
    end.

Definition escaped_state : state :=
  Eval vm_compute in
    match load empty_state [escaped_report] with
    | Ok st => st
    | Raise _ => empty_state
    end.

Definition no_reads_state : state :=
  Eval vm_compute in
    match load empty_state [seq_report; no_reads_report] with
    | Ok st => st
    | Raise _ => empty_state
    end.

(** The message of the assertion on the first bucket. *)
Definition negative_msg (sample stat_type : string) : string :=
  "Error on " ++ sample ++ " " ++ "&lt;Q5" ++ " " ++ _key_fmt "&gt;Q5" stat_type
  ++ " . Negative number of reads".

(** The row of the end-to-end example. *)
Definition example_row : dict value :=
  [ ("&lt;Q5", VFloat (float_of_Z 100)); ("Q5-7", VInt 200); ("Q7-10", VInt 300);
    ("Q10-12", VInt 200); ("Q12-15", VInt 150); ("&gt;Q15", VInt 50) ].

(** A value of the type the parser gives to a field of that name: a float
    for a numeric summary field, an integer for a threshold count. *)
Definition well_typed (name : string) (v : value) : Prop :=
  (name ∈ _KEYS_NUM ∧ ∃ x, v = VFloat x) ∨ (name ∈ _KEYS_READ_Q ∧ ∃ z, v = VInt z).

Definition store_well_typed (data : dict (dict value)) : Prop :=
  ∀ sample d key v,
    (sample, d) ∈ data -> od_get key d = Some v ->
    ∃ name variant,
      key = _key_fmt name variant ∧ variant ∈ ["aligned"; "seq summary"]
      ∧ well_typed name v.

(** The reports that reach the store: their lines parse and carry one of
    the two markers. *)
Definition recognised (f : logfile) : bool :=
  match parse_lines [] (f_lines f) with
  | Ok ns => match stat_type_of ns with Some _ => true | None => false end
  | Raise _ => false
  end.

(** What [add_data_source] records for a report. *)
Definition source_of (f : logfile) : string * string := (s_name f, fn f).

(** The fields of a record with their keys renamed for a variant. *)
Definition renamed (stat_type : string) (ns : dict value) : dict value :=
  prod_map (fun k => _key_fmt k stat_type) id <$> ns.

(** The title of the plot for a variant. *)
Definition title_for (stat_type : option string) : string :=
  "NanoStat: Reads by quality (" ++ str_of_stat_type stat_type ++ ")".

Definition example_config : config :=
  {| base_count_prefix := "Mb"; base_count_desc := "millions";
     long_read_count_prefix := "K"; long_read_count_desc := "thousands" |}.

(** The template of a statistic, empty for a threshold name; a header
    with the variant added to its title, if it has one; and the rule that
    hides a column: the template is hidden, or the column is not of the
    aligned variant while the aligned value of the statistic is stored, or
    the statistic is a threshold count. *)
Definition template_of (cfg : config) (k : string) : header :=
  default empty_header (od_get k (headers_base cfg)).

Definition with_variant (stat_type : string) (h : header) : header :=
  match title h with
  | Some t => set_title (t ++ " (" ++ stat_type ++ ")") h
  | None => h
  end.

Definition hidden_rule (cfg : config) (hk : list string) (k stat_type : string)
  : bool :=
  default false (hidden (template_of cfg k))
  || (negb (String.eqb stat_type "aligned")
      && bool_decide (_key_fmt k "aligned" ∈ hk))
  || bool_decide (k ∈ _KEYS_READ_Q).

Definition expected_column (cfg : config) (hk : list string) (idx : nat)
    (k stat_type : string) : header :=
  set_hidden (hidden_rule cfg hk k stat_type)
    (with_variant stat_type
       (set_placement (float_of_Z (1000 + Z.of_nat idx)) (template_of cfg k))).

(** Every character of a string passes a test. *)
Fixpoint all_chars (p : ascii -> bool) (s : string) : bool :=
  match s with
  | EmptyString => true
  | String c s' => p c && all_chars p s'
  end.

(** A string of blanks; a string that is empty or starts with a blank; a
    string without a colon; a string of digits and thousands separators. *)
Definition blank (s : string) : Prop := all_chars is_space s = true.

Definition blank_led (s : string) : Prop :=
  match s with
  | EmptyString => True
  | String c _ => is_space c = true
  end.

Definition no_colon (s : string) : Prop :=
  all_chars (fun c => negb (Ascii.eqb c ":")) s = true.

Definition grouped_digits (s : string) : Prop :=
  all_chars (fun c => is_digit c || Ascii.eqb c ",") s = true.

(** The names of the threshold counts as a report writes them. *)
Definition raw_thresholds : list string := [ ">Q5"; ">Q7"; ">Q10"; ">Q12"; ">Q15" ].

(** A line of a report for a natural number, and a report with a marker
    line (the line that decides the variant), the number of reads and the
    five threshold counts. *)
Definition report_line (name : string) (n : nat) : string :=
  name ++ ":" ++ " " ++ str_of_nat n ++ String "010" "".

Definition summary_report (file sample marker : string)
    (m total q5 q7 q10 q12 q15 : nat) : logfile :=
  {| fn := file; s_name := sample;
     f_lines := [ report_line marker m;
                  report_line "Number of reads" total;
                  report_line ">Q5" q5; report_line ">Q7" q7;
                  report_line ">Q10" q10; report_line ">Q12" q12;
                  report_line ">Q15" q15 ] |}.

Definition variant_of_marker (marker : string) : string :=
  if String.eqb marker "Total bases aligned" then "aligned" else "seq summary".

End Vocabulary.

(** * Properties *)

(** ** Exact binary64 arithmetic on integers below 2^53 *)

Section FloatFacts.
Import Py.

(** The operations of [SpecFloat] are stated with the kernel's integer
    functions; [zfold] restates them with those of [Z]. *)
Ltac zfold :=
  change IntDef.Z.sub with Z.sub in *;
  change IntDef.Z.add with Z.add in *;
  change IntDef.Z.max with Z.max in *;
  change IntDef.Z.min with Z.min in *;
  change IntDef.Z.leb with Z.leb in *;
  change IntDef.Z.opp with Z.opp in *.

Lemma iter_pos_nat {A : Type} (g : A → A) (p : positive) (x : A) :
  SpecFloat.iter_pos g p x = Nat.iter (Pos.to_nat p) g x.
Proof.
  revert x; induction p as [p IH|p IH|]; intros x.
  - rewrite Pos2Nat.inj_xI. cbn [SpecFloat.iter_pos]. rewrite !IH.
    replace (S (2 * Pos.to_nat p))%nat
      with (Pos.to_nat p + S (Pos.to_nat p))%nat by lia.
    rewrite Nat.iter_add, Nat.iter_succ_r. reflexivity.
  - rewrite Pos2Nat.inj_xO. cbn [SpecFloat.iter_pos]. rewrite !IH.
    replace (2 * Pos.to_nat p)%nat with (Pos.to_nat p + Pos.to_nat p)%nat by lia.
    rewrite Nat.iter_add. reflexivity.
  - reflexivity.
Qed.

Lemma pos_iter_shl (p d : positive) : Pos.iter xO p d = shl p (Pos.to_nat d).
Proof. apply Pos2Nat.inj_iter. Qed.

Lemma ndigits_pos p : 0 < ndigits p.
Proof. unfold ndigits; lia. Qed.

Lemma ndigits_shl p k : ndigits (shl p k) = ndigits p + Z.of_nat k.
Proof.
  unfold ndigits, shl. induction k as [|k IH]; simpl.
  - lia.
  - rewrite Pos2Z.inj_succ, IH. lia.
Qed.

Lemma shl_add p j k : shl (shl p j) k = shl p (k + j).
Proof. unfold shl. rewrite Nat.iter_add. reflexivity. Qed.

Lemma ndigits_log2 p : ndigits p = Z.log2 (Zpos p) + 1.
Proof.
  unfold ndigits. induction p as [p IH|p IH|]; simpl; try reflexivity.
  - rewrite Pos2Z.inj_succ, IH. destruct p; simpl; lia.
  - rewrite Pos2Z.inj_succ, IH. destruct p; simpl; lia.
Qed.

Lemma ndigits_le_53 p : Zpos p < 2 ^ 53 -> ndigits p <= 53.
Proof.
  intros Hp. rewrite ndigits_log2.
  assert (Z.log2 (Zpos p) < 53) by (apply Z.log2_lt_pow2; lia). lia.
Qed.

Lemma ndigits_mono p q : (Zpos p <= Zpos q) -> ndigits p <= ndigits q.
Proof.
  intros Hpq. rewrite !ndigits_log2.
  pose proof (Z.log2_le_mono _ _ Hpq). lia.
Qed.

Lemma Zpos_shl p k : Zpos (shl p k) = Zpos p * 2 ^ Z.of_nat k.
Proof.
  unfold shl. induction k as [|k IH].
  - simpl. lia.
  - rewrite Nat2Z.inj_succ, Z.pow_succ_r by lia. simpl.
    rewrite Pos2Z.inj_xO, IH. lia.
Qed.

Lemma shr_shl p n j :
  Nat.iter n shr_1 (Build_shr_record (Zpos (shl p (n + j))) false false)
  = Build_shr_record (Zpos (shl p j)) false false.
Proof.
  induction n as [|n IH]; simpl; [reflexivity|].
  rewrite <- Nat.iter_swap. simpl. exact IH.
Qed.

Lemma fexp_small e : 0 < e -> fexp prec emax e = e - 53.
Proof. intros He. unfold fexp, emin, prec, emax. zfold. lia. Qed.

Lemma shr_fexp_canon m e :
  ndigits m = 53 -> -52 <= e <= 0 ->
  shr_fexp prec emax (Zpos m) e loc_Exact
  = (Build_shr_record (Zpos m) false false, e).
Proof.
  intros Hm He. unfold shr_fexp. zfold.
  change (Zdigits2 (Zpos m)) with (ndigits m).
  rewrite Hm, fexp_small by lia.
  replace (53 + e - 53 - e) with 0 by lia. reflexivity.
Qed.

Lemma leb_emax e : e <= 0 -> IntDef.Z.leb e (IntDef.Z.sub emax prec) = true.
Proof. intros He. zfold. apply Z.leb_le. unfold emax, prec. lia. Qed.

Lemma binary_round_aux_canon s m e :
  ndigits m = 53 -> -52 <= e <= 0 ->
  binary_round_aux prec emax s (Zpos m) e loc_Exact = S754_finite s m e.
Proof.
  intros Hm He. unfold binary_round_aux.
  rewrite shr_fexp_canon by assumption.
  cbn [shr_m loc_of_shr_record round_nearest_even].
  rewrite shr_fexp_canon by assumption.
  cbn [shr_m]. rewrite leb_emax by lia. reflexivity.
Qed.

(** Rounding [q * 2^k * 2^(-k)] gives the representation of [q]: no bit is
    lost when [q] has at most 53 bits. *)
Lemma binary_round_exact s q k :
  ndigits q <= 53 ->
  binary_round prec emax s (shl q k) (- Z.of_nat k) = canon s q.
Proof.
  intros Hq. pose proof (ndigits_pos q) as Hq0.
  unfold binary_round. zfold.
  change (Zpos (digits2_pos (shl q k))) with (ndigits (shl q k)).
  rewrite ndigits_shl, fexp_small by lia.
  unfold shl_align. zfold.
  replace (ndigits q + Z.of_nat k + - Z.of_nat k - 53 - - Z.of_nat k)
    with (Z.of_nat k - (53 - ndigits q)) by lia.
  destruct (Z.of_nat k - (53 - ndigits q)) as [|d|d] eqn:Hd.
  - rewrite binary_round_aux_canon.
    + unfold canon. f_equal; [|lia]. f_equal. lia.
    + rewrite ndigits_shl. lia.
    + lia.
  - set (m := shl q (Z.to_nat (53 - ndigits q))).
    assert (Hm : ndigits m = 53) by (unfold m; rewrite ndigits_shl; lia).
    assert (Hs : shr_fexp prec emax (Zpos (shl q k)) (- Z.of_nat k) loc_Exact
                 = (Build_shr_record (Zpos m) false false, ndigits q - 53)).
    { unfold shr_fexp. zfold.
      change (Zdigits2 (Zpos (shl q k))) with (ndigits (shl q k)).
      rewrite ndigits_shl, fexp_small by lia.
      replace (ndigits q + Z.of_nat k + - Z.of_nat k - 53 - - Z.of_nat k)
        with (Zpos d) by lia.
      unfold shr. zfold. f_equal; [|lia].
      cbn [shr_record_of_loc]. rewrite iter_pos_nat.
      replace k with (Pos.to_nat d + Z.to_nat (53 - ndigits q))%nat by lia.
      apply shr_shl. }
    unfold binary_round_aux. rewrite Hs.
    cbn [shr_m loc_of_shr_record round_nearest_even].
    rewrite shr_fexp_canon by (assumption || lia).
    cbn [shr_m]. rewrite leb_emax by lia. reflexivity.
  - rewrite pos_iter_shl, shl_add.
    rewrite binary_round_aux_canon.
    + unfold canon. f_equal; [|lia]. f_equal. lia.
    + rewrite ndigits_shl. lia.
    + lia.
Qed.

Lemma float_of_Z_0 : float_of_Z 0 = S754_zero false.
Proof. reflexivity. Qed.

Lemma float_of_Z_pos p : Zpos p < 2 ^ 53 -> float_of_Z (Zpos p) = canon false p.
Proof.
  intros Hp. unfold float_of_Z, binary_normalize.
  apply (binary_round_exact false p 0). now apply ndigits_le_53.
Qed.

(** A scaled integer normalises to the float of the integer. *)
Lemma binary_normalize_exact c k :
  0 <= c < 2 ^ 53 ->
  binary_normalize prec emax (c * 2 ^ Z.of_nat k) (- Z.of_nat k) false
  = float_of_Z c.
Proof.
  intros [Hc0 Hc]. destruct c as [|q|q]; [reflexivity| |lia].
  rewrite float_of_Z_pos by assumption.
  rewrite <- Zpos_shl. unfold binary_normalize.
  apply binary_round_exact. now apply ndigits_le_53.
Qed.

Lemma shl_align_canon p e j :
  0 <= j ->
  fst (shl_align p e (e - j)) = shl p (Z.to_nat j).
Proof.
  intros Hj. unfold shl_align. zfold.
  replace (e - j - e) with (- j) by lia.
  destruct j as [|d|d]; [reflexivity| |lia].
  simpl. rewrite pos_iter_shl. reflexivity.
Qed.

(** Subtraction of two integers below 2^53 is exact. *)
Lemma float_sub_exact a b :
  0 <= b <= a -> a < 2 ^ 53 ->
  float_sub (float_of_Z a) (float_of_Z b) = float_of_Z (a - b).
Proof.
  intros [Hb Hba] Ha.
  destruct b as [|q|q]; [|clear Hb|lia].
  { rewrite Z.sub_0_r. destruct a as [|p|p]; [reflexivity| |lia].
    rewrite float_of_Z_pos by assumption. reflexivity. }
  destruct a as [|p|p]; [lia| |lia].
  rewrite !float_of_Z_pos by lia.
  pose proof (ndigits_le_53 p Ha) as Hdp.
  pose proof (ndigits_mono q p Hba) as Hdq.
  pose proof (ndigits_pos q) as Hq0.
  unfold float_sub, canon, SFsub. zfold.
  rewrite Z.min_r by lia.
  replace (ndigits q - 53) with (ndigits p - 53 - (ndigits p - ndigits q)) at 1 by lia.
  rewrite shl_align_canon by lia.
  replace (ndigits q - 53) with (ndigits q - 53 - 0) at 2 by lia.
  rewrite shl_align_canon by lia.
  rewrite !shl_add. cbn [cond_Zopp].
  set (k := Z.to_nat (53 - ndigits q)).
  replace (Z.to_nat (ndigits p - ndigits q) + Z.to_nat (53 - ndigits p))%nat
    with k by lia.
  replace (Z.to_nat 0 + Z.to_nat (53 - ndigits q))%nat with k by lia.
  rewrite !Zpos_shl, <- Z.mul_sub_distr_r.
  replace (ndigits q - 53) with (- Z.of_nat k) by lia.
  apply binary_normalize_exact. lia.
Qed.

Lemma float_of_int_exact n : 0 <= n < 2 ^ 53 -> float_of_int n = Ok (float_of_Z n).
Proof.
  intros [Hn0 Hn]. unfold float_of_int.
  destruct n as [|p|p]; [reflexivity| |lia].
  rewrite float_of_Z_pos by assumption. reflexivity.
Qed.

Lemma float_to_Z_exact n : 0 <= n < 2 ^ 53 -> float_to_Z (float_of_Z n) = Some n.
Proof.
  intros [Hn0 Hn]. destruct n as [|p|p]; [reflexivity| |lia].
  rewrite float_of_Z_pos by assumption.
  pose proof (ndigits_le_53 p Hn) as Hd. pose proof (ndigits_pos p) as Hd0.
  unfold canon, float_to_Z. rewrite Zpos_shl.
  destruct (Z.leb_spec 0 (ndigits p - 53)) as [Hge|Hlt].
  - replace (Z.of_nat (Z.to_nat (53 - ndigits p))) with 0 by lia.
    replace (ndigits p - 53) with 0 by lia. simpl. f_equal. lia.
  - replace (- (ndigits p - 53)) with (53 - ndigits p) by lia.
    rewrite Z2Nat.id by lia.
    rewrite Z_mod_mult, Z.eqb_refl, Z_div_mult by lia. reflexivity.
Qed.

Lemma ge0_float_of_Z n : 0 <= n < 2 ^ 53 -> ge0 (VFloat (float_of_Z n)) = true.
Proof.
  intros [Hn0 Hn]. destruct n as [|p|p]; [reflexivity| |lia].
  rewrite float_of_Z_pos by assumption. reflexivity.
Qed.

(** [float] of a plain run of digits is the float of the integer. *)
Lemma float_of_decimal_integer n : 0 <= n -> float_of_decimal false n 0 = float_of_Z n.
Proof.
  intros Hn. unfold float_of_decimal.
  destruct (Z.eqb_spec n 0) as [->|Hne]; [reflexivity|].
  cbn [Z.leb Z.compare cond_Zopp]. now rewrite Z.pow_0_r, Z.mul_1_r.
Qed.

(** [float - int] on integers below 2^53. *)
Lemma sub_float_int a b :
  0 <= b <= a -> a < 2 ^ 53 ->
  sub (VFloat (float_of_Z a)) (VInt b) = Ok (VFloat (float_of_Z (a - b))).
Proof.
  intros Hb Ha. unfold sub. rewrite float_of_int_exact by lia.
  simpl. rewrite float_sub_exact by lia. reflexivity.
Qed.

End FloatFacts.

(** ** Strings and composite keys *)

Section StringFacts.
Import Py NanoStat.

Lemma chars_app (a b : string) :
  list_ascii_of_string (a ++ b)
  = (list_ascii_of_string a ++ list_ascii_of_string b)%list.
Proof. induction a as [|c a IH]; simpl; [reflexivity|]. now rewrite IH. Qed.

Lemma chars_inj (a b : string) :
  list_ascii_of_string a = list_ascii_of_string b -> a = b.
Proof.
  intros H. rewrite <- (string_of_list_ascii_of_string a),
    <- (string_of_list_ascii_of_string b). now rewrite H.
Qed.

Lemma append_inv_tail (a b s : string) : a ++ s = b ++ s -> a = b.
Proof.
  intros H. apply chars_inj. apply (f_equal list_ascii_of_string) in H.
  rewrite !chars_app in H. now apply app_inv_tail in H.
Qed.

(** The last characters of two equal strings are equal. *)
Lemma append_rev_eq (a b s t : string) :
  a ++ s = b ++ t ->
  (List.rev (list_ascii_of_string s) ++ List.rev (list_ascii_of_string a))%list
  = (List.rev (list_ascii_of_string t) ++ List.rev (list_ascii_of_string b))%list.
Proof.
  intros H. apply (f_equal list_ascii_of_string) in H.
  rewrite !chars_app in H. apply (f_equal (@List.rev ascii)) in H.
  now rewrite !rev_app_distr in H.
Qed.

#[global] Instance _key_fmt_inj (stat_type : string) :
  Inj (=) (=) (fun k => _key_fmt k stat_type).
Proof. intros a b H. unfold _key_fmt, format2 in H. now apply append_inv_tail in H. Qed.

Ltac variant_clash H :=
  unfold _key_fmt, format2 in H; apply append_rev_eq in H; simpl in H;
  discriminate H.

Lemma aligned_not_seq_summary a b : _key_fmt a "aligned" ≠ _key_fmt b "seq summary".
Proof. intros H. variant_clash H. Qed.

Lemma aligned_not_unrecognized a b : _key_fmt a "aligned" ≠ _key_fmt b "unrecognized".
Proof. intros H. variant_clash H. Qed.

Lemma seq_summary_not_unrecognized a b :
  _key_fmt a "seq summary" ≠ _key_fmt b "unrecognized".
Proof. intros H. variant_clash H. Qed.

End StringFacts.

(** ** Insertion-ordered dictionaries *)

Section DictFacts.
Import Py.
Context {V : Type}.
Implicit Types (d : dict V) (k : string) (v : V).

Lemma od_get_set_eq k v d : od_get k (od_set k v d) = Some v.
Proof.
  induction d as [|[k' v'] d IH]; simpl.
  - now rewrite String.eqb_refl.
  - destruct (String.eqb_spec k k') as [->|Hne]; simpl.
    + now rewrite String.eqb_refl.
    + destruct (String.eqb_spec k k'); [contradiction|exact IH].
Qed.

Lemma od_get_set_ne k k' v d : k ≠ k' -> od_get k' (od_set k v d) = od_get k' d.
Proof.
  intros Hne. induction d as [|[k0 v0] d IH]; simpl.
  - destruct (String.eqb_spec k' k); [congruence|reflexivity].
  - destruct (String.eqb_spec k k0) as [->|Hk]; simpl.
    + destruct (String.eqb_spec k' k0); [congruence|reflexivity].
    + destruct (String.eqb_spec k' k0); [reflexivity|exact IH].
Qed.

Lemma od_get_elem_of k v d : od_get k d = Some v -> (k, v) ∈ d.
Proof.
  induction d as [|[k' v'] d IH]; simpl; [discriminate|].
  destruct (String.eqb_spec k k') as [->|Hne].
  - intros [= ->]. apply elem_of_cons. now left.
  - intros H. apply elem_of_cons. right. now apply IH.
Qed.

Lemma od_get_None k d : od_get k d = None <-> k ∉ d.*1.
Proof.
  induction d as [|[k' v'] d IH]; simpl.
  - split; [intros _; apply not_elem_of_nil|reflexivity].
  - rewrite not_elem_of_cons.
    destruct (String.eqb_spec k k') as [->|Hne].
    + split; [discriminate|]. intros [H _]. now exfalso.
    + rewrite IH. tauto.
Qed.

Lemma od_mem_true k d : od_mem k d = true <-> k ∈ d.*1.
Proof.
  unfold od_mem. destruct (od_get k d) eqn:E.
  - split; [intros _|reflexivity].
    destruct (decide (k ∈ d.*1)) as [|Hn]; [assumption|].
    apply od_get_None in Hn. congruence.
  - split; [discriminate|]. intros Hin. apply od_get_None in E. contradiction.
Qed.

Lemma elem_of_od_get k v d : NoDup d.*1 -> (k, v) ∈ d -> od_get k d = Some v.
Proof.
  induction d as [|[k' v'] d IH]; simpl.
  - intros _ H. now apply elem_of_nil in H.
  - intros Hnd Hin. apply NoDup_cons in Hnd as [Hk' Hnd].
    apply elem_of_cons in Hin as [[= -> ->]|Hin].
    + now rewrite String.eqb_refl.
    + destruct (String.eqb_spec k k') as [->|Hne].
      * exfalso. apply Hk'. apply (list_elem_of_fmap_2 fst) in Hin. exact Hin.
      * now apply IH.
Qed.

Lemma od_set_fresh k v d : k ∉ d.*1 -> od_set k v d = (d ++ [(k, v)])%list.
Proof.
  induction d as [|[k' v'] d IH]; simpl; [reflexivity|].
  rewrite not_elem_of_cons. intros [Hne Hni].
  destruct (String.eqb_spec k k') as [->|_]; [contradiction|].
  now rewrite IH.
Qed.

Lemma elem_of_od_set k v k0 v0 d :
  (k, v) ∈ od_set k0 v0 d -> (k = k0 /\ v = v0) \/ (k, v) ∈ d.
Proof.
  induction d as [|[k' v'] d IH]; simpl.
  - rewrite list_elem_of_singleton. intros [= -> ->]. now left.
  - destruct (String.eqb_spec k0 k') as [->|Hne]; rewrite !elem_of_cons.
    + intros [[= -> ->]|Hin]; [now left|right; now right].
    + intros [Heq|Hin]; [right; now left|].
      destruct (IH Hin) as [?|?]; [now left|right; now right].
Qed.

End DictFacts.

Section DictUpdateFacts.
Import Py.
Context {V : Type}.
Implicit Types (d e : dict V) (k : string) (v : V).

Lemma od_get_is_Some k d : is_Some (od_get k d) <-> k ∈ keys d.
Proof.
  unfold keys. split.
  - intros [v Hv]. destruct (decide (k ∈ d.*1)) as [|Hn]; [assumption|].
    apply od_get_None in Hn. congruence.
  - intros Hin. destruct (od_get k d) eqn:E; [eauto|].
    apply od_get_None in E. contradiction.
Qed.

Lemma keys_od_set k v d k' : k' ∈ keys (od_set k v d) <-> k' = k ∨ k' ∈ keys d.
Proof.
  rewrite <- !od_get_is_Some. destruct (decide (k = k')) as [->|Hne].
  - rewrite od_get_set_eq. split; [now left|eauto].
  - rewrite od_get_set_ne by assumption. split; [now right|].
    intros [->|H]; [contradiction|assumption].
Qed.

Lemma NoDup_od_set k v d : NoDup (keys d) -> NoDup (keys (od_set k v d)).
Proof.
  unfold keys. induction d as [|[k' v'] d IH]; simpl.
  - intros _. apply NoDup_singleton.
  - rewrite NoDup_cons. intros [Hk' Hd].
    destruct (String.eqb_spec k k') as [->|Hne]; simpl; apply NoDup_cons.
    + now split.
    + split; [|now apply IH].
      intros Hin. apply Hk'. apply (keys_od_set k v d k') in Hin as [->|Hin];
        [contradiction|assumption].
Qed.

Lemma od_get_update k d e :
  NoDup (keys e) ->
  od_get k (update d e)
  = match od_get k e with Some v => Some v | None => od_get k d end.
Proof.
  unfold update, keys. revert d; induction e as [|[k0 v0] e IH]; intros d; simpl.
  - reflexivity.
  - rewrite NoDup_cons. intros [Hk0 He]. rewrite IH by assumption.
    destruct (String.eqb_spec k k0) as [->|Hne].
    + apply od_get_None in Hk0. rewrite Hk0. apply od_get_set_eq.
    + rewrite od_get_set_ne by congruence. reflexivity.
Qed.

Lemma keys_update k d e : k ∈ keys (update d e) <-> k ∈ keys d ∨ k ∈ keys e.
Proof.
  unfold update. revert d; induction e as [|[k0 v0] e IH]; intros d; simpl.
  - change (keys (@nil (string * V))) with (@nil string).
    rewrite elem_of_nil. tauto.
  - rewrite IH, keys_od_set.
    change (keys ((k0, v0) :: e)) with (k0 :: keys e).
    rewrite elem_of_cons. tauto.
Qed.

Lemma NoDup_update d e : NoDup (keys d) -> NoDup (keys (update d e)).
Proof.
  unfold update. revert d; induction e as [|[k0 v0] e IH]; intros d Hd; simpl.
  - assumption.
  - apply IH. now apply NoDup_od_set.
Qed.

Lemma isdisjoint_false (a b : list string) :
  isdisjoint a b = false <-> ∃ k, k ∈ a ∧ k ∈ b.
Proof.
  unfold isdisjoint. induction a as [|x a IH]; simpl.
  - split; [discriminate|]. intros (k & Hk & _). now apply elem_of_nil in Hk.
  - rewrite andb_false_iff, IH, bool_decide_eq_false. split.
    + intros [Hx|(k & Ha & Hb)].
      * exists x. split; [apply elem_of_cons; now left|]. now apply dec_stable.
      * exists k. split; [apply elem_of_cons; now right|assumption].
    + intros (k & Hk & Hb). apply elem_of_cons in Hk as [->|Hk].
      * left. tauto.
      * right. eauto.
Qed.

Lemma isdisjoint_true (a b : list string) :
  isdisjoint a b = true <-> ∀ k, k ∈ a -> k ∉ b.
Proof.
  destruct (isdisjoint a b) eqn:E.
  - split; [intros _|reflexivity]. intros k Ha Hb.
    assert (isdisjoint a b = false) by (apply isdisjoint_false; eauto). congruence.
  - apply isdisjoint_false in E as (k & Ha & Hb).
    split; [discriminate|]. intros H. exfalso. exact (H k Ha Hb).
Qed.

End DictUpdateFacts.

(** ** The parser and the aggregator *)

Section ParserFacts.
Import Py NanoStat.
Implicit Types (ns : dict value) (st : state) (f : logfile).

Lemma bind_Ok {A B : Type} (r : result A) (k : A → result B) (b : B) :
  (r ≫= k) = Ok b -> ∃ a, r = Ok a ∧ k a = Ok b.
Proof. destruct r as [a|e]; simpl; [eauto|discriminate]. Qed.

Lemma parse_lines_app ns l1 l2 :
  parse_lines ns (l1 ++ l2) = (parse_lines ns l1 ≫= fun ns' => parse_lines ns' l2).
Proof.
  revert ns; induction l1 as [|line l1 IH]; intros ns; simpl; [reflexivity|].
  destruct (parse_line ns line) as [ns'|e]; simpl; [apply IH|reflexivity].
Qed.

Lemma load_app st l1 l2 :
  load st (l1 ++ l2) = (load st l1 ≫= fun st' => load st' l2).
Proof.
  revert st; induction l1 as [|f l1 IH]; intros st; simpl; [reflexivity|].
  destruct (parse_nanostat_log st f) as [st'|e]; simpl; [apply IH|reflexivity].
Qed.

(** A line either leaves the fields unchanged or sets one field of the
    vocabularies. *)
Lemma parse_line_Ok ns line ns' :
  parse_line ns line = Ok ns' ->
  ns' = ns ∨ ∃ key v, key ∈ vocabulary ∧ ns' = od_set key v ns.
Proof.
  unfold parse_line, vocabulary.
  destruct (split ":" (strip (escape line))) as [|key rest]; [intros [= <-]; now left|].
  case_bool_decide as Hnum.
  - intros H. apply bind_Ok in H as (p1 & _ & H). apply bind_Ok in H as (x & _ & H).
    injection H as <-. right. exists key, (VFloat x).
    split; [apply elem_of_app; now left|reflexivity].
  - case_bool_decide as Hq; [|intros [= <-]; now left].
    intros H. apply bind_Ok in H as (p1 & _ & H). apply bind_Ok in H as (tok & _ & H).
    apply bind_Ok in H as (x & _ & H). injection H as <-. right.
    exists key, (VInt x). split; [apply elem_of_app; now right|reflexivity].
Qed.

Lemma parse_line_fields ns line ns' :
  parse_line ns line = Ok ns' -> fields_ok ns -> fields_ok ns'.
Proof.
  intros H [Hnd Hv]. apply parse_line_Ok in H as [->|(key & v & Hkey & ->)];
    [now split|].
  split; [now apply NoDup_od_set|].
  intros k Hk. apply keys_od_set in Hk as [->|Hk]; [assumption|now apply Hv].
Qed.

Lemma parse_lines_fields lines ns ns' :
  parse_lines ns lines = Ok ns' -> fields_ok ns -> fields_ok ns'.
Proof.
  revert ns; induction lines as [|line lines IH]; intros ns; simpl.
  - now intros [= <-].
  - intros H Hok. apply bind_Ok in H as (ns1 & H1 & H2).
    apply (IH _ H2). exact (parse_line_fields _ _ _ H1 Hok).
Qed.

Lemma fields_ok_nil : fields_ok [].
Proof.
  split; [apply NoDup_nil_2|]. intros k Hk. now apply elem_of_nil in Hk.
Qed.

(** The composite-keyed record is the list of the fields with their keys
    renamed. *)
Lemma namespaced_from stat_type ns acc :
  fold_left (fun out_d '(k, v) => od_set (_key_fmt k stat_type) v out_d) ns acc
  = update acc (prod_map (fun k => _key_fmt k stat_type) id <$> ns).
Proof.
  unfold update. revert acc; induction ns as [|[k v] ns IH]; intros acc; simpl;
    [reflexivity|apply IH].
Qed.

Lemma renamed_keys stat_type ns :
  keys (prod_map (fun k => _key_fmt k stat_type) id <$> ns)
  = (fun k => _key_fmt k stat_type) <$> keys ns.
Proof.
  unfold keys. induction ns as [|[k v] ns IH]; [reflexivity|].
  cbn. f_equal. exact IH.
Qed.

Lemma renamed_lookup stat_type ns k :
  od_get (_key_fmt k stat_type) (prod_map (fun k => _key_fmt k stat_type) id <$> ns)
  = od_get k ns.
Proof.
  induction ns as [|[k0 v0] ns IH]; simpl; [reflexivity|].
  destruct (String.eqb_spec k k0) as [->|Hne].
  - now rewrite String.eqb_refl.
  - destruct (String.eqb_spec (_key_fmt k stat_type) (_key_fmt k0 stat_type)) as [He|_];
      [|exact IH].
    apply (inj (fun k => _key_fmt k stat_type)) in He. contradiction.
Qed.

Lemma namespaced_lookup stat_type ns k :
  NoDup (keys ns) ->
  od_get (_key_fmt k stat_type) (namespaced stat_type ns) = od_get k ns.
Proof.
  intros Hnd. unfold namespaced. rewrite namespaced_from, od_get_update.
  - rewrite renamed_lookup. now destruct (od_get k ns).
  - rewrite renamed_keys. now apply (NoDup_fmap_2 _).
Qed.

Lemma namespaced_keys stat_type ns key :
  key ∈ keys (namespaced stat_type ns) <->
  ∃ k, key = _key_fmt k stat_type ∧ k ∈ keys ns.
Proof.
  unfold namespaced. rewrite namespaced_from, keys_update, renamed_keys.
  rewrite list_elem_of_fmap.
  change (keys (@nil (string * value))) with (@nil string).
  rewrite elem_of_nil. tauto.
Qed.

Lemma NoDup_namespaced stat_type ns : NoDup (keys (namespaced stat_type ns)).
Proof.
  unfold namespaced. rewrite namespaced_from. apply NoDup_update.
  apply NoDup_nil_2.
Qed.

Lemma stat_type_of_cases ns :
  (is_Some (od_get "Total bases aligned" ns) ∧ stat_type_of ns = Some "aligned")
  ∨ (od_get "Total bases aligned" ns = None ∧ is_Some (od_get "Active channels" ns)
     ∧ stat_type_of ns = Some "seq summary")
  ∨ (od_get "Total bases aligned" ns = None ∧ od_get "Active channels" ns = None
     ∧ stat_type_of ns = None).
Proof.
  unfold stat_type_of, od_mem.
  destruct (od_get "Total bases aligned" ns); [left; eauto|].
  destruct (od_get "Active channels" ns); [right; left; eauto|].
  right; right; eauto.
Qed.

Lemma stat_type_of_variant ns stat_type :
  stat_type_of ns = Some stat_type -> stat_type ∈ ["aligned"; "seq summary"].
Proof.
  destruct (stat_type_of_cases ns) as [[_ ->]|[(_ & _ & ->)|(_ & _ & ->)]];
    intros [= <-]; repeat constructor.
Qed.

Lemma merge_store_eq st f out_d :
  od_get (s_name f) (nanostat_data (merge st f out_d))
  = Some (update (entry st (s_name f)) out_d).
Proof. simpl. apply od_get_set_eq. Qed.

Lemma merge_store_ne st f out_d s :
  s ≠ s_name f ->
  od_get s (nanostat_data (merge st f out_d)) = od_get s (nanostat_data st).
Proof. intros Hne. simpl. apply od_get_set_ne. congruence. Qed.

Lemma parse_nanostat_log_Some st f ns stat_type :
  parse_lines [] (f_lines f) = Ok ns ->
  stat_type_of ns = Some stat_type ->
  parse_nanostat_log st f = Ok (merge st f (namespaced stat_type ns)).
Proof. intros H1 H2. unfold parse_nanostat_log. rewrite H1. simpl. now rewrite H2. Qed.

Lemma merged_fields st f ns stat_type k v :
  NoDup (keys ns) ->
  od_get k ns = Some v ->
  od_get (_key_fmt k stat_type)
         (entry (merge st f (namespaced stat_type ns)) (s_name f))
  = Some v.
Proof.
  intros Hnd Hk. unfold entry at 1. rewrite merge_store_eq. simpl.
  rewrite od_get_update by apply NoDup_namespaced.
  now rewrite namespaced_lookup, Hk.
Qed.

Lemma merge_log_conflict st f out_d old :
  od_get (s_name f) (nanostat_data st) = Some old ->
  (∃ k, k ∈ keys old ∧ k ∈ keys out_d) ->
  log (merge st f out_d) = (log st ++ [duplicate_msg f])%list.
Proof.
  intros Hold Hk. simpl. rewrite Hold.
  apply isdisjoint_false in Hk. now rewrite Hk.
Qed.

End ParserFacts.

(** ** Properties of the parser and the aggregator *)

Section ParserClaims.
Import Py NanoStat.
Implicit Types (ns : dict value) (st : state) (f : logfile).

(** C7. After the lines of a report are scanned: with a field
    "Total bases aligned" the report is classified as aligned and its
    fields are stored under the aligned keys; otherwise, with a field
    "Active channels", it is classified as seq summary; otherwise the
    store and the registered sources are left as they were and one debug
    message naming the file is logged. *)
Theorem variant_classification st f ns :
  parse_lines [] (f_lines f) = Ok ns ->
  (is_Some (od_get "Total bases aligned" ns) ->
     ∃ st', parse_nanostat_log st f = Ok st'
       ∧ st' = merge st f (namespaced "aligned" ns)
       ∧ ∀ k v, od_get k ns = Some v ->
           od_get (_key_fmt k "aligned") (entry st' (s_name f)) = Some v)
  ∧ (od_get "Total bases aligned" ns = None ->
     is_Some (od_get "Active channels" ns) ->
     ∃ st', parse_nanostat_log st f = Ok st'
       ∧ st' = merge st f (namespaced "seq summary" ns)
       ∧ ∀ k v, od_get k ns = Some v ->
           od_get (_key_fmt k "seq summary") (entry st' (s_name f)) = Some v)
  ∧ (od_get "Total bases aligned" ns = None ->
     od_get "Active channels" ns = None ->
     ∃ st', parse_nanostat_log st f = Ok st'
       ∧ nanostat_data st' = nanostat_data st
       ∧ data_sources st' = data_sources st
       ∧ log st' = (log st ++ [unrecognised_msg f])%list).
Proof.
  intros Hns.
  pose proof (parse_lines_fields _ _ _ Hns fields_ok_nil) as [Hnd _].
  destruct (stat_type_of_cases ns) as [[Ha Hty]|[(Ha & Hc & Hty)|(Ha & Hc & Hty)]].
  - split; [|split].
    + intros _. eexists. split; [exact (parse_nanostat_log_Some _ _ _ _ Hns Hty)|].
      split; [reflexivity|]. intros k v Hk. subst. now apply merged_fields.
    + intros Hn. rewrite Hn in Ha. now destruct Ha.
    + intros Hn. rewrite Hn in Ha. now destruct Ha.
  - split; [|split].
    + intros Hs. rewrite Ha in Hs. now destruct Hs.
    + intros _ _. eexists. split; [exact (parse_nanostat_log_Some _ _ _ _ Hns Hty)|].
      split; [reflexivity|]. intros k v Hk. now apply merged_fields.
    + intros _ Hn. rewrite Hn in Hc. now destruct Hc.
  - split; [|split].
    + intros Hs. rewrite Ha in Hs. now destruct Hs.
    + intros _ Hs. rewrite Hc in Hs. now destruct Hs.
    + intros _ _. unfold parse_nanostat_log. rewrite Hns. simpl. rewrite Hty.
      eexists. split; [reflexivity|]. now repeat split.
Qed.

Lemma variant_classification_witness :
  parse_lines [] (f_lines other_report) = Ok other_fields
  ∧ od_get "Total bases aligned" other_fields = None
  ∧ od_get "Active channels" other_fields = None
  ∧ ∃ st', parse_nanostat_log empty_state other_report = Ok st'
       ∧ nanostat_data st' = nanostat_data empty_state
       ∧ data_sources st' = data_sources empty_state
       ∧ log st' = (log empty_state ++ [unrecognised_msg other_report])%list.
Proof.
  assert (H : parse_lines [] (f_lines other_report) = Ok other_fields)
    by (vm_compute; reflexivity).
  split; [exact H|]. split; [reflexivity|]. split; [reflexivity|].
  exact (proj2 (proj2 (variant_classification empty_state other_report other_fields H))
           eq_refl eq_refl).
Defined.

(** C8. When a report is merged into a sample that is already in the store
    and its composite keys share at least one key with the sample's entry:
    the log grows by exactly one message, which names the sample; every
    incoming key holds the incoming value afterwards; every other key of
    the entry keeps its value; the other samples are untouched. *)
Theorem merge_conflict st f ns stat_type old :
  parse_lines [] (f_lines f) = Ok ns ->
  stat_type_of ns = Some stat_type ->
  od_get (s_name f) (nanostat_data st) = Some old ->
  (∃ key, key ∈ keys old ∧ key ∈ keys (namespaced stat_type ns)) ->
  ∃ st' new,
    parse_nanostat_log st f = Ok st'
    ∧ log st' = (log st ++ [duplicate_msg f])%list
    ∧ od_get (s_name f) (nanostat_data st') = Some new
    ∧ (∀ key v, od_get key (namespaced stat_type ns) = Some v ->
         od_get key new = Some v)
    ∧ (∀ key, od_get key (namespaced stat_type ns) = None ->
         od_get key new = od_get key old)
    ∧ (∀ sample, sample ≠ s_name f ->
         od_get sample (nanostat_data st') = od_get sample (nanostat_data st)).
Proof.
  intros Hns Hty Hold Hshare.
  exists (merge st f (namespaced stat_type ns)), (update old (namespaced stat_type ns)).
  split; [now apply parse_nanostat_log_Some|].
  split; [now apply (merge_log_conflict _ _ _ old)|].
  split; [rewrite merge_store_eq; unfold entry; rewrite Hold; reflexivity|].
  split; [|split].
  - intros key v Hkey. rewrite od_get_update by apply NoDup_namespaced.
    now rewrite Hkey.
  - intros key Hkey. rewrite od_get_update by apply NoDup_namespaced.
    now rewrite Hkey.
  - intros sample Hne. now apply merge_store_ne.
Qed.

Lemma merge_conflict_witness :
  load empty_state [seq_report] = Ok seq_state
  ∧ parse_lines [] (f_lines seq_report_again) = Ok again_fields
  ∧ stat_type_of again_fields = Some "seq summary"
  ∧ od_get "S1" (nanostat_data seq_state) = Some seq_entry
  ∧ "Active channels (seq summary)" ∈ keys seq_entry
  ∧ "Active channels (seq summary)" ∈ keys (namespaced "seq summary" again_fields)
  ∧ ∃ st' new,
      parse_nanostat_log seq_state seq_report_again = Ok st'
      ∧ log st' = (log seq_state ++ [duplicate_msg seq_report_again])%list
      ∧ od_get "S1" (nanostat_data st') = Some new
      ∧ (∀ key v, od_get key (namespaced "seq summary" again_fields) = Some v ->
           od_get key new = Some v)
      ∧ (∀ key, od_get key (namespaced "seq summary" again_fields) = None ->
           od_get key new = od_get key seq_entry)
      ∧ (∀ sample, sample ≠ "S1" ->
           od_get sample (nanostat_data st')
           = od_get sample (nanostat_data seq_state)).
Proof.
  assert (Hns : parse_lines [] (f_lines seq_report_again) = Ok again_fields)
    by (vm_compute; reflexivity).
  assert (Hty : stat_type_of again_fields = Some "seq summary")
    by (vm_compute; reflexivity).
  assert (Hold : od_get (s_name seq_report_again) (nanostat_data seq_state)
                 = Some seq_entry) by (vm_compute; reflexivity).
  assert (H1 : "Active channels (seq summary)" ∈ keys seq_entry)
    by (apply (bool_decide_unpack _); vm_compute; exact I).
  assert (H2 : "Active channels (seq summary)"
               ∈ keys (namespaced "seq summary" again_fields))
    by (apply (bool_decide_unpack _); vm_compute; exact I).
  split; [vm_compute; reflexivity|].
  repeat (split; [assumption|]).
  exact (merge_conflict seq_state seq_report_again again_fields "seq summary"
           seq_entry Hns Hty Hold (ex_intro _ _ (conj H1 H2))).
Defined.


(** C9. A line that, once escaped and stripped, is a name of the
    vocabularies with no colon makes the parser index the missing second
    part: the line, the scan of the report and the loading loop all raise
    [IndexError]. A line whose key is not in the vocabularies is ignored. *)
Theorem parse_not_total line key :
  split ":" (strip (escape line)) = [key] ->
  key ∈ vocabulary ->
  (∀ ns, parse_line ns line = Raise IndexError)
  ∧ (∀ st f before after ns,
       f_lines f = (before ++ line :: after)%list ->
       parse_lines [] before = Ok ns ->
       parse_nanostat_log st f = Raise IndexError)
  ∧ (∀ ns other k rest,
       split ":" (strip (escape other)) = k :: rest ->
       k ∉ vocabulary ->
       parse_line ns other = Ok ns).
Proof.
  intros Hparts Hkey.
  assert (Hline : ∀ ns, parse_line ns line = Raise IndexError).
  { intros ns. unfold parse_line. rewrite Hparts.
    apply elem_of_app in Hkey as [Hk|Hk].
    - rewrite bool_decide_eq_true_2 by assumption. reflexivity.
    - case_bool_decide; [reflexivity|].
      rewrite bool_decide_eq_true_2 by assumption. reflexivity. }
  split; [exact Hline|]. split.
  - intros st f before after ns Hf Hbefore. unfold parse_nanostat_log.
    rewrite Hf, parse_lines_app, Hbefore. simpl. now rewrite Hline.
  - intros ns other k rest Hother Hk. unfold parse_line. rewrite Hother.
    unfold vocabulary in Hk. rewrite elem_of_app in Hk.
    rewrite !bool_decide_eq_false_2 by tauto. reflexivity.
Qed.

Lemma parse_not_total_witness :
  split ":" (strip (escape "Number of reads")) = ["Number of reads"]
  ∧ "Number of reads" ∈ vocabulary
  ∧ (∀ ns, parse_line ns "Number of reads" = Raise IndexError)
  ∧ (∀ st f before after ns,
       f_lines f = (before ++ "Number of reads" :: after)%list ->
       parse_lines [] before = Ok ns ->
       parse_nanostat_log st f = Raise IndexError)
  ∧ (∀ ns other k rest,
       split ":" (strip (escape other)) = k :: rest ->
       k ∉ vocabulary ->
       parse_line ns other = Ok ns).
Proof.
  assert (H1 : split ":" (strip (escape "Number of reads")) = ["Number of reads"])
    by (vm_compute; reflexivity).
  assert (H2 : "Number of reads" ∈ vocabulary)
    by (apply (bool_decide_unpack _); vm_compute; exact I).
  split; [exact H1|]. split; [exact H2|].
  exact (parse_not_total "Number of reads" "Number of reads" H1 H2).
Defined.

(** C3, as the specification states it, fails: a report with a malformed
    number does not only drop out, it stops the loading loop, and the
    report after it is never parsed. *)
Lemma malformed_value_stops_the_run :
  split ":" (strip (escape "Number of reads: n/a")) = ["Number of reads"; " n/a"]
  ∧ float_of_string (remove_char "," " n/a") = None
  ∧ load empty_state [bad_report; seq_report] = Raise ValueError
  ∧ __init__ example_config [] [bad_report; seq_report] = Raise ValueError
  ∧ load empty_state [seq_report] = Ok seq_state.
Proof. repeat split; vm_compute; reflexivity. Qed.

(** C3, amended. When a line whose key is a numeric summary field carries
    a value that [float] rejects, the scan of that report raises
    [ValueError] and nothing of the report reaches the store; the
    exception is not caught: the loading loop and the construction of the
    module raise it too, whatever reports come after. *)
Theorem malformed_value_is_fatal files st f before line after ns key v rest :
  load empty_state files = Ok st ->
  f_lines f = (before ++ line :: after)%list ->
  parse_lines [] before = Ok ns ->
  split ":" (strip (escape line)) = key :: v :: rest ->
  key ∈ _KEYS_NUM ->
  float_of_string (remove_char "," v) = None ->
  parse_nanostat_log st f = Raise ValueError
  ∧ ∀ later,
      load empty_state (files ++ f :: later) = Raise ValueError
      ∧ ∀ cfg ignore, __init__ cfg ignore (files ++ f :: later) = Raise ValueError.
Proof.
  intros Hfiles Hf Hbefore Hparts Hkey Hval.
  assert (Hline : parse_line ns line = Raise ValueError).
  { unfold parse_line. rewrite Hparts.
    rewrite bool_decide_eq_true_2 by assumption. simpl. now rewrite Hval. }
  assert (Hlog : parse_nanostat_log st f = Raise ValueError).
  { unfold parse_nanostat_log. rewrite Hf, parse_lines_app, Hbefore. simpl.
    now rewrite Hline. }
  split; [exact Hlog|]. intros later.
  assert (Hload : load empty_state (files ++ f :: later) = Raise ValueError).
  { rewrite load_app, Hfiles. simpl. now rewrite Hlog. }
  split; [exact Hload|]. intros cfg ignore. unfold __init__. now rewrite Hload.
Qed.

Lemma malformed_value_is_fatal_witness :
  load empty_state [seq_report] = Ok seq_state
  ∧ f_lines bad_report = (["Active channels: 512"] ++ "Number of reads: n/a" :: [])%list
  ∧ parse_lines [] ["Active channels: 512"]
    = Ok [("Active channels", VFloat (float_of_Z 512))]
  ∧ split ":" (strip (escape "Number of reads: n/a")) = ["Number of reads"; " n/a"]
  ∧ "Number of reads" ∈ _KEYS_NUM
  ∧ float_of_string (remove_char "," " n/a") = None
  ∧ parse_nanostat_log seq_state bad_report = Raise ValueError
  ∧ ∀ later,
      load empty_state ([seq_report] ++ bad_report :: later) = Raise ValueError
      ∧ ∀ cfg ignore,
          __init__ cfg ignore ([seq_report] ++ bad_report :: later) = Raise ValueError.
Proof.
  assert (H1 : load empty_state [seq_report] = Ok seq_state)
    by (vm_compute; reflexivity).
  assert (H2 : parse_lines [] ["Active channels: 512"]
               = Ok [("Active channels", VFloat (float_of_Z 512))])
    by (vm_compute; reflexivity).
  assert (H3 : split ":" (strip (escape "Number of reads: n/a"))
               = ["Number of reads"; " n/a"]) by (vm_compute; reflexivity).
  assert (H4 : "Number of reads" ∈ _KEYS_NUM)
    by (apply (bool_decide_unpack _); vm_compute; exact I).
  assert (H5 : float_of_string (remove_char "," " n/a") = None)
    by (vm_compute; reflexivity).
  split; [exact H1|]. split; [reflexivity|]. split; [exact H2|].
  split; [exact H3|]. split; [exact H4|]. split; [exact H5|].
  exact (malformed_value_is_fatal [seq_report] seq_state bad_report
           ["Active channels: 512"] "Number of reads: n/a" [] _
           "Number of reads" " n/a" [] H1 eq_refl H2 H3 H4 H5).
Defined.

Lemma composite_not_unrecognized name key :
  composite_key key -> key ≠ _key_fmt name "unrecognized".
Proof.
  intros (k & variant & _ & Hv & ->) He.
  apply elem_of_cons in Hv as [->|Hv].
  - exact (aligned_not_unrecognized _ _ He).
  - apply list_elem_of_singleton in Hv as ->.
    exact (seq_summary_not_unrecognized _ _ He).
Qed.

Lemma merge_keys_composite st f ns stat_type :
  store_keys_composite (nanostat_data st) ->
  fields_ok ns ->
  stat_type ∈ ["aligned"; "seq summary"] ->
  store_keys_composite (nanostat_data (merge st f (namespaced stat_type ns))).
Proof.
  intros Hst [_ Hvoc] Hty sample d key Hin Hkey. simpl in Hin.
  apply elem_of_od_set in Hin as [[-> ->]|Hin]; [|exact (Hst _ _ _ Hin Hkey)].
  apply keys_update in Hkey as [Hkey|Hkey].
  - destruct (od_get (s_name f) (nanostat_data st)) as [old|] eqn:Hold; simpl in Hkey.
    + apply od_get_elem_of in Hold. exact (Hst _ _ _ Hold Hkey).
    + now apply elem_of_nil in Hkey.
  - apply namespaced_keys in Hkey as (k & -> & Hk).
    exists k, stat_type. split; [now apply Hvoc|now split].
Qed.

Lemma parse_nanostat_log_keys st f st' :
  parse_nanostat_log st f = Ok st' ->
  store_keys_composite (nanostat_data st) ->
  store_keys_composite (nanostat_data st').
Proof.
  unfold parse_nanostat_log. intros H Hst.
  apply bind_Ok in H as (ns & Hns & H).
  pose proof (parse_lines_fields _ _ _ Hns fields_ok_nil) as Hok.
  destruct (stat_type_of ns) as [stat_type|] eqn:Hty; injection H as <-.
  - apply merge_keys_composite; [assumption..|].
    exact (stat_type_of_variant _ _ Hty).
  - exact Hst.
Qed.

Lemma load_keys files st st' :
  load st files = Ok st' ->
  store_keys_composite (nanostat_data st) ->
  store_keys_composite (nanostat_data st').
Proof.
  revert st; induction files as [|f files IH]; intros st; simpl.
  - now intros [= <-].
  - intros H Hst. apply bind_Ok in H as (st1 & H1 & H2).
    apply (IH _ H2). exact (parse_nanostat_log_keys _ _ _ H1 Hst).
Qed.

Lemma elem_of_header_keys key data :
  key ∈ header_keys data <-> ∃ sample d, (sample, d) ∈ data ∧ key ∈ keys d.
Proof.
  induction data as [|[s d] data IH]; simpl.
  - rewrite elem_of_nil. split; [tauto|]. intros (? & ? & H & _).
    now apply elem_of_nil in H.
  - rewrite elem_of_app, IH. split.
    + intros [H|(s' & d' & Hin & H)].
      * exists s, d. split; [apply elem_of_cons; now left|assumption].
      * exists s', d'. split; [apply elem_of_cons; now right|assumption].
    + intros (s' & d' & Hin & H). apply elem_of_cons in Hin as [[= -> ->]|Hin].
      * now left.
      * right. eauto.
Qed.

Lemma _get_total_reads_variant d total stat_type :
  _get_total_reads d = (total, Some stat_type) ->
  od_get (_key_fmt "Number of reads" stat_type) d = total ∧ is_Some total.
Proof.
  unfold _get_total_reads, _stat_types, _get_total_reads_in.
  destruct (od_get (_key_fmt "Number of reads" "aligned") d) eqn:E1;
    [intros [= <- <-]; eauto|].
  destruct (od_get (_key_fmt "Number of reads" "seq summary") d) eqn:E2;
    [intros [= <- <-]; eauto|].
  destruct (od_get (_key_fmt "Number of reads" "unrecognized") d) eqn:E3;
    [intros [= <- <-]; eauto|discriminate].
Qed.

(** C10. In every store the loading loop produces, each key of each sample
    is [name (variant)] for a name of the two vocabularies and the variant
    aligned or seq summary; this also holds after the ignored samples are
    removed. No key has the variant unrecognized: in the table the
    unrecognized iteration adds no column, and [_get_total_reads] never
    returns the unrecognized variant. *)
Theorem stored_keys_are_composite files st :
  load empty_state files = Ok st ->
  store_keys_composite (nanostat_data st)
  ∧ (∀ ignore, store_keys_composite (ignore_samples ignore (nanostat_data st)))
  ∧ (∀ sample d name, (sample, d) ∈ nanostat_data st ->
       od_get (_key_fmt name "unrecognized") d = None)
  ∧ (∀ cfg name placement_idx headers stat_type_idx,
       add_column cfg (header_keys (nanostat_data st)) placement_idx name
                  headers stat_type_idx "unrecognized" = headers)
  ∧ (∀ sample d, (sample, d) ∈ nanostat_data st ->
       (_get_total_reads d).2 ≠ Some "unrecognized").
Proof.
  intros Hload.
  assert (Hst : store_keys_composite (nanostat_data st)).
  { apply (load_keys _ _ _ Hload). intros s d key Hin. now apply elem_of_nil in Hin. }
  assert (Hun : ∀ sample d name, (sample, d) ∈ nanostat_data st ->
                  od_get (_key_fmt name "unrecognized") d = None).
  { intros sample d name Hin.
    destruct (od_get (_key_fmt name "unrecognized") d) eqn:E; [|reflexivity].
    exfalso. assert (Hk : _key_fmt name "unrecognized" ∈ keys d)
      by (apply od_get_is_Some; eauto).
    exact (composite_not_unrecognized name _ (Hst _ _ _ Hin Hk) eq_refl). }
  split; [exact Hst|]. split; [|split; [exact Hun|split]].
  - intros ignore s d key Hin. unfold ignore_samples in Hin.
    apply list_elem_of_filter in Hin as [_ Hin]. exact (Hst _ _ _ Hin).
  - intros cfg name placement_idx headers stat_type_idx. unfold add_column.
    rewrite bool_decide_eq_false_2; [reflexivity|].
    intros Hin. apply elem_of_header_keys in Hin as (s & d & Hin & Hk).
    apply od_get_is_Some in Hk as [v Hv]. rewrite (Hun _ _ _ Hin) in Hv. discriminate.
  - intros sample d Hin Hty.
    destruct (_get_total_reads d) as [total stat_type] eqn:E. simpl in Hty. subst.
    apply _get_total_reads_variant in E as [E [v ->]].
    rewrite (Hun _ _ _ Hin) in E. discriminate.
Qed.

Lemma stored_keys_are_composite_witness :
  load empty_state [seq_report] = Ok seq_state
  ∧ store_keys_composite (nanostat_data seq_state)
  ∧ (∀ ignore, store_keys_composite (ignore_samples ignore (nanostat_data seq_state)))
  ∧ (∀ sample d name, (sample, d) ∈ nanostat_data seq_state ->
       od_get (_key_fmt name "unrecognized") d = None)
  ∧ (∀ cfg name placement_idx headers stat_type_idx,
       add_column cfg (header_keys (nanostat_data seq_state)) placement_idx name
                  headers stat_type_idx "unrecognized" = headers)
  ∧ (∀ sample d, (sample, d) ∈ nanostat_data seq_state ->
       (_get_total_reads d).2 ≠ Some "unrecognized").
Proof.
  assert (H : load empty_state [seq_report] = Ok seq_state)
    by (vm_compute; reflexivity).
  split; [exact H|]. exact (stored_keys_are_composite [seq_report] seq_state H).
Defined.

End ParserClaims.

(** ** Properties of the general statistics table *)

Section TableClaims.
Import Py NanoStat.

Lemma add_column_other cfg hk idx k headers i stat_type key :
  key ≠ _key_fmt k stat_type ->
  od_get key (add_column cfg hk idx k headers i stat_type) = od_get key headers.
Proof.
  intros Hne. unfold add_column. case_bool_decide; [|reflexivity].
  rewrite !od_get_set_ne by congruence. reflexivity.
Qed.

Lemma add_column_absent cfg hk idx k headers i stat_type :
  _key_fmt k stat_type ∉ hk ->
  add_column cfg hk idx k headers i stat_type = headers.
Proof. intros Hn. unfold add_column. now rewrite bool_decide_eq_false_2. Qed.

Lemma add_column_present cfg hk idx k headers i stat_type :
  _key_fmt k stat_type ∈ hk ->
  od_get (_key_fmt k stat_type) (add_column cfg hk idx k headers i stat_type)
  = Some (new_column cfg idx k headers i stat_type).
Proof.
  intros Hin. unfold add_column. rewrite bool_decide_eq_true_2 by assumption.
  rewrite od_get_set_eq. reflexivity.
Qed.

Lemma hidden_new_column cfg idx k headers i stat_type :
  hidden (new_column cfg idx k headers i stat_type)
  = Some (default false (hidden (default empty_header (od_get k (headers_base cfg))))
          || negb ((Nat.eqb i 0
                    || negb (od_mem (_key_fmt k default_stat_source)
                               (od_set (_key_fmt k stat_type)
                                  (default empty_header (od_get k (headers_base cfg)))
                                  headers)))
                   && negb (startswith "&gt;" (_key_fmt k stat_type)))).
Proof. unfold new_column. cbn zeta. destruct (title _); reflexivity. Qed.

Ltac unfold_table :=
  unfold nanostat_general_stats_table, _KEYS_NUM, _KEYS_READ_Q, _stat_types;
  cbn [enumerate_from app].

Ltac other_key := unfold _key_fmt, format2; simpl; discriminate.

Ltac skip_columns := repeat rewrite add_column_other by other_key.

Lemma od_mem_add_column_other cfg hk idx k headers i stat_type key :
  key ≠ _key_fmt k stat_type ->
  od_mem key (add_column cfg hk idx k headers i stat_type) = od_mem key headers.
Proof. intros Hne. unfold od_mem. now rewrite add_column_other. Qed.

Lemma od_mem_set_other {V : Type} k k' (v : V) d :
  k ≠ k' -> od_mem k' (od_set k v d) = od_mem k' d.
Proof. intros Hne. unfold od_mem. now rewrite od_get_set_ne. Qed.

Lemma od_mem_add_column cfg hk idx k headers i stat_type :
  _key_fmt k stat_type ∈ hk ->
  od_mem (_key_fmt k stat_type) (add_column cfg hk idx k headers i stat_type) = true.
Proof. intros Hin. unfold od_mem. now rewrite add_column_present. Qed.

Ltac skip_mem := repeat rewrite od_mem_add_column_other by other_key.

(** C2, as the specification states it, fails: with both values of
    "Mean read quality" stored for one sample the aligned column is hidden,
    and with only the seq-summary value stored that column is hidden too. *)
Lemma mean_quality_columns_hidden :
  load empty_state [quality_aligned_report; quality_seq_report] = Ok both_state
  ∧ (∃ h, od_get "Mean read quality (aligned)"
            (nanostat_general_stats_table example_config (nanostat_data both_state))
          = Some h ∧ hidden h = Some true)
  ∧ load empty_state [quality_seq_report] = Ok seq_only_state
  ∧ (∃ h, od_get "Mean read quality (seq summary)"
            (nanostat_general_stats_table example_config
               (nanostat_data seq_only_state))
          = Some h ∧ hidden h = Some true).
Proof.
  split; [vm_compute; reflexivity|]. split; [eexists; split; vm_compute; reflexivity|].
  split; [vm_compute; reflexivity|]. eexists; split; vm_compute; reflexivity.
Qed.

(** C2, amended. The columns of "Mean read quality" are hidden whatever is
    stored, as the template of that statistic is hidden by default. For a
    statistic whose template is not hidden by default, here
    "Median read quality": the aligned column is visible; the seq-summary
    column is hidden when the aligned value is stored too and visible when
    only the seq-summary value is stored. *)
Theorem column_visibility cfg data :
  (∀ variant, variant ∈ ["aligned"; "seq summary"] ->
     _key_fmt "Mean read quality" variant ∈ header_keys data ->
     ∃ h, od_get (_key_fmt "Mean read quality" variant)
            (nanostat_general_stats_table cfg data) = Some h
       ∧ hidden h = Some true)
  ∧ (_key_fmt "Median read quality" "aligned" ∈ header_keys data ->
     ∃ h, od_get (_key_fmt "Median read quality" "aligned")
            (nanostat_general_stats_table cfg data) = Some h
       ∧ hidden h = Some false)
  ∧ (_key_fmt "Median read quality" "seq summary" ∈ header_keys data ->
     ∃ h, od_get (_key_fmt "Median read quality" "seq summary")
            (nanostat_general_stats_table cfg data) = Some h
       ∧ hidden h
         = Some (bool_decide (_key_fmt "Median read quality" "aligned"
                              ∈ header_keys data))).
Proof.
  set (hk := header_keys data). split; [|split].
  - intros variant Hv Hin. unfold_table. fold hk.
    apply elem_of_cons in Hv as [->|Hv];
      [|apply list_elem_of_singleton in Hv as ->].
    + skip_columns. rewrite add_column_present by exact Hin.
      eexists. split; [reflexivity|]. rewrite hidden_new_column.
      match goal with |- context [od_mem ?a ?b] => generalize (od_mem a b) end.
      intros b. reflexivity.
    + skip_columns. rewrite add_column_present by exact Hin.
      eexists. split; [reflexivity|]. rewrite hidden_new_column.
      match goal with |- context [od_mem ?a ?b] => generalize (od_mem a b) end.
      intros b. reflexivity.
  - intros Hin. unfold_table. fold hk.
    skip_columns. rewrite add_column_present by exact Hin.
    eexists. split; [reflexivity|]. rewrite hidden_new_column.
    match goal with |- context [od_mem ?a ?b] => generalize (od_mem a b) end.
    intros b. reflexivity.
  - intros Hin. unfold_table. fold hk.
    skip_columns. rewrite add_column_present by exact Hin.
    eexists. split; [reflexivity|]. rewrite hidden_new_column.
    change default_stat_source with "aligned".
    rewrite od_mem_set_other by other_key.
    case_bool_decide as Ha.
    + rewrite od_mem_add_column by exact Ha. reflexivity.
    + rewrite add_column_absent by exact Ha. skip_mem. reflexivity.
Qed.

Lemma column_visibility_witness :
  (_key_fmt "Median read quality" "aligned" ∈ header_keys (nanostat_data both_state)
   ∧ ∃ h, od_get (_key_fmt "Median read quality" "aligned")
            (nanostat_general_stats_table example_config (nanostat_data both_state))
          = Some h ∧ hidden h = Some false)
  ∧ (_key_fmt "Median read quality" "seq summary"
     ∈ header_keys (nanostat_data both_state)
     ∧ ∃ h, od_get (_key_fmt "Median read quality" "seq summary")
              (nanostat_general_stats_table example_config (nanostat_data both_state))
            = Some h ∧ hidden h = Some true)
  ∧ (_key_fmt "Median read quality" "seq summary"
     ∈ header_keys (nanostat_data seq_only_state)
     ∧ ∃ h, od_get (_key_fmt "Median read quality" "seq summary")
              (nanostat_general_stats_table example_config
                 (nanostat_data seq_only_state))
            = Some h ∧ hidden h = Some false).
Proof.
  assert (H1 : _key_fmt "Median read quality" "aligned"
               ∈ header_keys (nanostat_data both_state))
    by (apply (bool_decide_unpack _); vm_compute; exact I).
  assert (H2 : _key_fmt "Median read quality" "seq summary"
               ∈ header_keys (nanostat_data both_state))
    by (apply (bool_decide_unpack _); vm_compute; exact I).
  assert (H3 : _key_fmt "Median read quality" "seq summary"
               ∈ header_keys (nanostat_data seq_only_state))
    by (apply (bool_decide_unpack _); vm_compute; exact I).
  split; [split; [exact H1|]|split; [split; [exact H2|]|split; [exact H3|]]].
  - exact (proj1 (proj2 (column_visibility example_config (nanostat_data both_state)))
             H1).
  - exact (proj2 (proj2 (column_visibility example_config (nanostat_data both_state)))
             H2).
  - exact (proj2 (proj2 (column_visibility example_config
                           (nanostat_data seq_only_state))) H3).
Defined.

End TableClaims.

(** ** Properties of the quality histogram *)

Section PlotClaims.
Import Py NanoStat.

Lemma fill_bar_data_app l1 l2 bars stat_type :
  fill_bar_data (l1 ++ l2) bars stat_type
  = (fill_bar_data l1 bars stat_type ≫= fun '(bars', stat_type') =>
       fill_bar_data l2 bars' stat_type').
Proof.
  revert bars stat_type; induction l1 as [|[s d] l1 IH]; intros bars stat_type; simpl.
  - reflexivity.
  - destruct (sample_row s d) as [[row st']|e]; simpl; [apply IH|reflexivity].
Qed.

Lemma getitem_Some d key v : od_get key d = Some v -> getitem d key = Ok v.
Proof. intros H. unfold getitem. now rewrite H. Qed.

Lemma getitem_None d key : od_get key d = None -> getitem d key = Raise (KeyError key).
Proof. intros H. unfold getitem. now rewrite H. Qed.

Lemma exact_total_int_value total n :
  0 <= n -> exact_total total n -> int_value total = Some n.
Proof.
  intros Hn [->|[-> Hlt]]; [reflexivity|]. simpl. apply float_to_Z_exact. lia.
Qed.

(** The first bucket: the total minus the first count, exactly. *)
Lemma first_bucket total n q :
  exact_total total n -> 0 <= q <= n ->
  ∃ b, sub total (VInt q) = Ok b ∧ ge0 b = true ∧ int_value b = Some (n - q).
Proof.
  intros [->|[-> Hlt]] Hq.
  - exists (VInt (n - q)). simpl. repeat split. apply Z.leb_le. lia.
  - exists (VFloat (float_of_Z (n - q))).
    split; [apply sub_float_int; lia|].
    split; [apply ge0_float_of_Z; lia|]. simpl. apply float_to_Z_exact. lia.
Qed.

Lemma sample_row_monotonic sample d total n :
  monotonic_counts d total n -> exact_total total n ->
  ∃ row stat_type, sample_row sample d = Ok (row, stat_type) ∧ good_row row n.
Proof.
  intros (stat_type & q5 & q7 & q10 & q12 & q15 & Htot & _ & H5 & H7 & H10 & H12
          & H15 & Hle) Hex.
  destruct (first_bucket total n q5 Hex ltac:(lia)) as (b0 & Hb0 & Hge & Hint).
  exists [("&lt;Q5", b0); ("Q5-7", VInt (q5 - q7)); ("Q7-10", VInt (q7 - q10));
          ("Q10-12", VInt (q10 - q12)); ("Q12-15", VInt (q12 - q15));
          ("&gt;Q15", VInt q15)], (Some stat_type).
  split.
  - unfold sample_row. rewrite Htot. unfold _range_names.
    cbn [fill_row str_of_stat_type default from_option id].
    rewrite !bool_decide_eq_true_2 by discriminate.
    rewrite bool_decide_eq_false_2 by (intros H; now apply H).
    rewrite (getitem_Some _ _ _ H5). cbn [mbind result_bind of_option].
    rewrite Hb0. cbn [mbind result_bind]. rewrite Hge.
    rewrite (getitem_Some _ _ _ H7). cbn [mbind result_bind of_option sub ge0].
    rewrite (proj2 (Z.leb_le 0 _)) by lia.
    rewrite (getitem_Some _ _ _ H10). cbn [mbind result_bind of_option sub ge0].
    rewrite (proj2 (Z.leb_le 0 _)) by lia.
    rewrite (getitem_Some _ _ _ H12). cbn [mbind result_bind of_option sub ge0].
    rewrite (proj2 (Z.leb_le 0 _)) by lia.
    rewrite (getitem_Some _ _ _ H15). cbn [mbind result_bind of_option sub ge0].
    rewrite (proj2 (Z.leb_le 0 _)) by lia.
    reflexivity.
  - split; [reflexivity|]. split.
    + repeat constructor; try (apply Z.leb_le; lia); try assumption;
        eexists; (split; [eassumption || reflexivity|lia]).
    + simpl. rewrite Hint. simpl. f_equal. lia.
Qed.


Lemma fill_bar_data_ok data :
  NoDup (keys data) ->
  (∀ sample d, (sample, d) ∈ data -> ∃ r, sample_row sample d = Ok r) ->
  ∀ bars stat_type,
    ∃ bars' stat_type',
      fill_bar_data data bars stat_type = Ok (bars', stat_type')
      ∧ (∀ sample d, (sample, d) ∈ data ->
           ∃ row st, sample_row sample d = Ok (row, st)
                     ∧ od_get sample bars' = Some row)
      ∧ (∀ sample, sample ∉ keys data -> od_get sample bars' = od_get sample bars).
Proof.
  induction data as [|[s0 d0] data IH]; intros Hnd Hok bars stat_type.
  - exists bars, stat_type. split; [reflexivity|]. split; [|reflexivity].
    intros sample d Hin. now apply elem_of_nil in Hin.
  - change (keys ((s0, d0) :: data)) with (s0 :: keys data) in Hnd.
    apply NoDup_cons in Hnd as [Hs0 Hnd].
    destruct (Hok s0 d0) as [[row0 st0] Hrow0]; [apply elem_of_cons; now left|].
    destruct (IH Hnd (fun s d H => Hok s d (proj2 (elem_of_cons _ _ _) (or_intror H)))
                (od_set s0 row0 bars) st0) as (bars' & st' & Hfill & Hin & Hout).
    exists bars', st'. split; [simpl; rewrite Hrow0; exact Hfill|]. split.
    + intros sample d Hd. apply elem_of_cons in Hd as [[= -> ->]|Hd].
      * exists row0, st0. split; [assumption|].
        rewrite (Hout s0 Hs0). apply od_get_set_eq.
      * exact (Hin _ _ Hd).
    + intros sample Hn.
      change (keys ((s0, d0) :: data)) with (s0 :: keys data) in Hn.
      apply not_elem_of_cons in Hn as [Hne Hn].
      rewrite (Hout _ Hn). apply od_get_set_ne. congruence.
Qed.

(** C1, as the specification states it, fails: for a total of 2^53 + 2
    reads, held exactly by its float, and the five counts equal to 1, the
    first bucket is rounded to 2^53 and the buckets sum to 2^53 + 1. *)
Lemma huge_total_breaks_sum :
  load empty_state [huge_report] = Ok huge_state
  ∧ monotonic_counts (entry huge_state "H")
      (VFloat (float_of_decimal false 9007199254740994 0)) 9007199254740994
  ∧ ∃ row,
      sample_row "H" (entry huge_state "H") = Ok (row, Some "seq summary")
      ∧ row_sum row = Some 9007199254740993
      ∧ ¬ good_row row 9007199254740994.
Proof.
  split; [vm_compute; reflexivity|]. split.
  - exists "seq summary", 1, 1, 1, 1, 1.
    repeat (split; [vm_compute; reflexivity || (intros ?; discriminate)|]).
    vm_compute. intros ?; discriminate.
  - eexists. split; [vm_compute; reflexivity|].
    split; [vm_compute; reflexivity|].
    intros (_ & _ & Hsum). vm_compute in Hsum. discriminate Hsum.
Qed.

(** C1, amended. For every sample whose total for the variant used is an
    integer held exactly (an [int], or a float below 2^53) and whose five
    cumulative counts decrease from the total down to zero, the derivation
    gives exactly the six buckets, each a non-negative integer, and their
    sum is the total; when every sample of a store is such, the plot has
    such a row for each of them. *)
Theorem histogram_rows :
  (∀ sample d total n,
     monotonic_counts d total n -> exact_total total n ->
     ∃ row stat_type, sample_row sample d = Ok (row, stat_type) ∧ good_row row n)
  ∧ (∀ data,
       NoDup (keys data) ->
       (∀ sample d, (sample, d) ∈ data ->
          ∃ total n, monotonic_counts d total n ∧ exact_total total n) ->
       ∃ p, nanostat_alignment_plot data = Ok p
         ∧ ∀ sample d total n,
             (sample, d) ∈ data ->
             monotonic_counts d total n -> exact_total total n ->
             ∃ row, od_get sample (bar_data p) = Some row ∧ good_row row n).
Proof.
  split; [exact sample_row_monotonic|].
  intros data Hnd Hall.
  destruct (fill_bar_data_ok data Hnd) with (bars := @nil (string * dict value))
    (stat_type := Some "unrecognized") as (bars & st & Hfill & Hin & _).
  { intros sample d Hd. destruct (Hall _ _ Hd) as (total & n & Hm & He).
    destruct (sample_row_monotonic sample d total n Hm He) as (row & s & Hrow & _).
    eauto. }
  eexists. split; [unfold nanostat_alignment_plot; rewrite Hfill; reflexivity|].
  intros sample d total n Hd Hm He. cbn [bar_data].
  destruct (Hin _ _ Hd) as (row & s & Hrow & Hget).
  destruct (sample_row_monotonic sample d total n Hm He) as (row' & s' & Hrow' & Hgood).
  rewrite Hrow in Hrow'. injection Hrow' as <- <-. eauto.
Qed.

Lemma histogram_rows_witness :
  NoDup (keys (nanostat_data seq_state))
  ∧ monotonic_counts seq_entry (VFloat (float_of_Z 1000)) 1000
  ∧ exact_total (VFloat (float_of_Z 1000)) 1000
  ∧ ∃ p, nanostat_alignment_plot (nanostat_data seq_state) = Ok p
      ∧ ∃ row, od_get "S1" (bar_data p) = Some row ∧ good_row row 1000.
Proof.
  assert (Hnd : NoDup (keys (nanostat_data seq_state)))
    by (apply (bool_decide_unpack _); vm_compute; exact I).
  assert (Hm : monotonic_counts seq_entry (VFloat (float_of_Z 1000)) 1000).
  { exists "seq summary", 900, 700, 400, 200, 50.
    repeat (split; [vm_compute; reflexivity || (intros ?; discriminate)|]).
    vm_compute. intros ?; discriminate. }
  assert (He : exact_total (VFloat (float_of_Z 1000)) 1000)
    by (right; split; [reflexivity|reflexivity]).
  split; [exact Hnd|]. split; [exact Hm|]. split; [exact He|].
  destruct (proj2 histogram_rows (nanostat_data seq_state) Hnd) as (p & Hp & Hrows).
  { intros sample d Hd. apply list_elem_of_singleton in Hd as [= -> ->].
    exists (VFloat (float_of_Z 1000)), 1000. split; assumption. }
  exists p. split; [exact Hp|].
  apply (Hrows "S1" seq_entry (VFloat (float_of_Z 1000)) 1000);
    [apply list_elem_of_singleton; reflexivity|assumption..].
Defined.

Lemma first_bucket_negative total q5 :
  count_value 100 total -> count_value 120 q5 ->
  ∃ b, sub total q5 = Ok b ∧ ge0 b = false.
Proof.
  intros [->| ->] [->| ->]; eexists; split; vm_compute; reflexivity.
Qed.

(** C6. For a sample whose total is 100 reads and whose count above Q5 is
    120, the derivation of the sample's row stops at the first bucket with
    an [AssertionError] that names the sample; the plot of any store that
    reaches this sample raises the same error, so no bucket is clamped
    and the sample is not skipped. *)
Theorem negative_bucket_is_fatal sample d total stat_type q5 :
  _get_total_reads d = (Some total, Some stat_type) ->
  count_value 100 total ->
  od_get (_key_fmt "&gt;Q5" stat_type) d = Some q5 ->
  count_value 120 q5 ->
  sample_row sample d = Raise (AssertionError (negative_msg sample stat_type))
  ∧ ∀ before after bars st,
      fill_bar_data before [] (Some "unrecognized") = Ok (bars, st) ->
      nanostat_alignment_plot (before ++ (sample, d) :: after)
      = Raise (AssertionError (negative_msg sample stat_type)).
Proof.
  intros Htot Htotal Hq5 Hcount.
  destruct (first_bucket_negative total q5 Htotal Hcount) as (b & Hb & Hneg).
  assert (Hrow : sample_row sample d
                 = Raise (AssertionError (negative_msg sample stat_type))).
  { unfold sample_row. rewrite Htot. unfold _range_names.
    cbn [fill_row str_of_stat_type default from_option id].
    rewrite bool_decide_eq_true_2 by discriminate.
    rewrite (getitem_Some _ _ _ Hq5). cbn [mbind result_bind of_option].
    rewrite Hb. cbn [mbind result_bind]. rewrite Hneg. reflexivity. }
  split; [exact Hrow|].
  intros before after bars st Hbefore. unfold nanostat_alignment_plot.
  rewrite fill_bar_data_app, Hbefore. simpl. rewrite Hrow. reflexivity.
Qed.

Lemma negative_bucket_is_fatal_witness :
  load empty_state [inconsistent_report] = Ok inconsistent_state
  ∧ _get_total_reads (entry inconsistent_state "N")
    = (Some (VFloat (float_of_Z 100)), Some "seq summary")
  ∧ count_value 100 (VFloat (float_of_Z 100))
  ∧ od_get (_key_fmt "&gt;Q5" "seq summary") (entry inconsistent_state "N")
    = Some (VInt 120)
  ∧ count_value 120 (VInt 120)
  ∧ sample_row "N" (entry inconsistent_state "N")
    = Raise (AssertionError (negative_msg "N" "seq summary"))
  ∧ ∀ before after bars st,
      fill_bar_data before [] (Some "unrecognized") = Ok (bars, st) ->
      nanostat_alignment_plot
        (before ++ ("N", entry inconsistent_state "N") :: after)
      = Raise (AssertionError (negative_msg "N" "seq summary")).
Proof.
  assert (H1 : _get_total_reads (entry inconsistent_state "N")
               = (Some (VFloat (float_of_Z 100)), Some "seq summary"))
    by (vm_compute; reflexivity).
  assert (H2 : od_get (_key_fmt "&gt;Q5" "seq summary") (entry inconsistent_state "N")
               = Some (VInt 120)) by (vm_compute; reflexivity).
  split; [vm_compute; reflexivity|]. split; [exact H1|].
  split; [right; reflexivity|]. split; [exact H2|]. split; [left; reflexivity|].
  exact (negative_bucket_is_fatal "N" (entry inconsistent_state "N")
           (VFloat (float_of_Z 100)) "seq summary" (VInt 120)
           H1 (or_intror eq_refl) H2 (or_introl eq_refl)).
Defined.

(** A sample with no number of reads under any variant never gets a row:
    the lookup of its first count raises. *)
Lemma sample_row_without_total sample d :
  (∀ stat_type, stat_type ∈ _stat_types ->
     od_get (_key_fmt "Number of reads" stat_type) d = None) ->
  sample_row sample d = Raise (KeyError "&gt;Q5 (None)")
  ∨ sample_row sample d = Raise TypeError.
Proof.
  intros Hnone. unfold sample_row, _get_total_reads, _stat_types, _get_total_reads_in.
  rewrite !Hnone by (repeat constructor). unfold _range_names.
  cbn [fill_row str_of_stat_type default from_option].
  rewrite bool_decide_eq_true_2 by discriminate.
  destruct (od_get (_key_fmt "&gt;Q5" "None") d) as [v|] eqn:E.
  - right. rewrite (getitem_Some _ _ _ E). reflexivity.
  - left. rewrite (getitem_None _ _ E). reflexivity.
Qed.

(** C4. The code does not do what the specification says: for a store
    with a sample that has no "Number of reads" under any variant, next
    to a sample with a complete report, the derivation does not complete;
    it raises [KeyError], whichever sample comes first, and no row is
    produced for any sample. *)
Theorem missing_total_raises_KeyError :
  load empty_state [seq_report; no_reads_report] = Ok no_reads_state
  ∧ od_get "Number of reads (aligned)" (entry no_reads_state "A") = None
  ∧ od_get "Number of reads (seq summary)" (entry no_reads_state "A") = None
  ∧ od_get "Number of reads (unrecognized)" (entry no_reads_state "A") = None
  ∧ sample_row "A" (entry no_reads_state "A") = Raise (KeyError "&gt;Q5 (None)")
  ∧ nanostat_alignment_plot (nanostat_data no_reads_state)
    = Raise (KeyError "&gt;Q5 (None)")
  ∧ __init__ example_config [] [seq_report; no_reads_report]
    = Raise (KeyError "&gt;Q5 (None)")
  ∧ __init__ example_config [] [no_reads_report; seq_report]
    = Raise (KeyError "&gt;Q5 (None)").
Proof. repeat split; vm_compute; reflexivity. Qed.

(** C5, as the specification states it, fails: the lines are escaped
    before they are split, so a line that already starts with the escaped
    name is not recognised; the report is classified as seq summary, but
    no count is stored and the derivation raises [KeyError]. *)
Lemma escaped_lines_have_no_counts :
  escape "&gt;Q5: 900" = "&amp;gt;Q5: 900"
  ∧ load empty_state [escaped_report] = Ok escaped_state
  ∧ keys (entry escaped_state "S1")
    = ["Number of reads (seq summary)"; "Active channels (seq summary)"]
  ∧ __init__ example_config [] [escaped_report]
    = Raise (KeyError "&gt;Q5 (seq summary)").
Proof. repeat split; vm_compute; reflexivity. Qed.

(** C5, amended. The report with the lines "Number of reads: 1,000",
    ">Q5: 900", ">Q7: 700", ">Q10: 400", ">Q12: 200", ">Q15: 50" and
    "Active channels: 512" for the sample S1 is classified as seq summary,
    and the row of S1 is 100, 200, 300, 200, 150 and 50, which sum to
    1000. *)
Theorem end_to_end_example :
  (∃ ns, parse_lines [] (f_lines seq_report) = Ok ns
           ∧ stat_type_of ns = Some "seq summary")
  ∧ keys (entry seq_state "S1")
    = ["Number of reads (seq summary)"; "&gt;Q5 (seq summary)";
       "&gt;Q7 (seq summary)"; "&gt;Q10 (seq summary)"; "&gt;Q12 (seq summary)";
       "&gt;Q15 (seq summary)"; "Active channels (seq summary)"]
  ∧ ∃ r, __init__ example_config [] [seq_report] = Ok r
      ∧ bar_data (section_plot r) = [("S1", example_row)]
      ∧ plot_title (section_plot r) = "NanoStat: Reads by quality (seq summary)"
      ∧ map (fun '(_, v) => int_value v) example_row
        = [Some 100; Some 200; Some 300; Some 200; Some 150; Some 50]
      ∧ row_sum example_row = Some 1000.
Proof.
  split; [eexists; split; vm_compute; reflexivity|].
  split; [vm_compute; reflexivity|].
  eexists. split; [vm_compute; reflexivity|].
  repeat split; vm_compute; reflexivity.
Qed.

End PlotClaims.

(** * Further properties of the module *)

(** ** More on dictionaries *)

Section DictMoreFacts.
Import Py.
Context {V : Type}.
Implicit Types (d e : dict V) (k : string) (v : V).

Lemma od_set_same k v d : od_get k d = Some v -> od_set k v d = d.
Proof.
  induction d as [|[k' v'] d IH]; simpl; [discriminate|].
  destruct (String.eqb_spec k k') as [->|Hne].
  - now intros [= ->].
  - intros H. now rewrite IH.
Qed.

Lemma od_set_keys k v d :
  keys (od_set k v d) = if od_mem k d then keys d else (keys d ++ [k])%list.
Proof.
  unfold od_mem, keys. induction d as [|[k' v'] d IH]; simpl; [reflexivity|].
  destruct (String.eqb_spec k k') as [->|Hne]; [reflexivity|].
  cbn. rewrite IH. now destruct (od_get k d).
Qed.

Lemma update_same d e :
  (∀ k v, (k, v) ∈ e -> od_get k d = Some v) -> update d e = d.
Proof.
  unfold update. induction e as [|[k v] e IH]; intros H; simpl; [reflexivity|].
  rewrite od_set_same by (apply H, elem_of_cons; now left).
  apply IH. intros k' v' Hin. apply H, elem_of_cons. now right.
Qed.

Lemma update_fresh d e :
  NoDup (keys e) -> (∀ k, k ∈ keys e -> k ∉ keys d) ->
  update d e = (d ++ e)%list.
Proof.
  unfold update. revert d. induction e as [|[k v] e IH]; intros d Hnd Hfresh; simpl.
  - now rewrite app_nil_r.
  - change (keys ((k, v) :: e)) with (k :: keys e) in *.
    apply NoDup_cons in Hnd as [Hk Hnd].
    rewrite od_set_fresh by (apply Hfresh, elem_of_cons; now left).
    rewrite IH; [now rewrite <- app_assoc|assumption|].
    intros k' Hk' Hin. unfold keys in Hin. rewrite fmap_app in Hin.
    apply elem_of_app in Hin as [Hin|Hin].
    + exact (Hfresh k' (proj2 (elem_of_cons _ _ _) (or_intror Hk')) Hin).
    + apply list_elem_of_singleton in Hin as ->. contradiction.
Qed.

Lemma od_get_keys_None k d : k ∉ keys d -> od_get k d = None.
Proof. apply od_get_None. Qed.

End DictMoreFacts.

(** ** More on the parser and the aggregator *)

Section AggregatorFacts.
Import Py NanoStat.
Implicit Types (ns : dict value) (st : state) (f : logfile).

Lemma namespaced_renamed stat_type ns :
  NoDup (keys ns) -> namespaced stat_type ns = renamed stat_type ns.
Proof.
  intros Hnd. unfold namespaced. rewrite namespaced_from.
  fold (renamed stat_type ns). rewrite update_fresh; [reflexivity| |].
  - unfold renamed. rewrite renamed_keys. now apply (NoDup_fmap_2 _).
  - intros k _ Hin. now apply elem_of_nil in Hin.
Qed.

(** Two keys of different variants are different, whatever the names. *)
Lemma _key_fmt_variant a b k k' :
  a ∈ _stat_types -> b ∈ _stat_types -> _key_fmt k a = _key_fmt k' b -> a = b.
Proof.
  unfold _stat_types. rewrite !elem_of_cons, !elem_of_nil.
  intros [->|[->|[->|[]]]] [->|[->|[->|[]]]] H; try reflexivity; exfalso.
  - exact (aligned_not_seq_summary _ _ H).
  - exact (aligned_not_unrecognized _ _ H).
  - exact (aligned_not_seq_summary _ _ (eq_sym H)).
  - exact (seq_summary_not_unrecognized _ _ H).
  - exact (aligned_not_unrecognized _ _ (eq_sym H)).
  - exact (seq_summary_not_unrecognized _ _ (eq_sym H)).
Qed.

Lemma stat_type_of_marker ns stat_type :
  stat_type_of ns = Some stat_type ->
  ∃ k, k ∈ keys ns ∧ stat_type ∈ _stat_types.
Proof.
  destruct (stat_type_of_cases ns) as [[Ha ->]|[(_ & Hc & ->)|(_ & _ & ->)]];
    intros [= <-].
  - exists "Total bases aligned". split; [now apply od_get_is_Some|repeat constructor].
  - exists "Active channels". split; [now apply od_get_is_Some|repeat constructor].
Qed.

(** X1. A report of a sample that is not yet in the store: the sample is
    added after the samples already there, its entry is the list of the
    fields of the report with their keys renamed for the variant, in the
    order of the report, a lookup under a renamed key gives what the
    lookup in the report gives, and nothing is logged. *)
Theorem new_sample_round_trip st f ns stat_type :
  parse_lines [] (f_lines f) = Ok ns ->
  stat_type_of ns = Some stat_type ->
  od_get (s_name f) (nanostat_data st) = None ->
  ∃ st', parse_nanostat_log st f = Ok st'
    ∧ nanostat_data st'
      = (nanostat_data st ++ [(s_name f, renamed stat_type ns)])%list
    ∧ (∀ k, od_get (_key_fmt k stat_type) (entry st' (s_name f)) = od_get k ns)
    ∧ log st' = log st.
Proof.
  intros Hns Hty Hnew.
  pose proof (parse_lines_fields _ _ _ Hns fields_ok_nil) as [Hnd _].
  exists (merge st f (namespaced stat_type ns)).
  split; [now apply parse_nanostat_log_Some|].
  assert (Hdata : nanostat_data (merge st f (namespaced stat_type ns))
                  = (nanostat_data st ++ [(s_name f, renamed stat_type ns)])%list).
  { simpl. rewrite Hnew. simpl. rewrite od_set_fresh by now apply od_get_None.
    unfold update. simpl. fold (update (@nil (string * value)) (namespaced stat_type ns)).
    rewrite update_fresh.
    - now rewrite namespaced_renamed.
    - apply NoDup_namespaced.
    - intros k _ Hin. now apply elem_of_nil in Hin. }
  split; [exact Hdata|]. split.
  - intros k. unfold entry. rewrite merge_store_eq. simpl.
    rewrite od_get_update by apply NoDup_namespaced.
    rewrite namespaced_lookup by assumption.
    unfold entry. rewrite Hnew. simpl. now destruct (od_get k ns).
  - simpl. now rewrite Hnew.
Qed.

Lemma new_sample_round_trip_witness :
  parse_lines [] (f_lines seq_report_again) = Ok again_fields
  ∧ stat_type_of again_fields = Some "seq summary"
  ∧ od_get (s_name seq_report_again) (nanostat_data empty_state) = None
  ∧ ∃ st', parse_nanostat_log empty_state seq_report_again = Ok st'
      ∧ nanostat_data st'
        = (nanostat_data empty_state
           ++ [(s_name seq_report_again, renamed "seq summary" again_fields)])%list
      ∧ (∀ k, od_get (_key_fmt k "seq summary") (entry st' (s_name seq_report_again))
              = od_get k again_fields)
      ∧ log st' = log empty_state.
Proof.
  assert (H1 : parse_lines [] (f_lines seq_report_again) = Ok again_fields)
    by (vm_compute; reflexivity).
  assert (H2 : stat_type_of again_fields = Some "seq summary")
    by (vm_compute; reflexivity).
  split; [exact H1|]. split; [exact H2|]. split; [reflexivity|].
  exact (new_sample_round_trip empty_state seq_report_again again_fields
           "seq summary" H1 H2 eq_refl).
Defined.


(** X2. A report merged into a sample whose entry only has keys of the
    other variants: nothing is logged, every key of the entry keeps its
    value and every field of the report is stored under its renamed key.
    The suffix keeps the two modes of one sample apart. *)
Theorem other_variant_never_conflicts st f ns stat_type old :
  parse_lines [] (f_lines f) = Ok ns ->
  stat_type_of ns = Some stat_type ->
  od_get (s_name f) (nanostat_data st) = Some old ->
  (∀ key, key ∈ keys old ->
     ∃ k other, key = _key_fmt k other ∧ other ∈ _stat_types ∧ other ≠ stat_type) ->
  ∃ st', parse_nanostat_log st f = Ok st'
    ∧ log st' = log st
    ∧ (∀ key v, od_get key old = Some v ->
         od_get key (entry st' (s_name f)) = Some v)
    ∧ (∀ k v, od_get k ns = Some v ->
         od_get (_key_fmt k stat_type) (entry st' (s_name f)) = Some v).
Proof.
  intros Hns Hty Hold Hother.
  pose proof (parse_lines_fields _ _ _ Hns fields_ok_nil) as [Hnd _].
  destruct (stat_type_of_marker _ _ Hty) as (_ & _ & Hst).
  assert (Hdisj : ∀ key, key ∈ keys old -> key ∉ keys (namespaced stat_type ns)).
  { intros key Hk Hin. apply namespaced_keys in Hin as (k & -> & _).
    destruct (Hother _ Hk) as (k' & other & He & Ho & Hne).
    apply Hne. symmetry. exact (_key_fmt_variant _ _ _ _ Hst Ho He). }
  exists (merge st f (namespaced stat_type ns)).
  split; [now apply parse_nanostat_log_Some|]. split; [|split].
  - simpl. rewrite Hold. now rewrite (proj2 (isdisjoint_true _ _) Hdisj).
  - intros key v Hkey. unfold entry at 1. rewrite merge_store_eq. simpl.
    rewrite od_get_update by apply NoDup_namespaced.
    unfold entry. rewrite Hold. simpl.
    rewrite od_get_keys_None; [assumption|].
    apply Hdisj. apply od_get_is_Some. eauto.
  - intros k v Hk. now apply merged_fields.
Qed.

Lemma other_variant_never_conflicts_witness :
  parse_lines [] (f_lines quality_aligned_report)
  = Ok [("Total bases aligned", VFloat (float_of_Z 5000));
        ("Mean read quality", VFloat (S754_finite false 5910974510923776 (-49)));
        ("Median read quality", VFloat (float_of_Z 11))]
  ∧ od_get (s_name quality_aligned_report) (nanostat_data seq_only_state)
    = Some (entry seq_only_state "S1")
  ∧ ∃ st', parse_nanostat_log seq_only_state quality_aligned_report = Ok st'
      ∧ log st' = log seq_only_state
      ∧ (∀ key v, od_get key (entry seq_only_state "S1") = Some v ->
           od_get key (entry st' "S1") = Some v)
      ∧ (∀ k v,
           od_get k [("Total bases aligned", VFloat (float_of_Z 5000));
                     ("Mean read quality",
                      VFloat (S754_finite false 5910974510923776 (-49)));
                     ("Median read quality", VFloat (float_of_Z 11))] = Some v ->
           od_get (_key_fmt k "aligned") (entry st' "S1") = Some v).
Proof.
  assert (H1 : parse_lines [] (f_lines quality_aligned_report)
    = Ok [("Total bases aligned", VFloat (float_of_Z 5000));
          ("Mean read quality", VFloat (S754_finite false 5910974510923776 (-49)));
          ("Median read quality", VFloat (float_of_Z 11))])
    by (vm_compute; reflexivity).
  assert (H2 : od_get (s_name quality_aligned_report) (nanostat_data seq_only_state)
               = Some (entry seq_only_state "S1")) by (vm_compute; reflexivity).
  split; [exact H1|]. split; [exact H2|].
  refine (other_variant_never_conflicts seq_only_state quality_aligned_report _
            "aligned" _ H1 eq_refl H2 _).
  intros key Hkey.
  replace (keys (entry seq_only_state "S1"))
    with ["Active channels (seq summary)"; "Mean read quality (seq summary)";
          "Median read quality (seq summary)"] in Hkey by (vm_compute; reflexivity).
  apply elem_of_cons in Hkey as [->|Hkey];
    [exists "Active channels", "seq summary"; repeat split;
       [repeat constructor|discriminate]|].
  apply elem_of_cons in Hkey as [->|Hkey];
    [exists "Mean read quality", "seq summary"; repeat split;
       [repeat constructor|discriminate]|].
  apply list_elem_of_singleton in Hkey as ->.
  exists "Median read quality", "seq summary"; repeat split;
    [repeat constructor|discriminate].
Defined.

Lemma parse_line_typed ns line ns' :
  parse_line ns line = Ok ns' ->
  ns' = ns ∨ ∃ key v, well_typed key v ∧ ns' = od_set key v ns.
Proof.
  unfold parse_line, well_typed.
  destruct (split ":" (strip (escape line))) as [|key rest]; [intros [= <-]; now left|].
  case_bool_decide as Hnum.
  - intros H. apply bind_Ok in H as (p1 & _ & H). apply bind_Ok in H as (x & _ & H).
    injection H as <-. right. exists key, (VFloat x). split; [left; eauto|reflexivity].
  - case_bool_decide as Hq; [|intros [= <-]; now left].
    intros H. apply bind_Ok in H as (p1 & _ & H). apply bind_Ok in H as (tok & _ & H).
    apply bind_Ok in H as (x & _ & H). injection H as <-. right.
    exists key, (VInt x). split; [right; eauto|reflexivity].
Qed.

Lemma parse_lines_typed lines ns ns' :
  parse_lines ns lines = Ok ns' ->
  (∀ k v, od_get k ns = Some v -> well_typed k v) ->
  ∀ k v, od_get k ns' = Some v -> well_typed k v.
Proof.
  revert ns; induction lines as [|line lines IH]; intros ns; simpl.
  - now intros [= <-].
  - intros H Hty. apply bind_Ok in H as (ns1 & H1 & H2).
    apply (IH _ H2). intros k v Hk.
    apply parse_line_typed in H1 as [->|(key & x & Hx & ->)]; [now apply Hty|].
    destruct (decide (key = k)) as [->|Hne].
    + rewrite od_get_set_eq in Hk. now injection Hk as <-.
    + rewrite od_get_set_ne in Hk by assumption. now apply Hty.
Qed.

Lemma namespaced_lookup_Some stat_type ns key v :
  NoDup (keys ns) ->
  od_get key (namespaced stat_type ns) = Some v ->
  ∃ k, key = _key_fmt k stat_type ∧ od_get k ns = Some v.
Proof.
  intros Hnd Hkey.
  assert (Hin : key ∈ keys (namespaced stat_type ns))
    by (apply od_get_is_Some; eauto).
  apply namespaced_keys in Hin as (k & -> & _).
  exists k. split; [reflexivity|]. now rewrite <- (namespaced_lookup stat_type).
Qed.

Lemma parse_nanostat_log_typed st f st' :
  parse_nanostat_log st f = Ok st' ->
  store_well_typed (nanostat_data st) ->
  store_well_typed (nanostat_data st').
Proof.
  unfold parse_nanostat_log. intros H Hst.
  apply bind_Ok in H as (ns & Hns & H).
  pose proof (parse_lines_fields _ _ _ Hns fields_ok_nil) as [Hnd _].
  assert (Hty : ∀ k v, od_get k ns = Some v -> well_typed k v)
    by (apply (parse_lines_typed _ _ _ Hns); discriminate).
  destruct (stat_type_of ns) as [stat_type|] eqn:Hstat; injection H as <-;
    [|exact Hst].
  intros sample d key v Hin Hkey. simpl in Hin.
  apply elem_of_od_set in Hin as [[-> ->]|Hin]; [|exact (Hst _ _ _ _ Hin Hkey)].
  rewrite od_get_update in Hkey by apply NoDup_namespaced.
  destruct (od_get key (namespaced stat_type ns)) as [v'|] eqn:Hout.
  - injection Hkey as <-.
    apply namespaced_lookup_Some in Hout as (k & -> & Hk); [|assumption].
    exists k, stat_type. split; [reflexivity|].
    split; [exact (stat_type_of_variant _ _ Hstat)|now apply Hty].
  - destruct (od_get (s_name f) (nanostat_data st)) as [old|] eqn:Hold;
      simpl in Hkey; [|discriminate].
    apply od_get_elem_of in Hold. exact (Hst _ _ _ _ Hold Hkey).
Qed.

Lemma load_typed files st st' :
  load st files = Ok st' ->
  store_well_typed (nanostat_data st) ->
  store_well_typed (nanostat_data st').
Proof.
  revert st; induction files as [|f files IH]; intros st; simpl.
  - now intros [= <-].
  - intros H Hst. apply bind_Ok in H as (st1 & H1 & H2).
    apply (IH _ H2). exact (parse_nanostat_log_typed _ _ _ H1 Hst).
Qed.

Lemma _get_total_reads_stat_type d total stat_type :
  _get_total_reads d = (total, Some stat_type) -> stat_type ∈ _stat_types.
Proof.
  unfold _get_total_reads, _stat_types, _get_total_reads_in.
  repeat match goal with
  | |- context [match od_get ?k d with _ => _ end] => destruct (od_get k d)
  end; intros [= <- <-] || discriminate; repeat constructor.
Qed.

Lemma two_variants_stat_types variant :
  variant ∈ ["aligned"; "seq summary"] -> variant ∈ _stat_types.
Proof.
  intros H. apply elem_of_cons in H as [->|H]; [repeat constructor|].
  apply list_elem_of_singleton in H as ->. repeat constructor.
Qed.

Lemma _key_fmt_inj2 k a k' b :
  a ∈ _stat_types -> b ∈ _stat_types ->
  _key_fmt k a = _key_fmt k' b -> k = k' ∧ a = b.
Proof.
  intros Ha Hb H. pose proof (_key_fmt_variant _ _ _ _ Ha Hb H) as ->.
  split; [|reflexivity]. exact (inj (fun k => _key_fmt k b) _ _ H).
Qed.

Lemma num_not_read_q name : name ∈ _KEYS_NUM -> name ∈ _KEYS_READ_Q -> False.
Proof.
  unfold _KEYS_NUM, _KEYS_READ_Q. intros Hn Hq.
  repeat (apply elem_of_cons in Hq as [->|Hq];
    [repeat (apply elem_of_cons in Hn as [Hn|Hn]; [discriminate Hn|]);
     now apply elem_of_nil in Hn|]).
  now apply elem_of_nil in Hq.
Qed.

Lemma load_empty_typed files st :
  load empty_state files = Ok st -> store_well_typed (nanostat_data st).
Proof.
  intros Hload. apply (load_typed _ _ _ Hload).
  intros s d key v Hin. now apply elem_of_nil in Hin.
Qed.

(** In a well-typed store the value under a numeric summary name is a
    float and the value under a threshold name is an integer. *)
Lemma typed_number data sample d k stat_type v :
  store_well_typed data -> (sample, d) ∈ data ->
  stat_type ∈ _stat_types -> k ∈ _KEYS_NUM ->
  od_get (_key_fmt k stat_type) d = Some v -> ∃ x, v = VFloat x.
Proof.
  intros Hst Hin Hty Hk Hv.
  destruct (Hst _ _ _ _ Hin Hv) as (name & variant & He & Hvar & [[_ Hx]|[Hq _]]);
    [exact Hx|].
  exfalso.
  apply _key_fmt_inj2 in He as [<- _];
    [|assumption|now apply two_variants_stat_types].
  exact (num_not_read_q k Hk Hq).
Qed.

Lemma typed_count data sample d k stat_type v :
  store_well_typed data -> (sample, d) ∈ data ->
  stat_type ∈ _stat_types -> k ∈ _KEYS_READ_Q ->
  od_get (_key_fmt k stat_type) d = Some v -> ∃ z, v = VInt z.
Proof.
  intros Hst Hin Hty Hk Hv.
  destruct (Hst _ _ _ _ Hin Hv) as (name & variant & He & Hvar & [[Hn _]|[_ Hz]]);
    [|exact Hz].
  exfalso.
  apply _key_fmt_inj2 in He as [<- _];
    [|assumption|now apply two_variants_stat_types].
  exact (num_not_read_q k Hn Hk).
Qed.

(** X3. In every store the loading loop produces, a value stored under a
    numeric summary name is a float and a value stored under a threshold
    name is an integer, for both variants; in particular the total of the
    histogram is a float and its five counts are integers. *)
Theorem stored_values_are_typed files st :
  load empty_state files = Ok st ->
  store_well_typed (nanostat_data st)
  ∧ ∀ sample d total stat_type,
      (sample, d) ∈ nanostat_data st ->
      _get_total_reads d = (Some total, Some stat_type) ->
      (∃ x, total = VFloat x)
      ∧ ∀ k v, k ∈ _KEYS_READ_Q ->
          od_get (_key_fmt k stat_type) d = Some v -> ∃ z, v = VInt z.
Proof.
  intros Hload. pose proof (load_empty_typed _ _ Hload) as Hst.
  split; [exact Hst|].
  intros sample d total stat_type Hin Htot.
  pose proof (_get_total_reads_stat_type _ _ _ Htot) as Hty.
  apply _get_total_reads_variant in Htot as [Htot _]. split.
  - apply (typed_number _ _ _ "Number of reads" _ _ Hst Hin Hty); [|exact Htot].
    repeat constructor.
  - intros k v Hk Hv. exact (typed_count _ _ _ _ _ _ Hst Hin Hty Hk Hv).
Qed.

Lemma stored_values_are_typed_witness :
  load empty_state [seq_report] = Ok seq_state
  ∧ store_well_typed (nanostat_data seq_state)
  ∧ ∀ sample d total stat_type,
      (sample, d) ∈ nanostat_data seq_state ->
      _get_total_reads d = (Some total, Some stat_type) ->
      (∃ x, total = VFloat x)
      ∧ ∀ k v, k ∈ _KEYS_READ_Q ->
          od_get (_key_fmt k stat_type) d = Some v -> ∃ z, v = VInt z.
Proof.
  assert (H : load empty_state [seq_report] = Ok seq_state)
    by (vm_compute; reflexivity).
  split; [exact H|]. exact (stored_values_are_typed [seq_report] seq_state H).
Defined.

(** X4. Reading a recognised report a second time leaves the store as it
    is, sample by sample and key by key, and logs the duplicate message
    once more. *)
Theorem same_report_twice st f st1 :
  recognised f = true ->
  parse_nanostat_log st f = Ok st1 ->
  ∃ st2, parse_nanostat_log st1 f = Ok st2
    ∧ nanostat_data st2 = nanostat_data st1
    ∧ log st2 = (log st1 ++ [duplicate_msg f])%list.
Proof.
  unfold recognised. intros Hrec Hfirst.
  destruct (parse_lines [] (f_lines f)) as [ns|] eqn:Hns; [|discriminate].
  destruct (stat_type_of ns) as [stat_type|] eqn:Hty; [|discriminate].
  rewrite (parse_nanostat_log_Some _ _ _ _ Hns Hty) in Hfirst. injection Hfirst as <-.
  set (out_d := namespaced stat_type ns).
  set (st1 := merge st f out_d).
  assert (Hentry : od_get (s_name f) (nanostat_data st1)
                   = Some (update (entry st (s_name f)) out_d))
    by apply merge_store_eq.
  exists (merge st1 f out_d).
  split; [now apply parse_nanostat_log_Some|]. split.
  - cbn [merge nanostat_data]. rewrite Hentry. simpl.
    rewrite update_same.
    + now apply od_set_same.
    + intros k v Hin. rewrite od_get_update by apply NoDup_namespaced.
      unfold out_d in *.
      now rewrite (elem_of_od_get _ _ _ (NoDup_namespaced stat_type ns) Hin).
  - apply (merge_log_conflict _ _ _ _ Hentry).
    destruct (stat_type_of_marker _ _ Hty) as (k & Hk & _).
    exists (_key_fmt k stat_type). split.
    + apply keys_update. right. apply namespaced_keys. eauto.
    + apply namespaced_keys. eauto.
Qed.

Lemma same_report_twice_witness :
  recognised seq_report = true
  ∧ parse_nanostat_log empty_state seq_report = Ok seq_state
  ∧ ∃ st2, parse_nanostat_log seq_state seq_report = Ok st2
      ∧ nanostat_data st2 = nanostat_data seq_state
      ∧ log st2 = (log seq_state ++ [duplicate_msg seq_report])%list.
Proof.
  assert (H1 : recognised seq_report = true) by (vm_compute; reflexivity).
  assert (H2 : parse_nanostat_log empty_state seq_report = Ok seq_state)
    by (vm_compute; reflexivity).
  split; [exact H1|]. split; [exact H2|].
  exact (same_report_twice empty_state seq_report seq_state H1 H2).
Defined.

Lemma parse_nanostat_log_sources st f st' :
  parse_nanostat_log st f = Ok st' ->
  data_sources st'
  = (data_sources st ++ if recognised f then [source_of f] else [])%list
  ∧ keys (nanostat_data st')
    = (if recognised f && negb (od_mem (s_name f) (nanostat_data st))
       then keys (nanostat_data st) ++ [s_name f]
       else keys (nanostat_data st))%list.
Proof.
  unfold parse_nanostat_log, recognised. intros H.
  apply bind_Ok in H as (ns & Hns & H). rewrite Hns.
  destruct (stat_type_of ns) as [stat_type|]; injection H as <-; simpl.
  - split; [reflexivity|]. rewrite od_set_keys.
    now destruct (od_mem (s_name f) (nanostat_data st)).
  - now rewrite app_nil_r.
Qed.

(** X5. What the loading loop keeps track of: the registered sources are
    the recognised reports, in the order they were read and with
    repetitions; the samples of the store are the samples already there
    and the samples of the recognised reports, each once. *)
Theorem load_bookkeeping files st st' :
  load st files = Ok st' ->
  data_sources st'
  = (data_sources st ++ (source_of <$> List.filter recognised files))%list
  ∧ (∀ sample,
       sample ∈ keys (nanostat_data st') <->
       sample ∈ keys (nanostat_data st)
       ∨ ∃ f, f ∈ files ∧ recognised f = true ∧ s_name f = sample)
  ∧ (NoDup (keys (nanostat_data st)) -> NoDup (keys (nanostat_data st'))).
Proof.
  revert st; induction files as [|f files IH]; intros st; simpl.
  - intros [= <-]. split; [now rewrite app_nil_r|]. split; [|tauto].
    intros sample. split; [tauto|]. intros [H|(f & Hf & _)]; [assumption|].
    now apply elem_of_nil in Hf.
  - intros H. apply bind_Ok in H as (st1 & H1 & H2).
    destruct (IH _ H2) as (Hsrc & Hmem & Hnd).
    destruct (parse_nanostat_log_sources _ _ _ H1) as [Hs1 Hk1].
    split; [|split].
    + rewrite Hsrc, Hs1. destruct (recognised f); simpl.
      * now rewrite <- app_assoc.
      * now rewrite app_nil_r.
    + intros sample. rewrite Hmem, Hk1. split.
      * intros [Hin|(g & Hg & Hrec & Hname)].
        -- destruct (recognised f) eqn:Hrec; simpl in Hin;
             [destruct (od_mem (s_name f) (nanostat_data st)); simpl in Hin|];
             try (now left).
           apply elem_of_app in Hin as [Hin|Hin]; [now left|].
           apply list_elem_of_singleton in Hin as ->. right. exists f.
           split; [apply elem_of_cons; now left|now split].
        -- right. exists g. split; [apply elem_of_cons; now right|now split].
      * intros [Hin|(g & Hg & Hrec & Hname)].
        -- left. destruct (recognised f && _); [apply elem_of_app|]; tauto.
        -- apply elem_of_cons in Hg as [->|Hg]; [|right; eauto].
           left. rewrite Hrec. simpl.
           destruct (od_mem (s_name f) (nanostat_data st)) eqn:Hm; simpl.
           ++ apply od_mem_true in Hm. now subst.
           ++ apply elem_of_app. right. apply list_elem_of_singleton. now subst.
    + intros Hst. apply Hnd. rewrite Hk1.
      destruct (recognised f); simpl; [|assumption].
      destruct (od_mem (s_name f) (nanostat_data st)) eqn:Hm; simpl; [assumption|].
      apply NoDup_app. split; [assumption|]. split; [|apply NoDup_singleton].
      intros x Hx Hin. apply list_elem_of_singleton in Hin as ->.
      apply od_mem_true in Hx. congruence.
Qed.

Lemma load_bookkeeping_witness :
  load empty_state [other_report; seq_report; seq_report_again]
  = Ok {| nanostat_data :=
            [("S1", update seq_entry (renamed "seq summary" again_fields))];
          log := [unrecognised_msg other_report; duplicate_msg seq_report_again];
          data_sources := [source_of seq_report; source_of seq_report_again] |}
  ∧ [source_of seq_report; source_of seq_report_again]
    = (data_sources empty_state
       ++ (source_of
           <$> List.filter recognised [other_report; seq_report; seq_report_again]))%list.
Proof.
  assert (H : load empty_state [other_report; seq_report; seq_report_again]
    = Ok {| nanostat_data :=
              [("S1", update seq_entry (renamed "seq summary" again_fields))];
            log := [unrecognised_msg other_report; duplicate_msg seq_report_again];
            data_sources := [source_of seq_report; source_of seq_report_again] |})
    by (vm_compute; reflexivity).
  split; [exact H|].
  exact (proj1 (load_bookkeeping _ _ _ H)).
Defined.



Lemma bind_Raise {A B} (r : result A) (k : A -> result B) e :
  r ≫= k = Raise e -> r = Raise e ∨ ∃ a, r = Ok a ∧ k a = Raise e.
Proof. destruct r as [a|e']; simpl; [right; eauto|intros [= <-]; now left]. Qed.

Lemma index_Raise {A} (l : list A) i e : index l i = Raise e -> e = IndexError.
Proof. unfold index. now destruct (nth_error l i); intros [= <-]. Qed.

Lemma of_option_Raise {A} e0 (o : option A) e : of_option e0 o = Raise e -> e = e0.
Proof. now destruct o; intros [= <-]. Qed.

Lemma parse_line_Raise ns line e :
  parse_line ns line = Raise e -> e = IndexError ∨ e = ValueError.
Proof.
  unfold parse_line.
  destruct (split ":" (strip (escape line))) as [|key rest]; [discriminate|].
  case_bool_decide as Hnum.
  - intros H. apply bind_Raise in H as [H|(p1 & _ & H)];
      [left; exact (index_Raise _ _ _ H)|].
    apply bind_Raise in H as [H|(x & _ & H)]; [|discriminate].
    right; exact (of_option_Raise _ _ _ H).
  - case_bool_decide as Hq; [|discriminate].
    intros H. apply bind_Raise in H as [H|(p1 & _ & H)];
      [left; exact (index_Raise _ _ _ H)|].
    apply bind_Raise in H as [H|(tok & _ & H)];
      [left; exact (index_Raise _ _ _ H)|].
    apply bind_Raise in H as [H|(x & _ & H)]; [|discriminate].
    right; exact (of_option_Raise _ _ _ H).
Qed.

Lemma parse_lines_Raise lines ns e :
  parse_lines ns lines = Raise e -> e = IndexError ∨ e = ValueError.
Proof.
  revert ns; induction lines as [|line lines IH]; intros ns; simpl; [discriminate|].
  destruct (parse_line ns line) as [ns1|e1] eqn:H1; simpl.
  - apply IH.
  - intros [= <-]. exact (parse_line_Raise _ _ _ H1).
Qed.

Lemma parse_nanostat_log_Raise st f e :
  parse_nanostat_log st f = Raise e -> e = IndexError ∨ e = ValueError.
Proof.
  unfold parse_nanostat_log.
  destruct (parse_lines [] (f_lines f)) as [ns|e1] eqn:Hns; simpl.
  - destruct (stat_type_of ns); discriminate.
  - intros [= <-]. exact (parse_lines_Raise _ _ _ Hns).
Qed.

(** X7. Reading the reports fails in two ways only: with [IndexError],
    when a line of a vocabulary name has no colon, or with [ValueError],
    when a number is malformed; and then some report is the culprit, the
    reports before it were read and the ones after it were not. *)
Theorem loading_errors files st e :
  load st files = Raise e ->
  (e = IndexError ∨ e = ValueError)
  ∧ ∃ before f after st1,
      files = (before ++ f :: after)%list
      ∧ load st before = Ok st1
      ∧ parse_nanostat_log st1 f = Raise e.
Proof.
  revert st; induction files as [|f files IH]; intros st; simpl; [discriminate|].
  destruct (parse_nanostat_log st f) as [st1|e1] eqn:H1; simpl.
  - intros H. destruct (IH _ H) as (He & before & g & after & st2 & -> & Hb & Hg).
    split; [exact He|]. exists (f :: before), g, after, st2.
    split; [reflexivity|]. split; [simpl; now rewrite H1|exact Hg].
  - intros [= <-]. split; [exact (parse_nanostat_log_Raise _ _ _ H1)|].
    exists [], f, files, st. now repeat split.
Qed.

Lemma loading_errors_witness :
  load empty_state [seq_report; bad_report; other_report] = Raise ValueError
  ∧ (ValueError = IndexError ∨ ValueError = ValueError)
  ∧ ∃ before f after st1,
      [seq_report; bad_report; other_report] = (before ++ f :: after)%list
      ∧ load empty_state before = Ok st1
      ∧ parse_nanostat_log st1 f = Raise ValueError.
Proof.
  assert (H : load empty_state [seq_report; bad_report; other_report]
              = Raise ValueError) by (vm_compute; reflexivity).
  split; [exact H|]. exact (loading_errors _ _ _ H).
Defined.

End AggregatorFacts.

(** ** The histogram *)

Section PlotFacts.
Import Py NanoStat.

Lemma getitem_Ok d key v : getitem d key = Ok v -> od_get key d = Some v.
Proof. unfold getitem. now destruct (od_get key d); intros [= <-]. Qed.

Lemma of_option_Ok {A : Type} e (o : option A) a : of_option e o = Ok a -> o = Some a.
Proof. now destruct o; intros [= <-]. Qed.

Lemma sample_row_stat_type sample d row stat_type :
  sample_row sample d = Ok (row, stat_type) -> stat_type = (_get_total_reads d).2.
Proof.
  unfold sample_row. destruct (_get_total_reads d) as [total st].
  intros H. apply bind_Ok in H as (r & _ & [= _ <-]). reflexivity.
Qed.

(** A row that is produced has the six buckets, in the order of
    [_range_names]; the first five passed the assertion. *)
Lemma sample_row_Ok sample d row stat_type :
  sample_row sample d = Ok (row, stat_type) ->
  ∃ total q5 q7 q10 q12 q15 b1 b2 b3 b4 b5,
    _get_total_reads d = (Some total, stat_type)
    ∧ od_get (_key_fmt "&gt;Q5" (str_of_stat_type stat_type)) d = Some q5
    ∧ od_get (_key_fmt "&gt;Q7" (str_of_stat_type stat_type)) d = Some q7
    ∧ od_get (_key_fmt "&gt;Q10" (str_of_stat_type stat_type)) d = Some q10
    ∧ od_get (_key_fmt "&gt;Q12" (str_of_stat_type stat_type)) d = Some q12
    ∧ od_get (_key_fmt "&gt;Q15" (str_of_stat_type stat_type)) d = Some q15
    ∧ (sub total q5 = Ok b1 ∧ ge0 b1 = true)
    ∧ (sub q5 q7 = Ok b2 ∧ ge0 b2 = true)
    ∧ (sub q7 q10 = Ok b3 ∧ ge0 b3 = true)
    ∧ (sub q10 q12 = Ok b4 ∧ ge0 b4 = true)
    ∧ (sub q12 q15 = Ok b5 ∧ ge0 b5 = true)
    ∧ row = [("&lt;Q5", b1); ("Q5-7", b2); ("Q7-10", b3); ("Q10-12", b4);
             ("Q12-15", b5); ("&gt;Q15", q15)].
Proof.
  unfold sample_row. destruct (_get_total_reads d) as [total st].
  intros H. apply bind_Ok in H as (r & H & [= <- <-]).
  unfold _range_names in H. cbn [fill_row] in H.
  rewrite !bool_decide_eq_true_2 in H by discriminate.
  rewrite bool_decide_eq_false_2 in H by (intros Hne; now apply Hne).
  apply bind_Ok in H as (q5 & H5 & H). apply getitem_Ok in H5.
  apply bind_Ok in H as (t & Ht & H). apply of_option_Ok in Ht as ->.
  apply bind_Ok in H as (b1 & Hb1 & H). destruct (ge0 b1) eqn:G1; [|discriminate].
  apply bind_Ok in H as (q7 & H7 & H). apply getitem_Ok in H7.
  cbn [of_option mbind result_bind] in H.
  apply bind_Ok in H as (b2 & Hb2 & H). destruct (ge0 b2) eqn:G2; [|discriminate].
  apply bind_Ok in H as (q10 & H10 & H). apply getitem_Ok in H10.
  cbn [of_option mbind result_bind] in H.
  apply bind_Ok in H as (b3 & Hb3 & H). destruct (ge0 b3) eqn:G3; [|discriminate].
  apply bind_Ok in H as (q12 & H12 & H). apply getitem_Ok in H12.
  cbn [of_option mbind result_bind] in H.
  apply bind_Ok in H as (b4 & Hb4 & H). destruct (ge0 b4) eqn:G4; [|discriminate].
  apply bind_Ok in H as (q15 & H15 & H). apply getitem_Ok in H15.
  cbn [of_option mbind result_bind] in H.
  apply bind_Ok in H as (b5 & Hb5 & H). destruct (ge0 b5) eqn:G5; [|discriminate].
  apply bind_Ok in H as (q15' & H15' & H). apply getitem_Ok in H15'.
  rewrite H15 in H15'. injection H15' as <-. injection H as <-.
  exists t, q5, q7, q10, q12, q15, b1, b2, b3, b4, b5.
  repeat (split; [assumption || (split; assumption) || reflexivity|]).
  reflexivity.
Qed.

Lemma fill_bar_data_Raise before sample d after e bars stat_type :
  (∀ s x, (s, x) ∈ before -> ∃ r, sample_row s x = Ok r) ->
  sample_row sample d = Raise e ->
  fill_bar_data (before ++ (sample, d) :: after) bars stat_type = Raise e.
Proof.
  revert bars stat_type.
  induction before as [|[s x] before IH]; intros bars stat_type Hb He; simpl.
  - now rewrite He.
  - destruct (Hb s x) as [[row st] Hr]; [apply elem_of_cons; now left|].
    rewrite Hr. simpl. apply IH; [|assumption].
    intros s' x' Hin. apply (Hb s' x'), elem_of_cons. now right.
Qed.

Lemma fill_bar_data_rows data bars stat_type r :
  fill_bar_data data bars stat_type = Ok r ->
  ∀ s d, (s, d) ∈ data -> ∃ r, sample_row s d = Ok r.
Proof.
  revert bars stat_type; induction data as [|[s0 d0] data IH];
    intros bars stat_type H s d Hin.
  - now apply elem_of_nil in Hin.
  - simpl in H. apply bind_Ok in H as ([row st] & Hrow & H).
    apply elem_of_cons in Hin as [[= -> ->]|Hin]; [eauto|].
    exact (IH _ _ H _ _ Hin).
Qed.

Lemma fill_bar_data_keys data :
  NoDup (keys data) ->
  ∀ bars stat_type bars' stat_type',
    (∀ s, s ∈ keys data -> s ∉ keys bars) ->
    fill_bar_data data bars stat_type = Ok (bars', stat_type') ->
    keys bars' = (keys bars ++ keys data)%list.
Proof.
  induction data as [|[s0 d0] data IH]; intros Hnd bars stat_type bars' stat_type' Hfresh H.
  - injection H as <- _. change (keys (@nil (string * dict value))) with (@nil string).
    now rewrite app_nil_r.
  - change (keys ((s0, d0) :: data)) with (s0 :: keys data) in *.
    apply NoDup_cons in Hnd as [Hs0 Hnd].
    simpl in H. apply bind_Ok in H as ([row st] & Hrow & H).
    assert (Hnew : s0 ∉ keys bars) by (apply Hfresh, elem_of_cons; now left).
    rewrite (od_set_fresh _ _ _ Hnew) in H.
    assert (Hfresh' : ∀ s, s ∈ keys data -> s ∉ keys (bars ++ [(s0, row)])%list).
    { intros s Hs Hin. unfold keys in Hin. rewrite fmap_app in Hin. simpl in Hin.
      apply elem_of_app in Hin as [Hin|Hin].
      - apply (Hfresh s); [apply elem_of_cons; now right|exact Hin].
      - apply list_elem_of_singleton in Hin as ->. exact (Hs0 Hs). }
    rewrite (IH Hnd _ _ _ _ Hfresh' H).
    unfold keys. rewrite fmap_app. simpl. now rewrite <- app_assoc.
Qed.

Lemma fill_bar_data_last rest s d bars stat_type bars' stat_type' :
  fill_bar_data (rest ++ [(s, d)]) bars stat_type = Ok (bars', stat_type') ->
  stat_type' = (_get_total_reads d).2.
Proof.
  rewrite fill_bar_data_app. intros H.
  apply bind_Ok in H as ([bars1 st1] & _ & H). simpl in H.
  apply bind_Ok in H as ([row st] & Hrow & [= _ <-]).
  exact (sample_row_stat_type _ _ _ _ Hrow).
Qed.

(** X8. The histogram is all or nothing: when the row of a sample
    cannot be made, and the samples before it have theirs, the exception
    of that sample leaves [nanostat_alignment_plot] and the construction
    of the module, and no row at all is returned. *)
Theorem first_failing_sample cfg ignore files st before sample d after e :
  load empty_state files = Ok st ->
  ignore_samples ignore (nanostat_data st) = (before ++ (sample, d) :: after)%list ->
  (∀ s x, (s, x) ∈ before -> ∃ r, sample_row s x = Ok r) ->
  sample_row sample d = Raise e ->
  nanostat_alignment_plot (before ++ (sample, d) :: after) = Raise e
  ∧ __init__ cfg ignore files = Raise e.
Proof.
  intros Hload Hdata Hbefore He.
  assert (Hplot : nanostat_alignment_plot (before ++ (sample, d) :: after) = Raise e).
  { unfold nanostat_alignment_plot.
    now rewrite (fill_bar_data_Raise _ _ _ _ _ _ _ Hbefore He). }
  split; [exact Hplot|].
  unfold __init__. rewrite Hload. cbn [mbind result_bind]. rewrite Hdata.
  rewrite length_app. cbn [length].
  replace (length before + S (length after))%nat
    with (S (length before + length after)) by lia.
  cbn [Nat.eqb]. now rewrite Hplot.
Qed.

Lemma first_failing_sample_witness :
  load empty_state [seq_report; no_reads_report] = Ok no_reads_state
  ∧ nanostat_alignment_plot
      ([("S1", entry no_reads_state "S1")]
       ++ ("A", entry no_reads_state "A") :: [])%list
    = Raise (KeyError "&gt;Q5 (None)")
  ∧ __init__ example_config [] [seq_report; no_reads_report]
    = Raise (KeyError "&gt;Q5 (None)").
Proof.
  assert (H : load empty_state [seq_report; no_reads_report] = Ok no_reads_state)
    by (vm_compute; reflexivity).
  split; [exact H|].
  apply (first_failing_sample example_config [] _ _
           [("S1", entry no_reads_state "S1")] "A" (entry no_reads_state "A") []
           (KeyError "&gt;Q5 (None)") H).
  - vm_compute; reflexivity.
  - intros s x Hin. apply list_elem_of_singleton in Hin as [= -> ->].
    eexists. vm_compute. reflexivity.
  - vm_compute; reflexivity.
Defined.

Lemma typed_no_other_variant data sample d name variant :
  store_well_typed data -> (sample, d) ∈ data ->
  variant = "unrecognized" ∨ variant = "None" ->
  od_get (_key_fmt name variant) d = None.
Proof.
  intros Hst Hin Hvar.
  destruct (od_get (_key_fmt name variant) d) as [v|] eqn:E; [exfalso|reflexivity].
  destruct (Hst _ _ _ _ Hin E) as (k & w & He & Hw & _).
  unfold _key_fmt, format2 in He. apply append_rev_eq in He.
  apply elem_of_cons in Hw as [->|Hw];
    [|apply list_elem_of_singleton in Hw as ->];
    destruct Hvar as [->| ->]; simpl in He; discriminate He.
Qed.

(** The variant [_get_total_reads] finds in a well-typed store. *)
Lemma typed_total_reads data sample d :
  store_well_typed data -> (sample, d) ∈ data ->
  (∃ x stat_type,
      _get_total_reads d = (Some (VFloat x), Some stat_type)
      ∧ stat_type ∈ ["aligned"; "seq summary"]
      ∧ od_get (_key_fmt "Number of reads" stat_type) d = Some (VFloat x))
  ∨ (_get_total_reads d = (None, None)
     ∧ od_get (_key_fmt "Number of reads" "aligned") d = None
     ∧ od_get (_key_fmt "Number of reads" "seq summary") d = None).
Proof.
  intros Hst Hin.
  assert (Hnum : "Number of reads" ∈ _KEYS_NUM) by (repeat constructor).
  unfold _get_total_reads, _stat_types, _get_total_reads_in.
  destruct (od_get (_key_fmt "Number of reads" "aligned") d) as [v|] eqn:Ea.
  { destruct (typed_number _ _ _ _ "aligned" _ Hst Hin
                ltac:(repeat constructor) Hnum Ea) as [x ->].
    left. exists x, "aligned". split; [reflexivity|].
    split; [repeat constructor|exact Ea]. }
  destruct (od_get (_key_fmt "Number of reads" "seq summary") d) as [v|] eqn:Es.
  { destruct (typed_number _ _ _ _ "seq summary" _ Hst Hin
                ltac:(repeat constructor) Hnum Es) as [x ->].
    left. exists x, "seq summary". split; [reflexivity|].
    split; [repeat constructor|exact Es]. }
  rewrite (typed_no_other_variant _ _ _ "Number of reads" "unrecognized" Hst Hin)
    by now left.
  right. now repeat split.
Qed.

Lemma sample_row_no_total data sample d :
  store_well_typed data -> (sample, d) ∈ data ->
  _get_total_reads d = (None, None) ->
  sample_row sample d = Raise (KeyError "&gt;Q5 (None)").
Proof.
  intros Hst Hin Htot. unfold sample_row. rewrite Htot. unfold _range_names.
  cbn [fill_row str_of_stat_type default from_option].
  rewrite bool_decide_eq_true_2 by discriminate.
  rewrite (getitem_None d (_key_fmt "&gt;Q5" "None")); [reflexivity|].
  apply (typed_no_other_variant _ _ _ "&gt;Q5" "None" Hst Hin). now right.
Qed.

(** X9. In a store made by the loading loop, a sample with no number of
    reads, neither for the aligned nor for the seq-summary variant, never
    gets a row: [_get_total_reads] answers [(None, None)] and the lookup of
    the first count is made with the key of the variant [None], which
    raises [KeyError]. *)
Theorem sample_without_total files st sample d :
  load empty_state files = Ok st ->
  (sample, d) ∈ nanostat_data st ->
  od_get "Number of reads (aligned)" d = None ->
  od_get "Number of reads (seq summary)" d = None ->
  _get_total_reads d = (None, None)
  ∧ sample_row sample d = Raise (KeyError "&gt;Q5 (None)").
Proof.
  intros Hload Hin Ha Hs. pose proof (load_empty_typed _ _ Hload) as Hst.
  assert (Htot : _get_total_reads d = (None, None)).
  { destruct (typed_total_reads _ _ _ Hst Hin)
      as [(x & stat_type & _ & Hty & Hx)|[H _]]; [exfalso|exact H].
    apply elem_of_cons in Hty as [->|Hty];
      [|apply list_elem_of_singleton in Hty as ->].
    - change (_key_fmt "Number of reads" "aligned")
        with "Number of reads (aligned)" in Hx. congruence.
    - change (_key_fmt "Number of reads" "seq summary")
        with "Number of reads (seq summary)" in Hx. congruence. }
  split; [exact Htot|]. exact (sample_row_no_total _ _ _ Hst Hin Htot).
Qed.

Lemma sample_without_total_witness :
  load empty_state [no_reads_report] = Ok
    {| nanostat_data := [("A", entry no_reads_state "A")];
       log := [];
       data_sources := [source_of no_reads_report] |}
  ∧ _get_total_reads (entry no_reads_state "A") = (None, None)
  ∧ sample_row "A" (entry no_reads_state "A") = Raise (KeyError "&gt;Q5 (None)").
Proof.
  assert (H : load empty_state [no_reads_report] = Ok
    {| nanostat_data := [("A", entry no_reads_state "A")];
       log := [];
       data_sources := [source_of no_reads_report] |})
    by (vm_compute; reflexivity).
  split; [exact H|].
  apply (sample_without_total _ _ "A" (entry no_reads_state "A") H).
  - apply list_elem_of_singleton. reflexivity.
  - vm_compute; reflexivity.
  - vm_compute; reflexivity.
Defined.

(** X10. What a row of the histogram says about the report it was made
    from. In a store made by the loading loop, when the row of a sample
    is produced, the variant used is aligned or seq summary, the total is
    a float and the five counts are integers that do not increase from
    &gt;Q5 to &gt;Q15; the first bucket is the float difference of the
    total and the first count and is not negative, the next four buckets
    are the integer differences of consecutive counts, and the last bucket
    is the last count itself, on which nothing is checked. *)
Theorem rows_have_decreasing_counts files st sample d row variant :
  load empty_state files = Ok st ->
  (sample, d) ∈ nanostat_data st ->
  sample_row sample d = Ok (row, variant) ->
  ∃ stat_type total q5 q7 q10 q12 q15 b,
    variant = Some stat_type
    ∧ stat_type ∈ ["aligned"; "seq summary"]
    ∧ od_get (_key_fmt "Number of reads" stat_type) d = Some (VFloat total)
    ∧ od_get (_key_fmt "&gt;Q5" stat_type) d = Some (VInt q5)
    ∧ od_get (_key_fmt "&gt;Q7" stat_type) d = Some (VInt q7)
    ∧ od_get (_key_fmt "&gt;Q10" stat_type) d = Some (VInt q10)
    ∧ od_get (_key_fmt "&gt;Q12" stat_type) d = Some (VInt q12)
    ∧ od_get (_key_fmt "&gt;Q15" stat_type) d = Some (VInt q15)
    ∧ q15 <= q12 <= q10 ∧ q10 <= q7 <= q5
    ∧ sub (VFloat total) (VInt q5) = Ok b ∧ ge0 b = true
    ∧ row = [("&lt;Q5", b); ("Q5-7", VInt (q5 - q7)); ("Q7-10", VInt (q7 - q10));
             ("Q10-12", VInt (q10 - q12)); ("Q12-15", VInt (q12 - q15));
             ("&gt;Q15", VInt q15)].
Proof.
  intros Hload Hin Hrow. pose proof (load_empty_typed _ _ Hload) as Hst.
  apply sample_row_Ok in Hrow
    as (t & v5 & v7 & v10 & v12 & v15 & b1 & b2 & b3 & b4 & b5 & Htot
        & H5 & H7 & H10 & H12 & H15 & [Hb1 G1] & [Hb2 G2] & [Hb3 G3] & [Hb4 G4]
        & [Hb5 G5] & ->).
  destruct (typed_total_reads _ _ _ Hst Hin)
    as [(x & stat_type & Hx & Hty & Hnum)|[Hnone _]]; [|congruence].
  rewrite Hx in Htot. injection Htot as <- <-.
  cbn [str_of_stat_type default from_option id] in *.
  pose proof (two_variants_stat_types _ Hty) as Hty3.
  assert (Hq : ∀ k v, k ∈ _KEYS_READ_Q ->
                 od_get (_key_fmt k stat_type) d = Some v -> ∃ z, v = VInt z)
    by (intros k v; exact (typed_count _ _ _ _ _ _ Hst Hin Hty3)).
  destruct (Hq "&gt;Q5" _ ltac:(repeat constructor) H5) as [q5 ->].
  destruct (Hq "&gt;Q7" _ ltac:(repeat constructor) H7) as [q7 ->].
  destruct (Hq "&gt;Q10" _ ltac:(repeat constructor) H10) as [q10 ->].
  destruct (Hq "&gt;Q12" _ ltac:(repeat constructor) H12) as [q12 ->].
  destruct (Hq "&gt;Q15" _ ltac:(repeat constructor) H15) as [q15 ->].
  injection Hb2 as <-. injection Hb3 as <-. injection Hb4 as <-. injection Hb5 as <-.
  cbn [ge0] in G2, G3, G4, G5.
  apply Z.leb_le in G2, G3, G4, G5.
  exists stat_type, x, q5, q7, q10, q12, q15, b1.
  repeat (split; [assumption || reflexivity || lia|]). reflexivity.
Qed.

Lemma rows_have_decreasing_counts_witness :
  load empty_state [seq_report] = Ok seq_state
  ∧ ∃ stat_type total q5 q7 q10 q12 q15 b,
    Some "seq summary" = Some stat_type
    ∧ stat_type ∈ ["aligned"; "seq summary"]
    ∧ od_get (_key_fmt "Number of reads" stat_type) seq_entry = Some (VFloat total)
    ∧ od_get (_key_fmt "&gt;Q5" stat_type) seq_entry = Some (VInt q5)
    ∧ od_get (_key_fmt "&gt;Q7" stat_type) seq_entry = Some (VInt q7)
    ∧ od_get (_key_fmt "&gt;Q10" stat_type) seq_entry = Some (VInt q10)
    ∧ od_get (_key_fmt "&gt;Q12" stat_type) seq_entry = Some (VInt q12)
    ∧ od_get (_key_fmt "&gt;Q15" stat_type) seq_entry = Some (VInt q15)
    ∧ q15 <= q12 <= q10 ∧ q10 <= q7 <= q5
    ∧ sub (VFloat total) (VInt q5) = Ok b ∧ ge0 b = true
    ∧ example_row
      = [("&lt;Q5", b); ("Q5-7", VInt (q5 - q7)); ("Q7-10", VInt (q7 - q10));
         ("Q10-12", VInt (q10 - q12)); ("Q12-15", VInt (q12 - q15));
         ("&gt;Q15", VInt q15)].
Proof.
  assert (H : load empty_state [seq_report] = Ok seq_state)
    by (vm_compute; reflexivity).
  split; [exact H|].
  apply (rows_have_decreasing_counts _ _ "S1" seq_entry example_row
           (Some "seq summary") H).
  - apply list_elem_of_singleton. reflexivity.
  - vm_compute; reflexivity.
Defined.

(** X11. The arguments of the bar graph. When the histogram is made, for
    a store with distinct sample names, it has one row per sample, in the
    order of the store, each the row of its sample; the six categories
    are the bucket names in order, each labelled "Reads " and its name;
    and the title names the variant of the last sample of the store only,
    whatever the variants of the others. *)
Theorem plot_arguments data p :
  NoDup (keys data) ->
  nanostat_alignment_plot data = Ok p ->
  keys (bar_data p) = keys data
  ∧ (∀ sample d, (sample, d) ∈ data ->
       ∃ row stat_type, sample_row sample d = Ok (row, stat_type)
                        ∧ od_get sample (bar_data p) = Some row)
  ∧ plot_keys p = (fun name => (name, "Reads " ++ name)) <$> bucket_names
  ∧ (∀ rest sample d, data = (rest ++ [(sample, d)])%list ->
       plot_title p = title_for (_get_total_reads d).2).
Proof.
  intros Hnd H. unfold nanostat_alignment_plot in H.
  apply bind_Ok in H as ([bars stat_type] & Hfill & [= <-]). cbn [bar_data plot_keys plot_title].
  split; [|split; [|split]].
  - assert (Hfresh : ∀ s, s ∈ keys data -> s ∉ keys (@nil (string * dict value)))
      by (intros s _ Hs; now apply elem_of_nil in Hs).
    now rewrite (fill_bar_data_keys _ Hnd _ _ _ _ Hfresh Hfill).
  - destruct (fill_bar_data_ok data Hnd (fill_bar_data_rows _ _ _ _ Hfill)
                [] (Some "unrecognized")) as (bars' & st' & Hfill' & Hrows & _).
    rewrite Hfill in Hfill'. injection Hfill' as <- <-. exact Hrows.
  - reflexivity.
  - intros rest sample d ->.
    now rewrite (fill_bar_data_last _ _ _ _ _ _ _ Hfill).
Qed.

Lemma plot_arguments_witness :
  NoDup (keys (nanostat_data seq_state))
  ∧ ∃ p, nanostat_alignment_plot (nanostat_data seq_state) = Ok p
      ∧ keys (bar_data p) = keys (nanostat_data seq_state)
      ∧ (∀ sample d, (sample, d) ∈ nanostat_data seq_state ->
           ∃ row stat_type, sample_row sample d = Ok (row, stat_type)
                            ∧ od_get sample (bar_data p) = Some row)
      ∧ plot_keys p = (fun name => (name, "Reads " ++ name)) <$> bucket_names
      ∧ (∀ rest sample d, nanostat_data seq_state = (rest ++ [(sample, d)])%list ->
           plot_title p = title_for (_get_total_reads d).2).
Proof.
  assert (Hnd : NoDup (keys (nanostat_data seq_state))).
  { repeat constructor. intros H; now apply elem_of_nil in H. }
  split; [exact Hnd|]. eexists. split; [vm_compute; reflexivity|].
  apply (plot_arguments (nanostat_data seq_state) _ Hnd). vm_compute; reflexivity.
Defined.

End PlotFacts.

(** ** The columns of the general statistics table *)

Section TableFacts.
Import Py NanoStat.

Lemma enumerate_from_app {A B : Type} (body : B -> nat -> A -> B) l1 l2 i acc :
  enumerate_from i body acc (l1 ++ l2)
  = enumerate_from (i + length l1) body (enumerate_from i body acc l1) l2.
Proof.
  revert i acc; induction l1 as [|x l1 IH]; intros i acc; simpl.
  - now rewrite Nat.add_0_r.
  - rewrite IH. now rewrite Nat.add_succ_r.
Qed.

(** An invariant of the accumulator of a loop holds at its end. *)
Lemma enumerate_from_inv {A B : Type} (P : B -> Prop) (body : B -> nat -> A -> B) l :
  (∀ acc i x, x ∈ l -> P acc -> P (body acc i x)) ->
  ∀ i acc, P acc -> P (enumerate_from i body acc l).
Proof.
  induction l as [|x l IH]; intros Hbody i acc Hacc; simpl; [assumption|].
  apply IH.
  - intros acc' i' x' Hx'. apply Hbody, elem_of_cons. now right.
  - apply Hbody; [apply elem_of_cons; now left|assumption].
Qed.

Lemma NoDup_vocabulary : NoDup vocabulary.
Proof. apply (bool_decide_unpack _). vm_compute. exact I. Qed.

Lemma placement_value idx :
  (idx < 16)%nat ->
  float_add (float_of_Z 1000) (float_of_Z (Z.of_nat idx))
  = float_of_Z (1000 + Z.of_nat idx).
Proof.
  intros H. do 16 (destruct idx as [|idx]; [vm_compute; reflexivity|]). lia.
Qed.

Lemma threshold_key k stat_type :
  k ∈ vocabulary ->
  startswith "&gt;" (_key_fmt k stat_type) = bool_decide (k ∈ _KEYS_READ_Q).
Proof.
  unfold vocabulary, _KEYS_NUM, _KEYS_READ_Q. cbn [app]. intros Hk.
  repeat (apply elem_of_cons in Hk as [->|Hk]; [vm_compute; reflexivity|]).
  now apply elem_of_nil in Hk.
Qed.

(** The inner loop, over the three variants, for one statistic. *)
Lemma variants_other cfg hk idx k headers key :
  (∀ stat_type, stat_type ∈ _stat_types -> key ≠ _key_fmt k stat_type) ->
  od_get key (enumerate_from 0 (add_column cfg hk idx k) headers _stat_types)
  = od_get key headers.
Proof.
  intros Hne. unfold _stat_types in *. cbn [enumerate_from].
  rewrite !add_column_other by (apply Hne; repeat constructor). reflexivity.
Qed.

Lemma statistics_other cfg hk ks i headers key :
  (∀ k stat_type, k ∈ ks -> stat_type ∈ _stat_types -> key ≠ _key_fmt k stat_type) ->
  od_get key
    (enumerate_from i
       (fun headers idx k =>
          enumerate_from 0 (add_column cfg hk idx k) headers _stat_types)
       headers ks)
  = od_get key headers.
Proof.
  revert i headers; induction ks as [|k ks IH]; intros i headers Hne; simpl;
    [reflexivity|].
  rewrite IH by (intros k' st Hk'; apply Hne, elem_of_cons; now right).
  apply variants_other. intros st Hst. apply Hne; [apply elem_of_cons; now left|exact Hst].
Qed.

Lemma other_statistic k k' a b :
  k ≠ k' -> a ∈ _stat_types -> b ∈ _stat_types -> _key_fmt k a ≠ _key_fmt k' b.
Proof. intros Hne Ha Hb H. now apply _key_fmt_inj2 in H as [? _]. Qed.

Lemma other_variant k a b :
  a ≠ b -> a ∈ _stat_types -> b ∈ _stat_types -> _key_fmt k a ≠ _key_fmt k b.
Proof. intros Hne Ha Hb H. now apply _key_fmt_inj2 in H as [_ ?]. Qed.

Lemma variants_lookup cfg hk idx k headers stat_type :
  stat_type ∈ _stat_types ->
  _key_fmt k stat_type ∈ hk ->
  od_mem (_key_fmt k "aligned") headers = false ->
  ∃ i first,
    od_get (_key_fmt k stat_type)
      (enumerate_from 0 (add_column cfg hk idx k) headers _stat_types)
    = Some (new_column cfg idx k first i stat_type)
    ∧ Nat.eqb i 0
      || negb (od_mem (_key_fmt k default_stat_source)
                 (od_set (_key_fmt k stat_type) (template_of cfg k) first))
      = negb (negb (String.eqb stat_type "aligned")
              && bool_decide (_key_fmt k "aligned" ∈ hk)).
Proof.
  intros Hst Hin Hfirst.
  assert (Ha : "aligned" ∈ _stat_types) by (repeat constructor).
  assert (Hs : "seq summary" ∈ _stat_types) by (repeat constructor).
  assert (Hu : "unrecognized" ∈ _stat_types) by (repeat constructor).
  assert (Hmem : od_mem (_key_fmt k "aligned")
                   (add_column cfg hk idx k headers 0 "aligned")
                 = bool_decide (_key_fmt k "aligned" ∈ hk)).
  { case_bool_decide as Hal.
    - now apply od_mem_add_column.
    - now rewrite add_column_absent. }
  change default_stat_source with "aligned".
  unfold _stat_types in Hst |- *. cbn [enumerate_from].
  apply elem_of_cons in Hst as [->|Hst];
    [|apply elem_of_cons in Hst as [->|Hst];
      [|apply elem_of_cons in Hst as [->|Hst]; [|now apply elem_of_nil in Hst]]].
  - exists 0%nat, headers.
    rewrite !add_column_other by (apply other_variant; [discriminate|assumption..]).
    rewrite add_column_present by exact Hin. split; reflexivity.
  - exists 1%nat, (add_column cfg hk idx k headers 0 "aligned").
    rewrite !add_column_other by (apply other_variant; [discriminate|assumption..]).
    rewrite add_column_present by exact Hin. split; [reflexivity|].
    rewrite od_mem_set_other by (apply other_variant; [discriminate|assumption..]).
    rewrite Hmem. reflexivity.
  - exists 2%nat, (add_column cfg hk idx k
                     (add_column cfg hk idx k headers 0 "aligned") 1 "seq summary").
    rewrite add_column_present by exact Hin. split; [reflexivity|].
    rewrite od_mem_set_other by (apply other_variant; [discriminate|assumption..]).
    rewrite od_mem_add_column_other
      by (apply not_eq_sym, other_variant; [discriminate|assumption..]).
    rewrite Hmem. reflexivity.
Qed.

Lemma new_column_expected cfg hk idx k headers i stat_type :
  (idx < 16)%nat ->
  k ∈ vocabulary ->
  Nat.eqb i 0
  || negb (od_mem (_key_fmt k default_stat_source)
             (od_set (_key_fmt k stat_type) (template_of cfg k) headers))
  = negb (negb (String.eqb stat_type "aligned")
          && bool_decide (_key_fmt k "aligned" ∈ hk)) ->
  new_column cfg idx k headers i stat_type = expected_column cfg hk idx k stat_type.
Proof.
  intros Hidx Hk Hv. unfold new_column, expected_column, hidden_rule, with_variant.
  cbn zeta. fold (template_of cfg k).
  rewrite (placement_value _ Hidx), Hv, (threshold_key _ _ Hk).
  rewrite negb_andb, !negb_involutive.
  destruct (title _); cbn [hidden set_title set_placement]; now rewrite orb_assoc.
Qed.

(** The column of a statistic that is stored, in closed form. *)
Lemma table_lookup cfg data idx k stat_type :
  nth_error vocabulary idx = Some k ->
  stat_type ∈ _stat_types ->
  _key_fmt k stat_type ∈ header_keys data ->
  od_get (_key_fmt k stat_type) (nanostat_general_stats_table cfg data)
  = Some (expected_column cfg (header_keys data) idx k stat_type).
Proof.
  set (hk := header_keys data). intros Hk Hst Hin.
  assert (Hidx : (idx < 16)%nat).
  { change 16%nat with (length vocabulary). apply nth_error_Some. congruence. }
  destruct (nth_error_split _ _ Hk) as (pre & post & Hvoc & Hlen).
  pose proof NoDup_vocabulary as Hnd. rewrite Hvoc in Hnd.
  apply NoDup_app in Hnd as (_ & Hpre & Hpost).
  apply NoDup_cons in Hpost as [Hpost _].
  assert (Hkv : k ∈ vocabulary).
  { rewrite Hvoc. apply elem_of_app. right. apply elem_of_cons. now left. }
  unfold nanostat_general_stats_table. fold hk. fold vocabulary.
  rewrite Hvoc, enumerate_from_app, Hlen. cbn [enumerate_from Nat.add].
  rewrite statistics_other.
  2:{ intros k' st Hk' Hst'. apply other_statistic; [|assumption..].
      intros ->. exact (Hpost Hk'). }
  destruct (variants_lookup cfg hk idx k
              (enumerate_from 0
                 (fun headers idx k =>
                    enumerate_from 0 (add_column cfg hk idx k) headers _stat_types)
                 [] pre) stat_type Hst Hin) as (i & first & -> & Hv).
  - unfold od_mem. rewrite statistics_other; [reflexivity|].
    intros k' st Hk' Hst'. apply other_statistic; [|repeat constructor|assumption].
    intros ->. apply (Hpre k'); [exact Hk'|apply elem_of_cons; now left].
  - f_equal. now apply new_column_expected.
Qed.

Lemma keys_add_column cfg hk idx k headers i stat_type key :
  key ∈ keys (add_column cfg hk idx k headers i stat_type) ->
  key ∈ keys headers ∨ (key = _key_fmt k stat_type ∧ key ∈ hk).
Proof.
  unfold add_column. case_bool_decide as Hin; [|now left].
  intros H. apply keys_od_set in H as [->|H]; [now right|].
  apply keys_od_set in H as [->|H]; [now right|now left].
Qed.

Lemma NoDup_add_column cfg hk idx k headers i stat_type :
  NoDup (keys headers) -> NoDup (keys (add_column cfg hk idx k headers i stat_type)).
Proof.
  intros H. unfold add_column. case_bool_decide; [|assumption].
  now do 2 apply NoDup_od_set.
Qed.

Lemma threshold_template cfg k : k ∈ _KEYS_READ_Q -> template_of cfg k = empty_header.
Proof.
  unfold _KEYS_READ_Q. intros Hk.
  repeat (apply elem_of_cons in Hk as [->|Hk]; [reflexivity|]).
  now apply elem_of_nil in Hk.
Qed.

(** X12. The column of a stored statistic. For the statistic at
    position [idx] of the two vocabularies and a variant under which it
    is stored, the table has a column: its placement is 1000 + [idx]; its
    title is the title of the template of the statistic followed by the
    variant in brackets, and the other fields are those of the template;
    it is hidden exactly when the template is hidden, or the column is not
    of the aligned variant and the aligned value of the statistic is
    stored for some sample, or the statistic is a threshold count. A
    threshold column has no title and no description and is always
    hidden. *)
Theorem column_of_a_statistic cfg data idx k stat_type :
  nth_error vocabulary idx = Some k ->
  stat_type ∈ _stat_types ->
  _key_fmt k stat_type ∈ header_keys data ->
  ∃ h, od_get (_key_fmt k stat_type) (nanostat_general_stats_table cfg data) = Some h
    ∧ placement h = Some (float_of_Z (1000 + Z.of_nat idx))
    ∧ title h = (fun t => t ++ " (" ++ stat_type ++ ")") <$> title (template_of cfg k)
    ∧ (description h, hmin h, hmax h, suffix h, scale h, format h, modify h,
       shared_key h)
      = (let t := template_of cfg k in
         (description t, hmin t, hmax t, suffix t, scale t, format t, modify t,
          shared_key t))
    ∧ (∃ b, hidden h = Some b)
    ∧ (hidden h = Some true <->
       hidden (template_of cfg k) = Some true
       ∨ (stat_type ≠ "aligned" ∧ _key_fmt k "aligned" ∈ header_keys data)
       ∨ k ∈ _KEYS_READ_Q)
    ∧ (k ∈ _KEYS_READ_Q ->
       title h = None ∧ description h = None ∧ hidden h = Some true).
Proof.
  intros Hk Hst Hin. rewrite (table_lookup _ _ _ _ _ Hk Hst Hin).
  eexists. split; [reflexivity|].
  assert (Hrule : hidden_rule cfg (header_keys data) k stat_type = true <->
                  hidden (template_of cfg k) = Some true
                  ∨ (stat_type ≠ "aligned" ∧ _key_fmt k "aligned" ∈ header_keys data)
                  ∨ k ∈ _KEYS_READ_Q).
  { unfold hidden_rule. rewrite !orb_true_iff, andb_true_iff, negb_true_iff.
    rewrite !bool_decide_eq_true, String.eqb_neq.
    destruct (hidden (template_of cfg k)) as [[|]|]; simpl; intuition congruence. }
  unfold expected_column, with_variant.
  cbn [title set_placement].
  destruct (title (template_of cfg k)) as [t|] eqn:Ht;
    cbn [placement title description hmin hmax suffix scale format modify shared_key
         hidden set_hidden set_title set_placement];
    rewrite ?Ht; cbn [fmap option_fmap option_map];
    (split; [reflexivity|]); (split; [reflexivity|]); (split; [reflexivity|]);
    (split; [eauto|]).
  - split; [split; [intros [= H]; now apply Hrule|intros H; f_equal; now apply Hrule]|].
    intros Hq. rewrite (threshold_template _ _ Hq) in Ht. discriminate.
  - split; [split; [intros [= H]; now apply Hrule|intros H; f_equal; now apply Hrule]|].
    intros Hq. split; [reflexivity|].
    split; [now rewrite (threshold_template _ _ Hq)|].
    f_equal. apply Hrule. now right; right.
Qed.

Lemma column_of_a_statistic_witness :
  ∃ h, od_get (_key_fmt "&gt;Q5" "seq summary")
         (nanostat_general_stats_table example_config (nanostat_data seq_state))
       = Some h
    ∧ placement h = Some (float_of_Z (1000 + Z.of_nat 11))
    ∧ title h = None ∧ description h = None ∧ hidden h = Some true.
Proof.
  assert (Hk : nth_error vocabulary 11 = Some "&gt;Q5") by reflexivity.
  assert (Hst : "seq summary" ∈ _stat_types) by (repeat constructor).
  assert (Hin : _key_fmt "&gt;Q5" "seq summary" ∈ header_keys (nanostat_data seq_state))
    by (apply (bool_decide_unpack _); vm_compute; exact I).
  destruct (column_of_a_statistic example_config (nanostat_data seq_state) 11
              "&gt;Q5" "seq summary" Hk Hst Hin)
    as (h & Hh & Hp & _ & _ & _ & _ & Hq).
  exists h. split; [exact Hh|]. split; [exact Hp|].
  apply Hq. repeat constructor.
Defined.

(** X13. The table has exactly the columns of the stored statistics:
    its keys are distinct, and a key has a column exactly when some
    sample stores it and it is made of a name of the two vocabularies and
    one of the three variants; for a store whose keys are all of that
    form, as the loading loop makes them, the columns are exactly the
    stored keys. *)
Theorem columns_are_stored_statistics cfg data :
  NoDup (keys (nanostat_general_stats_table cfg data))
  ∧ (∀ key,
       key ∈ keys (nanostat_general_stats_table cfg data) <->
       key ∈ header_keys data
       ∧ ∃ k stat_type,
           k ∈ vocabulary ∧ stat_type ∈ _stat_types ∧ key = _key_fmt k stat_type)
  ∧ (store_keys_composite data ->
     ∀ key, key ∈ keys (nanostat_general_stats_table cfg data) <->
            key ∈ header_keys data).
Proof.
  assert (Hkeys : ∀ key,
            key ∈ keys (nanostat_general_stats_table cfg data) <->
            key ∈ header_keys data
            ∧ ∃ k stat_type,
                k ∈ vocabulary ∧ stat_type ∈ _stat_types
                ∧ key = _key_fmt k stat_type).
  { intros key. split.
    - unfold nanostat_general_stats_table. fold vocabulary.
      set (hk := header_keys data).
      apply (enumerate_from_inv
               (fun headers => key ∈ keys headers ->
                  key ∈ hk ∧ ∃ k stat_type,
                    k ∈ vocabulary ∧ stat_type ∈ _stat_types
                    ∧ key = _key_fmt k stat_type)).
      + intros headers idx k Hk Hacc.
        apply (enumerate_from_inv
                 (fun headers => key ∈ keys headers ->
                    key ∈ hk ∧ ∃ k stat_type,
                      k ∈ vocabulary ∧ stat_type ∈ _stat_types
                      ∧ key = _key_fmt k stat_type)); [|exact Hacc].
        intros acc i stat_type Hst Hacc' Hin.
        apply keys_add_column in Hin as [Hin|[-> Hin]]; [now apply Hacc'|].
        split; [exact Hin|]. now exists k, stat_type.
      + intros Hin. now apply elem_of_nil in Hin.
    - intros (Hin & k & stat_type & Hk & Hst & ->).
      apply list_elem_of_lookup in Hk as [idx Hk].
      apply od_get_is_Some. rewrite (table_lookup cfg data idx k stat_type); [eauto|..].
      + rewrite <- Hk. clear. revert idx.
        induction vocabulary as [|x l IH]; intros [|idx]; simpl; auto.
      + exact Hst.
      + exact Hin. }
  split; [|split; [exact Hkeys|]].
  - unfold nanostat_general_stats_table.
    apply (enumerate_from_inv (fun headers => NoDup (keys headers)));
      [|apply NoDup_nil_2].
    intros headers idx k _ Hacc.
    apply (enumerate_from_inv (fun headers => NoDup (keys headers))); [|exact Hacc].
    intros acc i stat_type _ Hacc'. now apply NoDup_add_column.
  - intros Hstore key. rewrite Hkeys. split; [tauto|]. intros Hin.
    split; [exact Hin|].
    apply elem_of_header_keys in Hin as (sample & d & Hd & Hkey).
    destruct (Hstore _ _ _ Hd Hkey) as (k & variant & Hk & Hv & ->).
    exists k, variant. split; [exact Hk|].
    split; [now apply two_variants_stat_types|reflexivity].
Qed.

End TableFacts.

(** ** The lines of a report *)

Section LineFacts.
Import Py NanoStat.

(** [append] is never unfolded by [simpl] here. *)
Ltac app_simpl := unfold append; fold append; simpl.

(** *** Reversal and stripping *)

Lemma append_assoc (a b c : string) : (a ++ b) ++ c = a ++ (b ++ c).
Proof. induction a as [|x a IH]; app_simpl; [reflexivity|]. now rewrite IH. Qed.

Lemma append_nil_r (a : string) : a ++ "" = a.
Proof. induction a as [|x a IH]; app_simpl; [reflexivity|]. now rewrite IH. Qed.

Lemma rev_onto_app s acc : rev_onto s acc = rev s ++ acc.
Proof.
  unfold rev. revert acc; induction s as [|c s IH]; intros acc; simpl; [reflexivity|].
  rewrite IH, (IH (String c "")), append_assoc. reflexivity.
Qed.

Lemma rev_cons c s : rev (String c s) = rev s ++ String c "".
Proof. unfold rev at 1. simpl. apply rev_onto_app. Qed.

Lemma rev_app a b : rev (a ++ b) = rev b ++ rev a.
Proof.
  induction a as [|c a IH]; app_simpl.
  - now rewrite append_nil_r.
  - rewrite !rev_cons, IH. now rewrite append_assoc.
Qed.

Lemma rev_involutive s : rev (rev s) = s.
Proof.
  induction s as [|c s IH]; [reflexivity|].
  rewrite rev_cons, rev_app, IH. reflexivity.
Qed.

Lemma lstrip_app x y :
  lstrip (x ++ y) = match lstrip x with "" => lstrip y | _ => lstrip x ++ y end.
Proof.
  induction x as [|a x IH]; app_simpl; [reflexivity|].
  destruct (is_space a); [exact IH|reflexivity].
Qed.

Lemma rstrip_cons c s :
  rstrip (String c s)
  = match rstrip s with
    | "" => if is_space c then "" else String c ""
    | r => String c r
    end.
Proof.
  unfold rstrip. rewrite rev_cons, lstrip_app.
  destruct (lstrip (rev s)) as [|a w] eqn:E.
  - simpl. now destruct (is_space c).
  - rewrite rev_app. change (rev (String c "")) with (String c ""). simpl.
    destruct (rev (String a w)) eqn:E'; [|reflexivity].
    apply (f_equal rev) in E'. rewrite rev_involutive in E'. discriminate.
Qed.

Lemma rstrip_blank s : blank s -> rstrip s = "".
Proof.
  unfold blank. induction s as [|c s IH]; simpl; [reflexivity|].
  intros H. apply andb_true_iff in H as [Hc Hs].
  rewrite rstrip_cons, (IH Hs), Hc. reflexivity.
Qed.

Lemma rstrip_nonblank c s : is_space c = false -> rstrip (String c s) = String c (rstrip s).
Proof. intros Hc. rewrite rstrip_cons, Hc. now destruct (rstrip s). Qed.

Lemma rstrip_app x y : rstrip y ≠ "" -> rstrip (x ++ y) = x ++ rstrip y.
Proof.
  intros Hy. induction x as [|c x IH]; app_simpl; [reflexivity|].
  rewrite rstrip_cons, IH. destruct (x ++ rstrip y) eqn:E; [|reflexivity].
  destruct x; unfold append in E; fold append in E; [contradiction|discriminate].
Qed.

Lemma rstrip_nonblanks x y :
  all_chars (fun c => negb (is_space c)) x = true -> rstrip (x ++ y) = x ++ rstrip y.
Proof.
  induction x as [|c x IH]; app_simpl; [reflexivity|].
  intros H. apply andb_true_iff in H as [Hc Hx]. apply negb_true_iff in Hc.
  now rewrite (rstrip_nonblank _ _ Hc), IH.
Qed.

Lemma lstrip_blank x y : blank x -> lstrip (x ++ y) = lstrip y.
Proof.
  unfold blank. induction x as [|c x IH]; app_simpl; [reflexivity|].
  intros H. apply andb_true_iff in H as [-> Hx]. now apply IH.
Qed.

Lemma all_chars_app p a b : all_chars p (a ++ b) = all_chars p a && all_chars p b.
Proof. induction a as [|c a IH]; app_simpl; [reflexivity|]. now rewrite IH, andb_assoc. Qed.

Lemma all_chars_impl (p q : ascii -> bool) s :
  (∀ c, p c = true -> q c = true) -> all_chars p s = true -> all_chars q s = true.
Proof.
  intros Hpq. induction s as [|c s IH]; simpl; [reflexivity|].
  intros H. apply andb_true_iff in H as [Hc Hs]. now rewrite (Hpq _ Hc), IH.
Qed.

Lemma all_chars_rstrip p s : all_chars p s = true -> all_chars p (rstrip s) = true.
Proof.
  induction s as [|c s IH]; [reflexivity|]. simpl.
  intros H. apply andb_true_iff in H as [Hc Hs]. rewrite rstrip_cons.
  specialize (IH Hs). destruct (rstrip s).
  - destruct (is_space c); simpl; [reflexivity|now rewrite Hc].
  - simpl in *. now rewrite Hc, IH.
Qed.

Lemma blank_led_rstrip s : blank_led s -> blank_led (rstrip s).
Proof.
  destruct s as [|c s]; [intros _; exact I|]. simpl. intros Hc.
  rewrite rstrip_cons, Hc. now destruct (rstrip s).
Qed.

(** *** Splitting *)

Lemma split_none c s :
  all_chars (fun a => negb (Ascii.eqb a c)) s = true -> split c s = [s].
Proof.
  induction s as [|a s IH]; simpl; [reflexivity|].
  intros H. apply andb_true_iff in H as [Ha Hs]. apply negb_true_iff in Ha.
  now rewrite Ha, (IH Hs).
Qed.

Lemma split_first c a b :
  all_chars (fun x => negb (Ascii.eqb x c)) a = true ->
  all_chars (fun x => negb (Ascii.eqb x c)) b = true ->
  split c (a ++ String c b) = [a; b].
Proof.
  intros Ha Hb. induction a as [|x a IH]; app_simpl.
  - now rewrite Ascii.eqb_refl, (split_none _ _ Hb).
  - simpl in Ha. apply andb_true_iff in Ha as [Hx Ha]. apply negb_true_iff in Hx.
    now rewrite Hx, (IH Ha).
Qed.

Lemma split_ws_lstrip s : split_ws (lstrip s) = split_ws s.
Proof.
  unfold split_ws. induction s as [|c s IH]; simpl; [reflexivity|].
  destruct (is_space c) eqn:Hc; [exact IH|]. simpl. now rewrite Hc.
Qed.

Lemma split_ws_rstrip s acc : split_ws_from acc (rstrip s) = split_ws_from acc s.
Proof.
  revert acc; induction s as [|c s IH]; intros acc; [reflexivity|].
  rewrite rstrip_cons. destruct (rstrip s) as [|a r] eqn:E.
  - destruct (is_space c) eqn:Hc; simpl; rewrite Hc.
    + rewrite <- (IH ""). simpl. reflexivity.
    + now rewrite <- IH.
  - simpl. destruct (is_space c); [|now rewrite <- IH].
    now rewrite <- (IH "").
Qed.

Lemma split_ws_strip s : split_ws (strip s) = split_ws s.
Proof. unfold strip, split_ws at 1. now rewrite split_ws_rstrip, split_ws_lstrip. Qed.

Lemma split_ws_blank x y : blank x -> split_ws (x ++ y) = split_ws y.
Proof.
  unfold blank, split_ws. induction x as [|c x IH]; app_simpl; [reflexivity|].
  intros H. apply andb_true_iff in H as [-> Hx]. now apply IH.
Qed.

Lemma split_ws_from_nonblanks x y acc :
  all_chars (fun c => negb (is_space c)) x = true ->
  split_ws_from acc (x ++ y) = split_ws_from (rev x ++ acc) y.
Proof.
  revert acc; induction x as [|c x IH]; intros acc; app_simpl; [reflexivity|].
  intros H. apply andb_true_iff in H as [Hc Hx]. apply negb_true_iff in Hc.
  rewrite Hc, (IH _ Hx), rev_cons, append_assoc. reflexivity.
Qed.

(** The first word of a string that starts with a word. *)
Lemma split_ws_first x y :
  x ≠ "" -> all_chars (fun c => negb (is_space c)) x = true -> blank_led y ->
  ∃ rest, split_ws (x ++ y) = x :: rest.
Proof.
  intros Hne Hx Hy. unfold split_ws. rewrite (split_ws_from_nonblanks _ _ _ Hx).
  rewrite append_nil_r.
  assert (Hrev : rev x ≠ "").
  { intros E. apply (f_equal rev) in E. rewrite rev_involutive in E. now apply Hne. }
  destruct y as [|c y]; simpl.
  - destruct (rev x) eqn:E; [contradiction|]. rewrite <- E, rev_involutive. eauto.
  - simpl in Hy. rewrite Hy.
    destruct (rev x) eqn:E; [contradiction|]. rewrite <- E, rev_involutive. eauto.
Qed.

(** *** Classes of characters *)

Ltac by_cases c :=
  destruct c as [[] [] [] [] [] [] [] []]; vm_compute; try reflexivity;
  try discriminate.

Lemma space_not_colon c : is_space c = true -> negb (Ascii.eqb c ":") = true.
Proof. by_cases c. Qed.

Lemma space_plain c : is_space c = true -> escape_char c = String c "".
Proof. by_cases c. Qed.

Lemma digit_not_space c :
  is_digit c || Ascii.eqb c "," = true -> negb (is_space c) = true.
Proof. by_cases c. Qed.

Lemma digit_not_colon c :
  is_digit c || Ascii.eqb c "," = true -> negb (Ascii.eqb c ":") = true.
Proof. by_cases c. Qed.

Lemma digit_plain c : is_digit c || Ascii.eqb c "," = true -> escape_char c = String c "".
Proof. by_cases c. Qed.

Lemma digit_grouped c : is_digit c = true -> is_digit c || Ascii.eqb c "," = true.
Proof. now intros ->. Qed.

Lemma escape_char_no_colon c :
  negb (Ascii.eqb c ":") = true ->
  all_chars (fun a => negb (Ascii.eqb a ":")) (escape_char c) = true.
Proof. by_cases c. Qed.

Lemma escape_app a b : escape (a ++ b) = escape a ++ escape b.
Proof.
  induction a as [|c a IH]; app_simpl; [reflexivity|].
  now rewrite IH, append_assoc.
Qed.

Lemma escape_plain (p : ascii -> bool) s :
  (∀ c, p c = true -> escape_char c = String c "") ->
  all_chars p s = true -> escape s = s.
Proof.
  intros Hp. induction s as [|c s IH]; simpl; [reflexivity|].
  intros H. apply andb_true_iff in H as [Hc Hs].
  now rewrite (Hp _ Hc), (IH Hs).
Qed.

Lemma escape_no_colon s : no_colon s -> no_colon (escape s).
Proof.
  unfold no_colon. induction s as [|c s IH]; simpl; [reflexivity|].
  intros H. apply andb_true_iff in H as [Hc Hs].
  now rewrite all_chars_app, (escape_char_no_colon _ Hc), (IH Hs).
Qed.

Lemma escape_blank_led s : blank_led s -> blank_led (escape s).
Proof.
  destruct s as [|c s]; [intros _; exact I|]. simpl. intros Hc.
  now rewrite (space_plain _ Hc).
Qed.

Lemma remove_char_app c a b : remove_char c (a ++ b) = remove_char c a ++ remove_char c b.
Proof.
  induction a as [|x a IH]; app_simpl; [reflexivity|].
  destruct (Ascii.eqb x c); [exact IH|]. app_simpl. now rewrite IH.
Qed.

Lemma remove_comma_blank s : blank s -> remove_char "," s = s.
Proof.
  unfold blank. induction s as [|c s IH]; simpl; [reflexivity|].
  intros H. apply andb_true_iff in H as [Hc Hs]. rewrite (IH Hs).
  replace (Ascii.eqb c ",") with false; [reflexivity|].
  clear -Hc. revert Hc. by_cases c.
Qed.

(** *** Decimal numerals *)

Lemma numeral_digits d : all_chars is_digit (NilEmpty.string_of_uint d) = true.
Proof. induction d; simpl; [reflexivity|assumption..]. Qed.

Lemma numeral_value d a k :
  digits_from (Z.of_nat a) k (NilEmpty.string_of_uint d)
  = (Z.of_nat (Nat.of_uint_acc d a), k + Z.of_nat (Decimal.nb_digits d), "").
Proof.
  revert a k; induction d; intros a k; simpl NilEmpty.string_of_uint;
    cbn [Nat.of_uint_acc Decimal.nb_digits];
    [cbn [digits_from]; repeat f_equal; lia|..];
    cbn [digits_from]; change (is_digit _) with true; cbv iota;
    match goal with
    | |- digits_from ?acc _ _ = (Z.of_nat (Nat.of_uint_acc _ ?b), _, _) =>
        replace acc with (Z.of_nat b)
          by (rewrite Nat.tail_mul_spec; unfold digit_val; simpl; lia)
    end;
    rewrite IHd; f_equal; f_equal; lia.
Qed.

Lemma to_uint_not_Nil n : Nat.to_uint n ≠ Decimal.Nil.
Proof.
  rewrite <- (Unsigned.of_to n) at 1. rewrite Unsigned.to_of.
  unfold Decimal.unorm. now destruct (Decimal.nzhead _).
Qed.

Lemma str_of_nat_not_empty n : str_of_nat n ≠ "".
Proof.
  unfold str_of_nat. pose proof (to_uint_not_Nil n) as H.
  now destruct (Nat.to_uint n).
Qed.

Lemma str_of_nat_digits n : all_chars is_digit (str_of_nat n) = true.
Proof. apply numeral_digits. Qed.

Lemma str_of_nat_value n :
  ∃ len, digits (str_of_nat n) = (Z.of_nat n, len, "") ∧ 0 < len.
Proof.
  unfold digits, str_of_nat. exists (Z.of_nat (Decimal.nb_digits (Nat.to_uint n))).
  rewrite (numeral_value _ 0 0). change (Nat.of_uint_acc ?d 0) with (Nat.of_uint d).
  rewrite Unsigned.of_to. split; [reflexivity|].
  pose proof (to_uint_not_Nil n) as H.
  destruct (Nat.to_uint n); [contradiction|simpl; lia..].
Qed.

(** A string of digits, as [int()] and [float()] read it. *)
Lemma digits_nonblank s :
  all_chars is_digit s = true -> all_chars (fun c => negb (is_space c)) s = true.
Proof.
  apply all_chars_impl. intros c Hc. apply digit_not_space. now rewrite Hc.
Qed.

Lemma strip_digits sep s trail :
  blank sep -> blank trail -> s ≠ "" -> all_chars is_digit s = true ->
  strip (sep ++ s ++ trail) = s.
Proof.
  intros Hsep Htrail Hne Hs. unfold strip. rewrite (lstrip_blank _ _ Hsep).
  pose proof (digits_nonblank _ Hs) as Hnb.
  destruct s as [|c s]; [contradiction|]. app_simpl.
  simpl in Hnb. apply andb_true_iff in Hnb as [Hc Hnb].
  apply negb_true_iff in Hc. rewrite Hc.
  change (String c (s ++ trail)) with (String c s ++ trail).
  rewrite rstrip_nonblanks by (simpl; now rewrite Hc, Hnb).
  now rewrite (rstrip_blank _ Htrail), append_nil_r.
Qed.

Ltac digit_cases c H :=
  destruct c as [[] [] [] [] [] [] [] []]; vm_compute in H; try discriminate H.

Lemma drop_underscores_None c s :
  is_digit c = true ->
  drop_underscores None (String c s) = String c <$> drop_underscores (Some c) s.
Proof. intros H. digit_cases c H; reflexivity. Qed.

Lemma drop_underscores_Some p c s :
  is_digit p = true -> is_digit c = true ->
  drop_underscores (Some p) (String c s) = String c <$> drop_underscores (Some c) s.
Proof. intros Hp Hc. digit_cases p Hp; digit_cases c Hc; reflexivity. Qed.

Lemma drop_underscores_end p : is_digit p = true -> drop_underscores (Some p) "" = Some "".
Proof. intros Hp. digit_cases p Hp; reflexivity. Qed.

Lemma drop_underscores_digits s :
  all_chars is_digit s = true ->
  drop_underscores None s = Some s
  ∧ ∀ p, is_digit p = true -> drop_underscores (Some p) s = Some s.
Proof.
  induction s as [|c s IH].
  - intros _. split; [reflexivity|]. apply drop_underscores_end.
  - cbn [all_chars]. intros H. apply andb_true_iff in H as [Hc Hs].
    destruct (IH Hs) as [_ IH']. specialize (IH' c Hc). split.
    + now rewrite (drop_underscores_None _ _ Hc), IH'.
    + intros p Hp. now rewrite (drop_underscores_Some _ _ _ Hp Hc), IH'.
Qed.

Lemma sign_digits s :
  s ≠ "" -> all_chars is_digit s = true -> sign s = (false, s).
Proof.
  destruct s as [|c s]; [contradiction|]. cbn [all_chars]. intros _ H.
  apply andb_true_iff in H as [Hc _]. digit_cases c Hc; reflexivity.
Qed.

Lemma lower_str_digits s : all_chars is_digit s = true -> lower_str s = s.
Proof.
  induction s as [|c s IH]; cbn [all_chars lower_str]; [reflexivity|].
  intros H. apply andb_true_iff in H as [Hc Hs]. rewrite (IH Hs). f_equal.
  digit_cases c Hc; reflexivity.
Qed.

Lemma digits_not_special s :
  s ≠ "" -> all_chars is_digit s = true ->
  bool_decide (s = "inf" ∨ s = "infinity") = false ∧ bool_decide (s = "nan") = false.
Proof.
  destruct s as [|c s]; [contradiction|]. cbn [all_chars]. intros _ H.
  apply andb_true_iff in H as [Hc _].
  split; apply bool_decide_eq_false_2.
  - intros [E|E]; injection E as -> _; discriminate Hc.
  - intros E; injection E as -> _; discriminate Hc.
Qed.

(** [int(str(n))] is [n] and [float(str(n))] is the float nearest to [n],
    also between blanks. *)
Lemma int_of_string_numeral sep n trail :
  blank sep -> blank trail ->
  int_of_string (sep ++ str_of_nat n ++ trail) = Some (Z.of_nat n).
Proof.
  intros Hsep Htrail. unfold int_of_string.
  rewrite (strip_digits _ _ _ Hsep Htrail (str_of_nat_not_empty n) (str_of_nat_digits n)).
  rewrite (proj1 (drop_underscores_digits _ (str_of_nat_digits n))).
  rewrite (sign_digits _ (str_of_nat_not_empty n) (str_of_nat_digits n)).
  destruct (str_of_nat_value n) as (len & -> & Hlen).
  now rewrite (proj2 (Z.ltb_lt 0 len) Hlen).
Qed.

Lemma float_of_string_numeral sep n trail :
  blank sep -> blank trail ->
  float_of_string (sep ++ str_of_nat n ++ trail) = Some (float_of_Z (Z.of_nat n)).
Proof.
  intros Hsep Htrail. unfold float_of_string.
  rewrite (strip_digits _ _ _ Hsep Htrail (str_of_nat_not_empty n) (str_of_nat_digits n)).
  rewrite (proj1 (drop_underscores_digits _ (str_of_nat_digits n))).
  rewrite (sign_digits _ (str_of_nat_not_empty n) (str_of_nat_digits n)).
  rewrite (lower_str_digits _ (str_of_nat_digits n)).
  destruct (digits_not_special _ (str_of_nat_not_empty n) (str_of_nat_digits n))
    as [-> ->].
  destruct (str_of_nat_value n) as (len & -> & Hlen).
  rewrite Z.add_0_r, (proj2 (Z.ltb_lt 0 len) Hlen). cbn [exponent].
  rewrite Z.sub_0_r. f_equal. apply float_of_decimal_integer. lia.
Qed.

(** *** The two kinds of lines *)

Lemma num_key_facts key :
  key ∈ _KEYS_NUM ->
  escape key = key ∧ no_colon key ∧ lstrip key = key ∧ key ≠ "".
Proof.
  unfold _KEYS_NUM, no_colon. intros Hk.
  repeat (apply elem_of_cons in Hk as [->|Hk];
          [repeat split; try (vm_compute; reflexivity); discriminate|]).
  now apply elem_of_nil in Hk.
Qed.

Lemma threshold_key_facts raw :
  raw ∈ raw_thresholds ->
  escape raw ∈ _KEYS_READ_Q ∧ (escape raw ∉ _KEYS_NUM)
  ∧ no_colon (escape raw) ∧ lstrip (escape raw) = escape raw ∧ escape raw ≠ "".
Proof.
  unfold raw_thresholds, no_colon. intros Hk.
  repeat (apply elem_of_cons in Hk as [->|Hk];
          [split; [apply (bool_decide_unpack _); vm_compute; exact I|];
           split; [apply (bool_decide_unpack _); vm_compute; exact I|];
           repeat split; try (vm_compute; reflexivity); discriminate|]).
  now apply elem_of_nil in Hk.
Qed.

Lemma lstrip_key key rest : lstrip key = key -> key ≠ "" -> lstrip (key ++ rest) = key ++ rest.
Proof.
  intros Hl Hne. rewrite lstrip_app, Hl. destruct key; [contradiction|reflexivity].
Qed.

Lemma grouped_not_empty t n : remove_char "," t = str_of_nat n -> t ≠ "".
Proof. intros H ->. exact (str_of_nat_not_empty n (eq_sym H)). Qed.

(** The two parts of a line of a numeric summary, and the value read
    from the second. *)
Lemma number_line_parts key sep t trail n :
  key ∈ _KEYS_NUM ->
  blank sep -> grouped_digits t -> remove_char "," t = str_of_nat n -> blank trail ->
  split ":" (strip (escape (key ++ ":" ++ sep ++ t ++ trail))) = [key; sep ++ t].
Proof.
  intros Hkey Hsep Ht Hn Htrail.
  destruct (num_key_facts _ Hkey) as (Hesc & Hcolon & Hl & Hne).
  pose proof (grouped_not_empty _ _ Hn) as Htne.
  assert (Hline : strip (escape (key ++ ":" ++ sep ++ t ++ trail))
                  = key ++ String ":" (sep ++ t)).
  { rewrite !escape_app, Hesc.
    rewrite (escape_plain _ _ space_plain Hsep), (escape_plain _ _ digit_plain Ht),
      (escape_plain _ _ space_plain Htrail).
    change (escape ":") with ":". unfold strip.
    rewrite (lstrip_key _ _ Hl Hne).
    replace (key ++ ":" ++ sep ++ t ++ trail)
      with ((key ++ ":" ++ sep) ++ (t ++ trail)) by (now rewrite !append_assoc).
    assert (Hr : rstrip (t ++ trail) = t).
    { rewrite rstrip_nonblanks
        by exact (all_chars_impl _ _ _ digit_not_space Ht).
      now rewrite (rstrip_blank _ Htrail), append_nil_r. }
    rewrite rstrip_app by (now rewrite Hr). rewrite Hr.
    now rewrite !append_assoc. }
  rewrite Hline. apply split_first; [exact Hcolon|].
  rewrite all_chars_app. apply andb_true_iff. split.
  - exact (all_chars_impl _ _ _ space_not_colon Hsep).
  - exact (all_chars_impl _ _ _ digit_not_colon Ht).
Qed.

Lemma number_value sep t n :
  blank sep -> remove_char "," t = str_of_nat n ->
  float_of_string (remove_char "," (sep ++ t)) = Some (float_of_Z (Z.of_nat n)).
Proof.
  intros Hsep Hn. rewrite remove_char_app, (remove_comma_blank _ Hsep), Hn.
  rewrite <- (append_nil_r (str_of_nat n)).
  exact (float_of_string_numeral sep n "" Hsep eq_refl).
Qed.

(** The two parts of a line of a threshold count, and the first word of
    the second. *)
Lemma count_line_parts raw sep n tail :
  raw ∈ raw_thresholds ->
  blank sep -> blank_led tail -> no_colon tail ->
  ∃ rest,
    split ":" (strip (escape (raw ++ ":" ++ sep ++ str_of_nat n ++ tail)))
    = [escape raw; sep ++ str_of_nat n ++ rest]
    ∧ blank_led rest.
Proof.
  intros Hraw Hsep Hled Htail.
  destruct (threshold_key_facts _ Hraw) as (_ & _ & Hcolon & Hl & Hne).
  set (D := str_of_nat n). exists (rstrip (escape tail)).
  set (R := rstrip (escape tail)).
  pose proof (str_of_nat_digits n) as HD. fold D in HD.
  pose proof (str_of_nat_not_empty n) as HDne. fold D in HDne.
  pose proof (digits_nonblank _ HD) as HDnb.
  assert (HR : no_colon R)
    by (apply all_chars_rstrip, escape_no_colon, Htail).
  split; [|apply blank_led_rstrip, escape_blank_led, Hled].
  assert (Hline : strip (escape (raw ++ ":" ++ sep ++ D ++ tail))
                  = escape raw ++ String ":" (sep ++ D ++ R)).
  { rewrite !escape_app.
    rewrite (escape_plain _ _ space_plain Hsep),
      (escape_plain _ _ digit_plain (all_chars_impl _ _ _ digit_grouped HD)).
    change (escape ":") with ":". unfold strip.
    rewrite (lstrip_key _ _ Hl Hne).
    replace (escape raw ++ ":" ++ sep ++ D ++ escape tail)
      with ((escape raw ++ ":" ++ sep) ++ (D ++ escape tail))
      by (now rewrite !append_assoc).
    assert (Hr : rstrip (D ++ escape tail) = D ++ R)
      by (now apply rstrip_nonblanks).
    rewrite rstrip_app.
    - rewrite Hr. now rewrite !append_assoc.
    - rewrite Hr. destruct D; [contradiction|discriminate]. }
  rewrite Hline. apply split_first; [exact Hcolon|].
  rewrite !all_chars_app, !andb_true_iff. split; [|split].
  - exact (all_chars_impl _ _ _ space_not_colon Hsep).
  - apply (all_chars_impl _ _ _ digit_not_colon).
    exact (all_chars_impl _ _ _ digit_grouped HD).
  - exact HR.
Qed.

Lemma count_word sep n rest :
  blank sep -> blank_led rest ->
  ∃ words, split_ws (strip (sep ++ str_of_nat n ++ rest)) = str_of_nat n :: words.
Proof.
  intros Hsep Hrest. rewrite split_ws_strip, (split_ws_blank _ _ Hsep).
  apply split_ws_first; [apply str_of_nat_not_empty| |exact Hrest].
  apply digits_nonblank, str_of_nat_digits.
Qed.

Lemma int_of_str_of_nat n : int_of_string (str_of_nat n) = Some (Z.of_nat n).
Proof.
  pose proof (int_of_string_numeral "" n "" eq_refl eq_refl) as H.
  now rewrite append_nil_r in H.
Qed.





(** *** A whole report *)

Lemma str_of_nat_grouped n :
  grouped_digits (str_of_nat n) ∧ remove_char "," (str_of_nat n) = str_of_nat n.
Proof.
  pose proof (str_of_nat_digits n) as H. unfold grouped_digits.
  split; [exact (all_chars_impl _ _ _ digit_grouped H)|].
  induction (str_of_nat n) as [|c s IH]; [reflexivity|].
  cbn [all_chars] in H. apply andb_true_iff in H as [Hc Hs].
  cbn [remove_char]. rewrite (IH Hs).
  replace (Ascii.eqb c ",") with false; [reflexivity|].
  clear -Hc. digit_cases c Hc; reflexivity.
Qed.

Lemma parse_report_number ns key n :
  key ∈ _KEYS_NUM ->
  parse_line ns (report_line key n)
  = Ok (od_set key (VFloat (float_of_Z (Z.of_nat n))) ns).
Proof.
  intros Hkey. destruct (str_of_nat_grouped n) as [Hg Hr].
  unfold parse_line, report_line. cbv zeta.
  rewrite (number_line_parts key " " (str_of_nat n) (String "010" "") n
             Hkey eq_refl Hg Hr eq_refl).
  rewrite bool_decide_eq_true_2 by exact Hkey.
  cbn [index nth_error of_option mbind result_bind].
  rewrite (number_value " " _ n eq_refl Hr). reflexivity.
Qed.

Lemma parse_report_count ns raw n :
  raw ∈ raw_thresholds ->
  parse_line ns (report_line raw n) = Ok (od_set (escape raw) (VInt (Z.of_nat n)) ns).
Proof.
  intros Hraw.
  destruct (threshold_key_facts _ Hraw) as (Hq & Hnum & _).
  destruct (count_line_parts raw " " n (String "010" "") Hraw eq_refl eq_refl eq_refl)
    as (rest & Hparts & Hrest).
  destruct (count_word " " n rest eq_refl Hrest) as [words Hwords].
  unfold parse_line, report_line. cbv zeta. rewrite Hparts.
  rewrite bool_decide_eq_false_2 by exact Hnum.
  rewrite bool_decide_eq_true_2 by exact Hq.
  cbn [index nth_error of_option mbind result_bind]. rewrite Hwords.
  cbn [index nth_error of_option mbind result_bind].
  now rewrite int_of_str_of_nat.
Qed.

Lemma ignore_nothing data : ignore_samples [] data = data.
Proof.
  unfold ignore_samples. induction data as [|[s d] data IH]; [reflexivity|].
  rewrite filter_cons_True; [now rewrite IH|]. apply not_elem_of_nil.
Qed.

(** X16. From the file to the bar graph. A report with a marker line,
    the number of reads and the five threshold counts, written as
    decimal numbers, with the counts not increasing from the number of
    reads to >Q15 and the number of reads below 2^53: the module is
    constructed, the report is classified by its marker, and the bar graph
    has one row, of the sample, with the six buckets, all non-negative
    integers that sum to the number of reads; its title names the
    variant. *)
Theorem consistent_report_gives_histogram cfg file sample marker
    m total q5 q7 q10 q12 q15 :
  marker ∈ ["Total bases aligned"; "Active channels"] ->
  (q15 <= q12 <= q10)%nat -> (q10 <= q7 <= q5)%nat -> (q5 <= total)%nat ->
  Z.of_nat total < 2 ^ 53 ->
  ∃ r row,
    __init__ cfg [] [summary_report file sample marker m total q5 q7 q10 q12 q15] = Ok r
    ∧ keys (nanostat_data (final r)) = [sample]
    ∧ bar_data (section_plot r) = [(sample, row)]
    ∧ good_row row (Z.of_nat total)
    ∧ plot_title (section_plot r) = title_for (Some (variant_of_marker marker)).
Proof.
  intros Hmarker H1 H2 H3 Hbound.
  assert (Hm : marker ∈ _KEYS_NUM).
  { apply elem_of_cons in Hmarker as [->|Hmarker];
      [|apply list_elem_of_singleton in Hmarker as ->]; repeat constructor. }
  set (f := summary_report file sample marker m total q5 q7 q10 q12 q15).
  set (ns := [ (marker, VFloat (float_of_Z (Z.of_nat m)));
               ("Number of reads", VFloat (float_of_Z (Z.of_nat total)));
               ("&gt;Q5", VInt (Z.of_nat q5)); ("&gt;Q7", VInt (Z.of_nat q7));
               ("&gt;Q10", VInt (Z.of_nat q10)); ("&gt;Q12", VInt (Z.of_nat q12));
               ("&gt;Q15", VInt (Z.of_nat q15)) ]).
  set (stat_type := variant_of_marker marker).
  set (d := [ (_key_fmt marker stat_type, VFloat (float_of_Z (Z.of_nat m)));
              (_key_fmt "Number of reads" stat_type,
               VFloat (float_of_Z (Z.of_nat total)));
              (_key_fmt "&gt;Q5" stat_type, VInt (Z.of_nat q5));
              (_key_fmt "&gt;Q7" stat_type, VInt (Z.of_nat q7));
              (_key_fmt "&gt;Q10" stat_type, VInt (Z.of_nat q10));
              (_key_fmt "&gt;Q12" stat_type, VInt (Z.of_nat q12));
              (_key_fmt "&gt;Q15" stat_type, VInt (Z.of_nat q15)) ]).
  assert (Hns : parse_lines [] (f_lines f) = Ok ns).
  { unfold f, summary_report. cbn [f_lines parse_lines].
    rewrite (parse_report_number _ _ _ Hm). cbn [mbind result_bind].
    rewrite parse_report_number by (repeat constructor). cbn [mbind result_bind].
    repeat (rewrite parse_report_count by (repeat constructor);
            cbn [mbind result_bind]).
    unfold ns.
    apply elem_of_cons in Hmarker as [->|Hmarker];
      [|apply list_elem_of_singleton in Hmarker as ->]; reflexivity. }
  assert (Hstore : stat_type_of ns = Some stat_type
                   ∧ merge empty_state f (namespaced stat_type ns)
                     = {| nanostat_data := [(sample, d)]; log := [];
                          data_sources := [(sample, file)] |}
                   ∧ _get_total_reads d
                     = (Some (VFloat (float_of_Z (Z.of_nat total))), Some stat_type)
                   ∧ od_get (_key_fmt "&gt;Q5" stat_type) d = Some (VInt (Z.of_nat q5))
                   ∧ od_get (_key_fmt "&gt;Q7" stat_type) d = Some (VInt (Z.of_nat q7))
                   ∧ od_get (_key_fmt "&gt;Q10" stat_type) d = Some (VInt (Z.of_nat q10))
                   ∧ od_get (_key_fmt "&gt;Q12" stat_type) d = Some (VInt (Z.of_nat q12))
                   ∧ od_get (_key_fmt "&gt;Q15" stat_type) d
                     = Some (VInt (Z.of_nat q15))).
  { unfold ns, d, stat_type, f. clear -Hmarker.
    apply elem_of_cons in Hmarker as [->|Hmarker];
      [|apply list_elem_of_singleton in Hmarker as ->];
      repeat split; reflexivity. }
  destruct Hstore as (Hty & Hmerge & Htot & H5 & H7 & H10 & H12 & H15).
  assert (Hload : load empty_state [f]
                  = Ok {| nanostat_data := [(sample, d)]; log := [];
                          data_sources := [(sample, file)] |}).
  { cbn [load]. rewrite (parse_nanostat_log_Some _ _ _ _ Hns Hty), Hmerge.
    reflexivity. }
  assert (Hmono : monotonic_counts d (VFloat (float_of_Z (Z.of_nat total)))
                    (Z.of_nat total)).
  { exists stat_type, (Z.of_nat q5), (Z.of_nat q7), (Z.of_nat q10),
      (Z.of_nat q12), (Z.of_nat q15).
    split; [exact Htot|]. split; [cbn [int_value]; apply float_to_Z_exact; lia|].
    repeat (split; [assumption|]). lia. }
  destruct (sample_row_monotonic sample d _ _ Hmono (or_intror (conj eq_refl Hbound)))
    as (row & st & Hrow & Hgood).
  pose proof (sample_row_stat_type _ _ _ _ Hrow) as Hst.
  rewrite Htot in Hst. cbn [snd] in Hst. subst st.
  eexists _, row. split.
  - unfold __init__. rewrite Hload. cbn [mbind result_bind nanostat_data].
    rewrite ignore_nothing. cbn [length Nat.eqb].
    unfold nanostat_alignment_plot. cbn [fill_bar_data].
    rewrite Hrow. cbn [mbind result_bind od_set fill_bar_data]. reflexivity.
  - cbn [final nanostat_data section_plot bar_data plot_title].
    split; [reflexivity|]. split; [reflexivity|]. split; [exact Hgood|reflexivity].
Qed.

Lemma consistent_report_gives_histogram_witness :
  ∃ r row,
    __init__ example_config [] [summary_report "run1/NanoStats.txt" "S1"
                                  "Active channels" 512 1000 900 700 400 200 50]
    = Ok r
    ∧ keys (nanostat_data (final r)) = ["S1"]
    ∧ bar_data (section_plot r) = [("S1", row)]
    ∧ good_row row (Z.of_nat 1000)
    ∧ plot_title (section_plot r)
      = title_for (Some (variant_of_marker "Active channels")).
Proof.
  apply (consistent_report_gives_histogram example_config "run1/NanoStats.txt" "S1"
           "Active channels" 512 1000 900 700 400 200 50); try lia.
  repeat constructor.
Defined.

End LineFacts.

(** ** The construction of the module *)

Section ConstructionFacts.
Import Py NanoStat.

Lemma load_Raise files st e :
  load st files = Raise e -> e = IndexError ∨ e = ValueError.
Proof.
  revert st; induction files as [|f files IH]; intros st; simpl; [discriminate|].
  destruct (parse_nanostat_log st f) as [st1|e1] eqn:H1; simpl.
  - apply IH.
  - intros [= <-]. exact (parse_nanostat_log_Raise _ _ _ H1).
Qed.

Lemma fill_bar_data_Raise_inv data bars stat_type e :
  fill_bar_data data bars stat_type = Raise e ->
  ∃ sample d, (sample, d) ∈ data ∧ sample_row sample d = Raise e.
Proof.
  revert bars stat_type; induction data as [|[s0 d0] data IH];
    intros bars stat_type; simpl; [discriminate|].
  destruct (sample_row s0 d0) as [[row st]|e0] eqn:Hrow; simpl.
  - intros H. destruct (IH _ _ H) as (s & d & Hin & Hs).
    exists s, d. split; [apply elem_of_cons; now right|exact Hs].
  - intros [= <-]. exists s0, d0. split; [apply elem_of_cons; now left|exact Hrow].
Qed.

Lemma float_of_int_Raise z e : float_of_int z = Raise e -> e = OverflowError.
Proof. unfold float_of_int. now destruct (float_of_Z z); intros [= <-]. Qed.

(** The exceptions of the loop over the ranges, when every count that is
    stored is an integer. *)
Lemma fill_row_Raise sample d stat_type ranges :
  (∀ k v, k ∈ _KEYS_READ_Q ->
     od_get (_key_fmt k stat_type) d = Some v -> ∃ z, v = VInt z) ->
  (∀ k r, (k, r) ∈ ranges -> k = "rest" ∨ k ∈ _KEYS_READ_Q) ->
  ∀ prev row e,
    fill_row sample d (Some stat_type) ranges (Some prev) row = Raise e ->
    (∃ key, e = KeyError key) ∨ (∃ msg, e = AssertionError msg) ∨ e = OverflowError.
Proof.
  intros Hint. induction ranges as [|[k r] ranges IH]; intros Hk prev row e;
    [discriminate|].
  assert (Hk' : ∀ k r, (k, r) ∈ ranges -> k = "rest" ∨ k ∈ _KEYS_READ_Q)
    by (intros k' r' Hin; apply (Hk k' r'), elem_of_cons; now right).
  cbn [fill_row str_of_stat_type default from_option id].
  case_bool_decide as Hrest.
  - destruct (Hk k r) as [->|Hq]; [apply elem_of_cons; now left|contradiction|].
    unfold getitem.
    destruct (od_get (_key_fmt k stat_type) d) as [v|] eqn:Hv;
      cbn [of_option mbind result_bind]; [|intros [= <-]; left; eauto].
    destruct (Hint _ _ Hq Hv) as [z ->].
    destruct (sub prev (VInt z)) as [b|e'] eqn:Hsub; cbn [mbind result_bind].
    + destruct (ge0 b); [apply (IH Hk')|]. intros [= <-]. right; left; eauto.
    + intros [= <-]. right; right.
      destruct prev as [y|x]; simpl in Hsub; [discriminate|].
      destruct (float_of_int z) as [fz|e''] eqn:Hf; simpl in Hsub; [discriminate|].
      injection Hsub as <-. exact (float_of_int_Raise _ _ Hf).
  - unfold getitem.
    destruct (od_get (_key_fmt "&gt;Q15" stat_type) d) as [v|] eqn:Hv;
      cbn [of_option mbind result_bind]; [apply (IH Hk')|].
    intros [= <-]. left; eauto.
Qed.

Lemma sample_row_Raise data sample d e :
  store_well_typed data -> (sample, d) ∈ data ->
  sample_row sample d = Raise e ->
  (∃ key, e = KeyError key) ∨ (∃ msg, e = AssertionError msg) ∨ e = OverflowError.
Proof.
  intros Hst Hin Hrow.
  destruct (typed_total_reads _ _ _ Hst Hin)
    as [(x & stat_type & Htot & Hty & _)|[Htot _]].
  - unfold sample_row in Hrow. rewrite Htot in Hrow.
    destruct (fill_row sample d (Some stat_type) _range_names (Some (VFloat x)) [])
      as [row|e'] eqn:Hfill; [discriminate|]. injection Hrow as <-.
    apply (fill_row_Raise sample d stat_type _range_names) with (VFloat x) [];
      [| |exact Hfill].
    + intros k v Hk. apply (typed_count _ _ _ _ _ _ Hst Hin); [|exact Hk].
      now apply two_variants_stat_types.
    + intros k r Hk. unfold _range_names in Hk.
      repeat (apply elem_of_cons in Hk as [[= -> ->]|Hk];
              [first [now left|right; repeat constructor]|]).
      now apply elem_of_nil in Hk.
  - rewrite (sample_row_no_total _ _ _ Hst Hin Htot) in Hrow.
    injection Hrow as <-. left; eauto.
Qed.

(** X17. The ways the construction of the module fails. Reading the
    reports raises [IndexError] or [ValueError]; when they are read and no
    sample is left, [UserWarning] is raised; otherwise the exception is
    that of the row of some sample that is left, and it is a [KeyError]
    (a count or the number of reads is missing), an [AssertionError] (a
    negative bucket) or an [OverflowError] (a count too large for a
    float). No other exception leaves the constructor; a [TypeError], in
    particular, is never raised. *)
Theorem construction_failures cfg ignore files e :
  __init__ cfg ignore files = Raise e ->
  (load empty_state files = Raise e ∧ (e = IndexError ∨ e = ValueError))
  ∨ ∃ st, load empty_state files = Ok st
      ∧ ((e = UserWarning ∧ ignore_samples ignore (nanostat_data st) = [])
         ∨ (∃ sample d,
              (sample, d) ∈ ignore_samples ignore (nanostat_data st)
              ∧ sample_row sample d = Raise e
              ∧ ((∃ key, e = KeyError key) ∨ (∃ msg, e = AssertionError msg)
                 ∨ e = OverflowError))).
Proof.
  unfold __init__.
  destruct (load empty_state files) as [st|e0] eqn:Hload; cbn [mbind result_bind].
  - intros H. right. exists st. split; [reflexivity|].
    destruct (ignore_samples ignore (nanostat_data st)) as [|x data] eqn:Hdata.
    + left. simpl in H. injection H as <-. now split.
    + right. cbn [length Nat.eqb] in H.
      destruct (nanostat_alignment_plot (x :: data)) as [p|e'] eqn:Hplot;
        [discriminate|]. injection H as <-.
      unfold nanostat_alignment_plot in Hplot.
      destruct (fill_bar_data (x :: data) [] (Some "unrecognized"))
        as [[bars stat_type]|e1] eqn:Hfill; [discriminate|]. injection Hplot as <-.
      apply fill_bar_data_Raise_inv in Hfill as (sample & d & Hin & Hrow).
      exists sample, d. split; [exact Hin|]. split; [exact Hrow|].
      apply (sample_row_Raise (nanostat_data st) sample d);
        [exact (load_empty_typed _ _ Hload)| |exact Hrow].
      rewrite <- Hdata in Hin. unfold ignore_samples in Hin.
      now apply list_elem_of_filter in Hin as [_ Hin].
  - intros [= <-]. left. split; [reflexivity|exact (load_Raise _ _ _ Hload)].
Qed.

Lemma construction_failures_witness :
  __init__ example_config [] [inconsistent_report]
  = Raise (AssertionError (negative_msg "N" "seq summary"))
  ∧ ∃ st, load empty_state [inconsistent_report] = Ok st
      ∧ ∃ sample d,
          (sample, d) ∈ ignore_samples [] (nanostat_data st)
          ∧ sample_row sample d
            = Raise (AssertionError (negative_msg "N" "seq summary")).
Proof.
  assert (H : __init__ example_config [] [inconsistent_report]
              = Raise (AssertionError (negative_msg "N" "seq summary")))
    by (vm_compute; reflexivity).
  split; [exact H|].
  destruct (construction_failures _ _ _ _ H)
    as [[_ [E|E]]|(st & Hst & [[E _]|(sample & d & Hin & Hrow & _)])];
    try discriminate E.
  exists st. split; [exact Hst|]. now exists sample, d.
Defined.

End ConstructionFacts.
